(** * NPGR019, lab 06 "Shading": a shallow embedding of [06-Shading/main.cpp]

    The program is a single-threaded OpenGL demo.  Its file-scope globals
    become the record [App]; every function of [main.cpp] becomes a state
    transformer over [App] in the monad [Prog]; the OpenGL context the program
    talks to is the record [GLState], driven by one constructor of [GLCall]
    per API entry point the program uses.  Every call that reaches the
    context is appended to a log, so that ordering properties of a frame can
    be read off the log.

    Floating point numbers, the camera, the rasteriser and the name allocator
    of the GL implementation are interfaces (type classes): the program is
    verified for every implementation of them. *)

From stdpp Require Import gmap list strings functions.
From Stdlib Require Import ZArith QArith.
Local Open Scope Z_scope.

(** ** Scalars *)

(** [float] is the C++ [float], [double] the C++ [double].  A literal such as
    [20.0f] is [fconst 20]; no algebraic law is assumed of the operations.
    [flt] is [<] and [fge] is [>=]: one is not the negation of the other,
    both are false when an operand is a NaN. *)
Class FloatOps := {
  float : Type;
  double : Type;
  fconst : Q → float;
  fadd : float → float → float;
  fsub : float → float → float;
  fmul : float → float → float;
  fdiv : float → float → float;
  fcos : float → float;
  fsin : float → float;
  fsqrt : float → float;
  flt : float → float → bool;
  fge : float → float → bool;
  float_of_int : Z → float;
  dconst : Q → double;
  dsub : double → double → double;
  float_of_double : double → float;
}.

Declare Scope float_scope.
Delimit Scope float_scope with F.
Notation "a + b" := (fadd a b) : float_scope.
Notation "a - b" := (fsub a b) : float_scope.
Notation "a * b" := (fmul a b) : float_scope.
Notation "a / b" := (fdiv a b) : float_scope.

(** ** The parts of GLM the program uses

    GLM is an external header-only library; the definitions follow its
    reference implementation ([glm/detail/type_mat4x4.inl],
    [glm/ext/matrix_transform.inl], [glm/gtx/transform.inl]).  A matrix
    [matCxR] has [C] columns of [R] components and is stored column after
    column. *)
Module glm.
Section Glm.
Context {FO : FloatOps}.

Record vec2 := Vec2 { v2_x : float; v2_y : float }.
Record vec3 := Vec3 { v3_x : float; v3_y : float; v3_z : float }.
Record vec4 := Vec4 { v4_x : float; v4_y : float; v4_z : float; v4_w : float }.

(** [glm::mat4x4]: four columns of four components. *)
Record mat4x4 := Mat4x4 { m4_0 : vec4; m4_1 : vec4; m4_2 : vec4; m4_3 : vec4 }.
(** [glm::mat3x4]: three columns of four components (48 bytes). *)
Record mat3x4 := Mat3x4 { m34_0 : vec4; m34_1 : vec4; m34_2 : vec4 }.
(** [glm::mat4x3]: four columns of three components. *)
Record mat4x3 := Mat4x3 { m43_0 : vec3; m43_1 : vec3; m43_2 : vec3; m43_3 : vec3 }.

Definition vec4_mul (v : vec4) (s : float) : vec4 :=
  Vec4 (v4_x v * s)%F (v4_y v * s)%F (v4_z v * s)%F (v4_w v * s)%F.

Definition vec4_add (a b : vec4) : vec4 :=
  Vec4 (v4_x a + v4_x b)%F (v4_y a + v4_y b)%F (v4_z a + v4_z b)%F (v4_w a + v4_w b)%F.

Definition vec3_mul (v : vec3) (s : float) : vec3 :=
  Vec3 (v3_x v * s)%F (v3_y v * s)%F (v3_z v * s)%F.

(** [s * v] for a scalar on the left. *)
Definition vec3_lmul (s : float) (v : vec3) : vec3 :=
  Vec3 (s * v3_x v)%F (s * v3_y v)%F (s * v3_z v)%F.

Definition vec3_of_vec4 (v : vec4) : vec3 := Vec3 (v4_x v) (v4_y v) (v4_z v).

(** [glm::dot] on [vec3]: [tmp = a * b; tmp.x + tmp.y + tmp.z]. *)
Definition dot (a b : vec3) : float :=
  ((v3_x a * v3_x b) + (v3_y a * v3_y b) + (v3_z a * v3_z b))%F.

Definition inversesqrt (x : float) : float := (fconst 1 / fsqrt x)%F.

Definition normalize (v : vec3) : vec3 := vec3_mul v (inversesqrt (dot v v)).

(** [glm::radians]: degrees times pi/180 (the literal of the header). *)
Definition radians (degrees : float) : float :=
  (degrees * fconst 0.01745329251994329576923690768489)%F.

(** [mat4(1)], the identity. *)
Definition mat4_identity : mat4x4 :=
  Mat4x4 (Vec4 (fconst 1) (fconst 0) (fconst 0) (fconst 0))
         (Vec4 (fconst 0) (fconst 1) (fconst 0) (fconst 0))
         (Vec4 (fconst 0) (fconst 0) (fconst 1) (fconst 0))
         (Vec4 (fconst 0) (fconst 0) (fconst 0) (fconst 1)).

(** [glm::translate(m, v)] *)
Definition translate_m (m : mat4x4) (v : vec3) : mat4x4 :=
  Mat4x4 (m4_0 m) (m4_1 m) (m4_2 m)
    (vec4_add (vec4_add (vec4_add (vec4_mul (m4_0 m) (v3_x v))
                                  (vec4_mul (m4_1 m) (v3_y v)))
                        (vec4_mul (m4_2 m) (v3_z v)))
              (m4_3 m)).

(** [glm::translate(v)] of [gtx/transform]. *)
Definition translate (v : vec3) : mat4x4 := translate_m mat4_identity v.

(** The three linear combinations of columns used by [rotate] and [scale]. *)
Definition comb3 (m : mat4x4) (a b c : float) : vec4 :=
  vec4_add (vec4_add (vec4_mul (m4_0 m) a) (vec4_mul (m4_1 m) b))
           (vec4_mul (m4_2 m) c).

(** [glm::rotate(m, angle, v)] *)
Definition rotate_m (m : mat4x4) (angle : float) (v : vec3) : mat4x4 :=
  let c := fcos angle in
  let s := fsin angle in
  let axis := normalize v in
  let temp := vec3_lmul (fconst 1 - c)%F axis in
  let r00 := (c + v3_x temp * v3_x axis)%F in
  let r01 := (v3_x temp * v3_y axis + s * v3_z axis)%F in
  let r02 := (v3_x temp * v3_z axis - s * v3_y axis)%F in
  let r10 := (v3_y temp * v3_x axis - s * v3_z axis)%F in
  let r11 := (c + v3_y temp * v3_y axis)%F in
  let r12 := (v3_y temp * v3_z axis + s * v3_x axis)%F in
  let r20 := (v3_z temp * v3_x axis + s * v3_y axis)%F in
  let r21 := (v3_z temp * v3_y axis - s * v3_x axis)%F in
  let r22 := (c + v3_z temp * v3_z axis)%F in
  Mat4x4 (comb3 m r00 r01 r02) (comb3 m r10 r11 r12) (comb3 m r20 r21 r22)
         (m4_3 m).

(** [glm::rotate(angle, v)] of [gtx/transform]. *)
Definition rotate (angle : float) (v : vec3) : mat4x4 :=
  rotate_m mat4_identity angle v.

(** [glm::scale(v)] of [gtx/transform]: [scale(mat4(1), v)]. *)
Definition scale (v : vec3) : mat4x4 :=
  let m := mat4_identity in
  Mat4x4 (vec4_mul (m4_0 m) (v3_x v)) (vec4_mul (m4_1 m) (v3_y v))
         (vec4_mul (m4_2 m) (v3_z v)) (m4_3 m).

(** One column of [m1 * m2]: [m1] applied to the column [b] of [m2]. *)
Definition mat4_mul_col (m1 : mat4x4) (b : vec4) : vec4 :=
  vec4_add (vec4_add (vec4_add (vec4_mul (m4_0 m1) (v4_x b))
                               (vec4_mul (m4_1 m1) (v4_y b)))
                     (vec4_mul (m4_2 m1) (v4_z b)))
           (vec4_mul (m4_3 m1) (v4_w b)).

(** [operator*] on [mat4x4]. *)
Definition mat4_mul (m1 m2 : mat4x4) : mat4x4 :=
  Mat4x4 (mat4_mul_col m1 (m4_0 m2)) (mat4_mul_col m1 (m4_1 m2))
         (mat4_mul_col m1 (m4_2 m2)) (mat4_mul_col m1 (m4_3 m2)).

(** Row [k] of a [mat4x4], as the four entries [m[0][k] .. m[3][k]]. *)
Definition row_x (m : mat4x4) : vec4 :=
  Vec4 (v4_x (m4_0 m)) (v4_x (m4_1 m)) (v4_x (m4_2 m)) (v4_x (m4_3 m)).
Definition row_y (m : mat4x4) : vec4 :=
  Vec4 (v4_y (m4_0 m)) (v4_y (m4_1 m)) (v4_y (m4_2 m)) (v4_y (m4_3 m)).
Definition row_z (m : mat4x4) : vec4 :=
  Vec4 (v4_z (m4_0 m)) (v4_z (m4_1 m)) (v4_z (m4_2 m)) (v4_z (m4_3 m)).
Definition row_w (m : mat4x4) : vec4 :=
  Vec4 (v4_w (m4_0 m)) (v4_w (m4_1 m)) (v4_w (m4_2 m)) (v4_w (m4_3 m)).

(** [glm::transpose] on [mat4x4]. *)
Definition transpose (m : mat4x4) : mat4x4 :=
  Mat4x4 (row_x m) (row_y m) (row_z m) (row_w m).

(** The converting constructor [mat3x4(mat4x4 const&)]: the first three
    columns. *)
Definition mat3x4_of_mat4 (m : mat4x4) : mat3x4 :=
  Mat3x4 (m4_0 m) (m4_1 m) (m4_2 m).

(** The converting constructor [mat4x3(mat4x4 const&)]: every column cut to
    its first three components. *)
Definition mat4x3_of_mat4 (m : mat4x4) : mat4x3 :=
  Mat4x3 (vec3_of_vec4 (m4_0 m)) (vec3_of_vec4 (m4_1 m))
         (vec3_of_vec4 (m4_2 m)) (vec3_of_vec4 (m4_3 m)).

Definition vec3_floats (v : vec3) : list float := [v3_x v; v3_y v; v3_z v].
Definition vec4_floats (v : vec4) : list float := [v4_x v; v4_y v; v4_z v; v4_w v].

(** [glm::value_ptr]: the floats of a matrix in storage order. *)
Definition value_ptr_mat3x4 (m : mat3x4) : list float :=
  vec4_floats (m34_0 m) ++ vec4_floats (m34_1 m) ++ vec4_floats (m34_2 m).
Definition value_ptr_mat4x4 (m : mat4x4) : list float :=
  vec4_floats (m4_0 m) ++ vec4_floats (m4_1 m) ++ vec4_floats (m4_2 m)
  ++ vec4_floats (m4_3 m).
Definition value_ptr_mat4x3 (m : mat4x3) : list float :=
  vec3_floats (m43_0 m) ++ vec3_floats (m43_1 m) ++ vec3_floats (m43_2 m)
  ++ vec3_floats (m43_3 m).

End Glm.
End glm.

(** ** The OpenGL context

    Object names are [GLuint]s ([N]); sizes and coordinates are [Z].  The
    model follows the OpenGL 3.3 core specification for the entry points the
    program calls: an erroneous command sets an error flag and is otherwise
    ignored, so it leaves the state unchanged here. *)

Inductive Capability := GL_CULL_FACE | GL_DEPTH_TEST | GL_MULTISAMPLE | GL_FRAMEBUFFER_SRGB.
Inductive FramebufferTarget := GL_FRAMEBUFFER | GL_DRAW_FRAMEBUFFER | GL_READ_FRAMEBUFFER.
Inductive TextureTarget := GL_TEXTURE_2D | GL_TEXTURE_2D_MULTISAMPLE.
Inductive Attachment := GL_COLOR_ATTACHMENT0 | GL_DEPTH_ATTACHMENT.
Inductive InternalFormat := GL_RGB16F | GL_DEPTH_COMPONENT32F.
Inductive PolygonMode := GL_LINE | GL_FILL.
Inductive Primitive := GL_TRIANGLES | GL_POINTS.
Inductive TexParam := GL_TEXTURE_MIN_FILTER | GL_TEXTURE_MAG_FILTER.

#[global] Instance TextureTarget_eq_dec : EqDecision TextureTarget.
Proof. solve_decision. Defined.
#[global] Instance Attachment_eq_dec : EqDecision Attachment.
Proof. solve_decision. Defined.

Section Context3D.
Context {FO : FloatOps}.

(** One constructor per OpenGL command of [main.cpp].  The [glGen*] commands
    carry the name the implementation handed out; [memcpy_mapped] is the
    [memcpy] through the pointer returned by [glMapBuffer]. *)
Inductive GLCall :=
| glViewport (x y width height : Z)
| glEnable (cap : Capability)
| glDisable (cap : Capability)
| glCullFace_BACK
| glDepthFunc_LEQUAL
| glDepthMask (flag : bool)
| glPolygonMode (mode : PolygonMode)
| glClearColor (r g b a : float)
| glClear (color depth : bool)
| glPointSize (size : float)
| glUseProgram (program : N)
| glCreateProgram (name : N)
| glDeleteProgram (program : N)
| glUniform1f (location : Z) (v0 : float)
| glUniform3f (location : Z) (v0 v1 v2 : float)
| glUniform4f (location : Z) (v0 v1 v2 v3 : float)
| glUniform3fv (location : Z) (value : list float)
| glUniformMatrix4x3fv (location : Z) (value : list float)
| glActiveTexture (unit : N)
| glGenTextures (name : N)
| glBindTexture (target : TextureTarget) (texture : N)
| glTexImage2D (target : TextureTarget) (format : InternalFormat) (width height : Z)
| glTexImage2DMultisample (target : TextureTarget) (samples : Z)
    (format : InternalFormat) (width height : Z)
| glTexParameteri_LINEAR (target : TextureTarget) (pname : TexParam)
| glDeleteTextures (names : list N)
| glGenSamplers (name : N)
| glBindSampler (unit sampler : N)
| glGenFramebuffers (name : N)
| glBindFramebuffer (target : FramebufferTarget) (framebuffer : N)
| glFramebufferTexture2D (attachment : Attachment) (textarget : TextureTarget)
    (texture : N)
| glFramebufferRenderbuffer (attachment : Attachment) (renderbuffer : N)
| glDrawBuffers (bufs : list Attachment)
| glDrawBuffer_BACK
| glDeleteFramebuffers (names : list N)
| glBlitFramebuffer (srcX0 srcY0 srcX1 srcY1 dstX0 dstY0 dstX1 dstY1 : Z)
| glGenRenderbuffers (name : N)
| glBindRenderbuffer (renderbuffer : N)
| glRenderbufferStorage (format : InternalFormat) (width height : Z)
| glRenderbufferStorageMultisample (samples : Z) (format : InternalFormat)
    (width height : Z)
| glDeleteRenderbuffers (names : list N)
| glGenBuffers (name : N)
| glBindBuffer (buffer : N)
| glBindBufferBase (index buffer : N)
| glBufferData (size : Z)
| glBufferSubData (offset size : Z) (data : list float)
| glMapBuffer
| memcpy_mapped (size : Z) (data : list float)
| glUnmapBuffer
| glDeleteBuffers (names : list N)
| glGenVertexArrays (name : N)
| glBindVertexArray (array : N)
| glDeleteVertexArrays (names : list N)
| glDrawElements (mode : Primitive) (count : Z)
| glDrawElementsInstanced (mode : Primitive) (count instancecount : Z)
| glDrawArrays (mode : Primitive) (first count : Z).

(** The pixels of an image are left to the rasteriser. *)
Class ImageType := { Image : Type; blank : Image }.
Context {IM : ImageType}.

(** The storage a texture or renderbuffer was given: [st_samples] is [0] for
    single-sample storage. *)
Record Storage := MkStorage {
  st_samples : Z; st_format : InternalFormat; st_width : Z; st_height : Z }.

(** A texture name; [tex_target = None] until the name is bound for the first
    time (a generated name is not yet a texture object). *)
Record Texture := MkTexture {
  tex_target : option TextureTarget;
  tex_storage : option Storage;
  tex_image : Image }.

Record Renderbuffer := MkRenderbuffer {
  rb_created : bool;
  rb_storage : option Storage;
  rb_image : Image }.

(** A framebuffer object with the names attached to it ([0]: nothing). *)
Record Framebuffer := MkFramebuffer {
  fb_created : bool;
  fb_color : N;
  fb_depth : N }.

(** A buffer object; the data store maps the byte offset of every float that
    was written to its value. *)
Record Buffer := MkBuffer {
  buf_created : bool;
  buf_size : Z;
  buf_data : gmap Z float;
  buf_mapped : bool }.

Record GLState := MkGLState {
  (** the object stores, one name space per object type *)
  textures : gmap N Texture;
  renderbuffers : gmap N Renderbuffer;
  framebuffers : gmap N Framebuffer;
  buffers : gmap N Buffer;
  vertex_arrays : gset N;
  programs : gset N;
  samplers : gset N;
  (** the binding points *)
  draw_framebuffer : N;
  read_framebuffer : N;
  renderbuffer_binding : N;
  active_texture : N;
  texture_binding_2d : gmap N N;
  texture_binding_2dms : gmap N N;
  sampler_binding : gmap N N;
  uniform_buffer_binding : N;
  uniform_buffer_base : gmap N N;
  vertex_array_binding : N;
  current_program : N;
  (** uniform values, by program and location *)
  uniforms : gmap (N * Z) (list float);
  (** fixed-function state *)
  cull_face : bool;
  depth_test : bool;
  multisample : bool;
  framebuffer_srgb : bool;
  depth_mask : bool;
  polygon_mode : PolygonMode;
  clear_color : list float;
  point_size : option float;
  viewport : Z * Z * Z * Z;
  (** the default framebuffer (name 0) of the window *)
  window_color : Image;
  window_depth : Image;
}.

Definition set_textures (v : gmap N Texture) (s : GLState) : GLState :=
  MkGLState v (renderbuffers s) (framebuffers s) (buffers s) (vertex_arrays s)
    (programs s) (samplers s) (draw_framebuffer s) (read_framebuffer s)
    (renderbuffer_binding s) (active_texture s) (texture_binding_2d s)
    (texture_binding_2dms s) (sampler_binding s) (uniform_buffer_binding s)
    (uniform_buffer_base s) (vertex_array_binding s) (current_program s)
    (uniforms s) (cull_face s) (depth_test s) (multisample s)
    (framebuffer_srgb s) (depth_mask s) (polygon_mode s) (clear_color s)
    (point_size s) (viewport s) (window_color s) (window_depth s).
Definition set_renderbuffers (v : gmap N Renderbuffer) (s : GLState) : GLState :=
  MkGLState (textures s) v (framebuffers s) (buffers s) (vertex_arrays s)
    (programs s) (samplers s) (draw_framebuffer s) (read_framebuffer s)
    (renderbuffer_binding s) (active_texture s) (texture_binding_2d s)
    (texture_binding_2dms s) (sampler_binding s) (uniform_buffer_binding s)
    (uniform_buffer_base s) (vertex_array_binding s) (current_program s)
    (uniforms s) (cull_face s) (depth_test s) (multisample s)
    (framebuffer_srgb s) (depth_mask s) (polygon_mode s) (clear_color s)
    (point_size s) (viewport s) (window_color s) (window_depth s).
Definition set_framebuffers (v : gmap N Framebuffer) (s : GLState) : GLState :=
  MkGLState (textures s) (renderbuffers s) v (buffers s) (vertex_arrays s)
    (programs s) (samplers s) (draw_framebuffer s) (read_framebuffer s)
    (renderbuffer_binding s) (active_texture s) (texture_binding_2d s)
    (texture_binding_2dms s) (sampler_binding s) (uniform_buffer_binding s)
    (uniform_buffer_base s) (vertex_array_binding s) (current_program s)
    (uniforms s) (cull_face s) (depth_test s) (multisample s)
    (framebuffer_srgb s) (depth_mask s) (polygon_mode s) (clear_color s)
    (point_size s) (viewport s) (window_color s) (window_depth s).
Definition set_buffers (v : gmap N Buffer) (s : GLState) : GLState :=
  MkGLState (textures s) (renderbuffers s) (framebuffers s) v
    (vertex_arrays s) (programs s) (samplers s) (draw_framebuffer s)
    (read_framebuffer s) (renderbuffer_binding s) (active_texture s)
    (texture_binding_2d s) (texture_binding_2dms s) (sampler_binding s)
    (uniform_buffer_binding s) (uniform_buffer_base s)
    (vertex_array_binding s) (current_program s) (uniforms s) (cull_face s)
    (depth_test s) (multisample s) (framebuffer_srgb s) (depth_mask s)
    (polygon_mode s) (clear_color s) (point_size s) (viewport s)
    (window_color s) (window_depth s).
Definition set_vertex_arrays (v : gset N) (s : GLState) : GLState :=
  MkGLState (textures s) (renderbuffers s) (framebuffers s) (buffers s) v
    (programs s) (samplers s) (draw_framebuffer s) (read_framebuffer s)
    (renderbuffer_binding s) (active_texture s) (texture_binding_2d s)
    (texture_binding_2dms s) (sampler_binding s) (uniform_buffer_binding s)
    (uniform_buffer_base s) (vertex_array_binding s) (current_program s)
    (uniforms s) (cull_face s) (depth_test s) (multisample s)
    (framebuffer_srgb s) (depth_mask s) (polygon_mode s) (clear_color s)
    (point_size s) (viewport s) (window_color s) (window_depth s).
Definition set_programs (v : gset N) (s : GLState) : GLState :=
  MkGLState (textures s) (renderbuffers s) (framebuffers s) (buffers s)
    (vertex_arrays s) v (samplers s) (draw_framebuffer s) (read_framebuffer s)
    (renderbuffer_binding s) (active_texture s) (texture_binding_2d s)
    (texture_binding_2dms s) (sampler_binding s) (uniform_buffer_binding s)
    (uniform_buffer_base s) (vertex_array_binding s) (current_program s)
    (uniforms s) (cull_face s) (depth_test s) (multisample s)
    (framebuffer_srgb s) (depth_mask s) (polygon_mode s) (clear_color s)
    (point_size s) (viewport s) (window_color s) (window_depth s).
Definition set_samplers (v : gset N) (s : GLState) : GLState :=
  MkGLState (textures s) (renderbuffers s) (framebuffers s) (buffers s)
    (vertex_arrays s) (programs s) v (draw_framebuffer s) (read_framebuffer s)
    (renderbuffer_binding s) (active_texture s) (texture_binding_2d s)
    (texture_binding_2dms s) (sampler_binding s) (uniform_buffer_binding s)
    (uniform_buffer_base s) (vertex_array_binding s) (current_program s)
    (uniforms s) (cull_face s) (depth_test s) (multisample s)
    (framebuffer_srgb s) (depth_mask s) (polygon_mode s) (clear_color s)
    (point_size s) (viewport s) (window_color s) (window_depth s).
Definition set_draw_framebuffer (v : N) (s : GLState) : GLState :=
  MkGLState (textures s) (renderbuffers s) (framebuffers s) (buffers s)
    (vertex_arrays s) (programs s) (samplers s) v (read_framebuffer s)
    (renderbuffer_binding s) (active_texture s) (texture_binding_2d s)
    (texture_binding_2dms s) (sampler_binding s) (uniform_buffer_binding s)
    (uniform_buffer_base s) (vertex_array_binding s) (current_program s)
    (uniforms s) (cull_face s) (depth_test s) (multisample s)
    (framebuffer_srgb s) (depth_mask s) (polygon_mode s) (clear_color s)
    (point_size s) (viewport s) (window_color s) (window_depth s).
Definition set_read_framebuffer (v : N) (s : GLState) : GLState :=
  MkGLState (textures s) (renderbuffers s) (framebuffers s) (buffers s)
    (vertex_arrays s) (programs s) (samplers s) (draw_framebuffer s) v
    (renderbuffer_binding s) (active_texture s) (texture_binding_2d s)
    (texture_binding_2dms s) (sampler_binding s) (uniform_buffer_binding s)
    (uniform_buffer_base s) (vertex_array_binding s) (current_program s)
    (uniforms s) (cull_face s) (depth_test s) (multisample s)
    (framebuffer_srgb s) (depth_mask s) (polygon_mode s) (clear_color s)
    (point_size s) (viewport s) (window_color s) (window_depth s).
Definition set_renderbuffer_binding (v : N) (s : GLState) : GLState :=
  MkGLState (textures s) (renderbuffers s) (framebuffers s) (buffers s)
    (vertex_arrays s) (programs s) (samplers s) (draw_framebuffer s)
    (read_framebuffer s) v (active_texture s) (texture_binding_2d s)
    (texture_binding_2dms s) (sampler_binding s) (uniform_buffer_binding s)
    (uniform_buffer_base s) (vertex_array_binding s) (current_program s)
    (uniforms s) (cull_face s) (depth_test s) (multisample s)
    (framebuffer_srgb s) (depth_mask s) (polygon_mode s) (clear_color s)
    (point_size s) (viewport s) (window_color s) (window_depth s).
Definition set_active_texture (v : N) (s : GLState) : GLState :=
  MkGLState (textures s) (renderbuffers s) (framebuffers s) (buffers s)
    (vertex_arrays s) (programs s) (samplers s) (draw_framebuffer s)
    (read_framebuffer s) (renderbuffer_binding s) v (texture_binding_2d s)
    (texture_binding_2dms s) (sampler_binding s) (uniform_buffer_binding s)
    (uniform_buffer_base s) (vertex_array_binding s) (current_program s)
    (uniforms s) (cull_face s) (depth_test s) (multisample s)
    (framebuffer_srgb s) (depth_mask s) (polygon_mode s) (clear_color s)
    (point_size s) (viewport s) (window_color s) (window_depth s).
Definition set_texture_binding_2d (v : gmap N N) (s : GLState) : GLState :=
  MkGLState (textures s) (renderbuffers s) (framebuffers s) (buffers s)
    (vertex_arrays s) (programs s) (samplers s) (draw_framebuffer s)
    (read_framebuffer s) (renderbuffer_binding s) (active_texture s) v
    (texture_binding_2dms s) (sampler_binding s) (uniform_buffer_binding s)
    (uniform_buffer_base s) (vertex_array_binding s) (current_program s)
    (uniforms s) (cull_face s) (depth_test s) (multisample s)
    (framebuffer_srgb s) (depth_mask s) (polygon_mode s) (clear_color s)
    (point_size s) (viewport s) (window_color s) (window_depth s).
Definition set_texture_binding_2dms (v : gmap N N) (s : GLState) : GLState :=
  MkGLState (textures s) (renderbuffers s) (framebuffers s) (buffers s)
    (vertex_arrays s) (programs s) (samplers s) (draw_framebuffer s)
    (read_framebuffer s) (renderbuffer_binding s) (active_texture s)
    (texture_binding_2d s) v (sampler_binding s) (uniform_buffer_binding s)
    (uniform_buffer_base s) (vertex_array_binding s) (current_program s)
    (uniforms s) (cull_face s) (depth_test s) (multisample s)
    (framebuffer_srgb s) (depth_mask s) (polygon_mode s) (clear_color s)
    (point_size s) (viewport s) (window_color s) (window_depth s).
Definition set_sampler_binding (v : gmap N N) (s : GLState) : GLState :=
  MkGLState (textures s) (renderbuffers s) (framebuffers s) (buffers s)
    (vertex_arrays s) (programs s) (samplers s) (draw_framebuffer s)
    (read_framebuffer s) (renderbuffer_binding s) (active_texture s)
    (texture_binding_2d s) (texture_binding_2dms s) v
    (uniform_buffer_binding s) (uniform_buffer_base s)
    (vertex_array_binding s) (current_program s) (uniforms s) (cull_face s)
    (depth_test s) (multisample s) (framebuffer_srgb s) (depth_mask s)
    (polygon_mode s) (clear_color s) (point_size s) (viewport s)
    (window_color s) (window_depth s).
Definition set_uniform_buffer_binding (v : N) (s : GLState) : GLState :=
  MkGLState (textures s) (renderbuffers s) (framebuffers s) (buffers s)
    (vertex_arrays s) (programs s) (samplers s) (draw_framebuffer s)
    (read_framebuffer s) (renderbuffer_binding s) (active_texture s)
    (texture_binding_2d s) (texture_binding_2dms s) (sampler_binding s) v
    (uniform_buffer_base s) (vertex_array_binding s) (current_program s)
    (uniforms s) (cull_face s) (depth_test s) (multisample s)
    (framebuffer_srgb s) (depth_mask s) (polygon_mode s) (clear_color s)
    (point_size s) (viewport s) (window_color s) (window_depth s).
Definition set_uniform_buffer_base (v : gmap N N) (s : GLState) : GLState :=
  MkGLState (textures s) (renderbuffers s) (framebuffers s) (buffers s)
    (vertex_arrays s) (programs s) (samplers s) (draw_framebuffer s)
    (read_framebuffer s) (renderbuffer_binding s) (active_texture s)
    (texture_binding_2d s) (texture_binding_2dms s) (sampler_binding s)
    (uniform_buffer_binding s) v (vertex_array_binding s) (current_program s)
    (uniforms s) (cull_face s) (depth_test s) (multisample s)
    (framebuffer_srgb s) (depth_mask s) (polygon_mode s) (clear_color s)
    (point_size s) (viewport s) (window_color s) (window_depth s).
Definition set_vertex_array_binding (v : N) (s : GLState) : GLState :=
  MkGLState (textures s) (renderbuffers s) (framebuffers s) (buffers s)
    (vertex_arrays s) (programs s) (samplers s) (draw_framebuffer s)
    (read_framebuffer s) (renderbuffer_binding s) (active_texture s)
    (texture_binding_2d s) (texture_binding_2dms s) (sampler_binding s)
    (uniform_buffer_binding s) (uniform_buffer_base s) v (current_program s)
    (uniforms s) (cull_face s) (depth_test s) (multisample s)
    (framebuffer_srgb s) (depth_mask s) (polygon_mode s) (clear_color s)
    (point_size s) (viewport s) (window_color s) (window_depth s).
Definition set_current_program (v : N) (s : GLState) : GLState :=
  MkGLState (textures s) (renderbuffers s) (framebuffers s) (buffers s)
    (vertex_arrays s) (programs s) (samplers s) (draw_framebuffer s)
    (read_framebuffer s) (renderbuffer_binding s) (active_texture s)
    (texture_binding_2d s) (texture_binding_2dms s) (sampler_binding s)
    (uniform_buffer_binding s) (uniform_buffer_base s)
    (vertex_array_binding s) v (uniforms s) (cull_face s) (depth_test s)
    (multisample s) (framebuffer_srgb s) (depth_mask s) (polygon_mode s)
    (clear_color s) (point_size s) (viewport s) (window_color s)
    (window_depth s).
Definition set_uniforms (v : gmap (N * Z) (list float)) (s : GLState) : GLState :=
  MkGLState (textures s) (renderbuffers s) (framebuffers s) (buffers s)
    (vertex_arrays s) (programs s) (samplers s) (draw_framebuffer s)
    (read_framebuffer s) (renderbuffer_binding s) (active_texture s)
    (texture_binding_2d s) (texture_binding_2dms s) (sampler_binding s)
    (uniform_buffer_binding s) (uniform_buffer_base s)
    (vertex_array_binding s) (current_program s) v (cull_face s)
    (depth_test s) (multisample s) (framebuffer_srgb s) (depth_mask s)
    (polygon_mode s) (clear_color s) (point_size s) (viewport s)
    (window_color s) (window_depth s).
Definition set_cull_face (v : bool) (s : GLState) : GLState :=
  MkGLState (textures s) (renderbuffers s) (framebuffers s) (buffers s)
    (vertex_arrays s) (programs s) (samplers s) (draw_framebuffer s)
    (read_framebuffer s) (renderbuffer_binding s) (active_texture s)
    (texture_binding_2d s) (texture_binding_2dms s) (sampler_binding s)
    (uniform_buffer_binding s) (uniform_buffer_base s)
    (vertex_array_binding s) (current_program s) (uniforms s) v (depth_test s)
    (multisample s) (framebuffer_srgb s) (depth_mask s) (polygon_mode s)
    (clear_color s) (point_size s) (viewport s) (window_color s)
    (window_depth s).
Definition set_depth_test (v : bool) (s : GLState) : GLState :=
  MkGLState (textures s) (renderbuffers s) (framebuffers s) (buffers s)
    (vertex_arrays s) (programs s) (samplers s) (draw_framebuffer s)
    (read_framebuffer s) (renderbuffer_binding s) (active_texture s)
    (texture_binding_2d s) (texture_binding_2dms s) (sampler_binding s)
    (uniform_buffer_binding s) (uniform_buffer_base s)
    (vertex_array_binding s) (current_program s) (uniforms s) (cull_face s) v
    (multisample s) (framebuffer_srgb s) (depth_mask s) (polygon_mode s)
    (clear_color s) (point_size s) (viewport s) (window_color s)
    (window_depth s).
Definition set_multisample (v : bool) (s : GLState) : GLState :=
  MkGLState (textures s) (renderbuffers s) (framebuffers s) (buffers s)
    (vertex_arrays s) (programs s) (samplers s) (draw_framebuffer s)
    (read_framebuffer s) (renderbuffer_binding s) (active_texture s)
    (texture_binding_2d s) (texture_binding_2dms s) (sampler_binding s)
    (uniform_buffer_binding s) (uniform_buffer_base s)
    (vertex_array_binding s) (current_program s) (uniforms s) (cull_face s)
    (depth_test s) v (framebuffer_srgb s) (depth_mask s) (polygon_mode s)
    (clear_color s) (point_size s) (viewport s) (window_color s)
    (window_depth s).
Definition set_framebuffer_srgb (v : bool) (s : GLState) : GLState :=
  MkGLState (textures s) (renderbuffers s) (framebuffers s) (buffers s)
    (vertex_arrays s) (programs s) (samplers s) (draw_framebuffer s)
    (read_framebuffer s) (renderbuffer_binding s) (active_texture s)
    (texture_binding_2d s) (texture_binding_2dms s) (sampler_binding s)
    (uniform_buffer_binding s) (uniform_buffer_base s)
    (vertex_array_binding s) (current_program s) (uniforms s) (cull_face s)
    (depth_test s) (multisample s) v (depth_mask s) (polygon_mode s)
    (clear_color s) (point_size s) (viewport s) (window_color s)
    (window_depth s).
Definition set_depth_mask (v : bool) (s : GLState) : GLState :=
  MkGLState (textures s) (renderbuffers s) (framebuffers s) (buffers s)
    (vertex_arrays s) (programs s) (samplers s) (draw_framebuffer s)
    (read_framebuffer s) (renderbuffer_binding s) (active_texture s)
    (texture_binding_2d s) (texture_binding_2dms s) (sampler_binding s)
    (uniform_buffer_binding s) (uniform_buffer_base s)
    (vertex_array_binding s) (current_program s) (uniforms s) (cull_face s)
    (depth_test s) (multisample s) (framebuffer_srgb s) v (polygon_mode s)
    (clear_color s) (point_size s) (viewport s) (window_color s)
    (window_depth s).
Definition set_polygon_mode (v : PolygonMode) (s : GLState) : GLState :=
  MkGLState (textures s) (renderbuffers s) (framebuffers s) (buffers s)
    (vertex_arrays s) (programs s) (samplers s) (draw_framebuffer s)
    (read_framebuffer s) (renderbuffer_binding s) (active_texture s)
    (texture_binding_2d s) (texture_binding_2dms s) (sampler_binding s)
    (uniform_buffer_binding s) (uniform_buffer_base s)
    (vertex_array_binding s) (current_program s) (uniforms s) (cull_face s)
    (depth_test s) (multisample s) (framebuffer_srgb s) (depth_mask s) v
    (clear_color s) (point_size s) (viewport s) (window_color s)
    (window_depth s).
Definition set_clear_color (v : list float) (s : GLState) : GLState :=
  MkGLState (textures s) (renderbuffers s) (framebuffers s) (buffers s)
    (vertex_arrays s) (programs s) (samplers s) (draw_framebuffer s)
    (read_framebuffer s) (renderbuffer_binding s) (active_texture s)
    (texture_binding_2d s) (texture_binding_2dms s) (sampler_binding s)
    (uniform_buffer_binding s) (uniform_buffer_base s)
    (vertex_array_binding s) (current_program s) (uniforms s) (cull_face s)
    (depth_test s) (multisample s) (framebuffer_srgb s) (depth_mask s)
    (polygon_mode s) v (point_size s) (viewport s) (window_color s)
    (window_depth s).
Definition set_point_size (v : option float) (s : GLState) : GLState :=
  MkGLState (textures s) (renderbuffers s) (framebuffers s) (buffers s)
    (vertex_arrays s) (programs s) (samplers s) (draw_framebuffer s)
    (read_framebuffer s) (renderbuffer_binding s) (active_texture s)
    (texture_binding_2d s) (texture_binding_2dms s) (sampler_binding s)
    (uniform_buffer_binding s) (uniform_buffer_base s)
    (vertex_array_binding s) (current_program s) (uniforms s) (cull_face s)
    (depth_test s) (multisample s) (framebuffer_srgb s) (depth_mask s)
    (polygon_mode s) (clear_color s) v (viewport s) (window_color s)
    (window_depth s).
Definition set_viewport (v : Z * Z * Z * Z) (s : GLState) : GLState :=
  MkGLState (textures s) (renderbuffers s) (framebuffers s) (buffers s)
    (vertex_arrays s) (programs s) (samplers s) (draw_framebuffer s)
    (read_framebuffer s) (renderbuffer_binding s) (active_texture s)
    (texture_binding_2d s) (texture_binding_2dms s) (sampler_binding s)
    (uniform_buffer_binding s) (uniform_buffer_base s)
    (vertex_array_binding s) (current_program s) (uniforms s) (cull_face s)
    (depth_test s) (multisample s) (framebuffer_srgb s) (depth_mask s)
    (polygon_mode s) (clear_color s) (point_size s) v (window_color s)
    (window_depth s).
Definition set_window_color (v : Image) (s : GLState) : GLState :=
  MkGLState (textures s) (renderbuffers s) (framebuffers s) (buffers s)
    (vertex_arrays s) (programs s) (samplers s) (draw_framebuffer s)
    (read_framebuffer s) (renderbuffer_binding s) (active_texture s)
    (texture_binding_2d s) (texture_binding_2dms s) (sampler_binding s)
    (uniform_buffer_binding s) (uniform_buffer_base s)
    (vertex_array_binding s) (current_program s) (uniforms s) (cull_face s)
    (depth_test s) (multisample s) (framebuffer_srgb s) (depth_mask s)
    (polygon_mode s) (clear_color s) (point_size s) (viewport s) v
    (window_depth s).
Definition set_window_depth (v : Image) (s : GLState) : GLState :=
  MkGLState (textures s) (renderbuffers s) (framebuffers s) (buffers s)
    (vertex_arrays s) (programs s) (samplers s) (draw_framebuffer s)
    (read_framebuffer s) (renderbuffer_binding s) (active_texture s)
    (texture_binding_2d s) (texture_binding_2dms s) (sampler_binding s)
    (uniform_buffer_binding s) (uniform_buffer_base s)
    (vertex_array_binding s) (current_program s) (uniforms s) (cull_face s)
    (depth_test s) (multisample s) (framebuffer_srgb s) (depth_mask s)
    (polygon_mode s) (clear_color s) (point_size s) (viewport s)
    (window_color s) v.

#[local] Arguments set_textures _ _ /.
#[local] Arguments set_renderbuffers _ _ /.
#[local] Arguments set_framebuffers _ _ /.
#[local] Arguments set_buffers _ _ /.
#[local] Arguments set_vertex_arrays _ _ /.
#[local] Arguments set_programs _ _ /.
#[local] Arguments set_samplers _ _ /.
#[local] Arguments set_draw_framebuffer _ _ /.
#[local] Arguments set_read_framebuffer _ _ /.
#[local] Arguments set_renderbuffer_binding _ _ /.
#[local] Arguments set_active_texture _ _ /.
#[local] Arguments set_texture_binding_2d _ _ /.
#[local] Arguments set_texture_binding_2dms _ _ /.
#[local] Arguments set_sampler_binding _ _ /.
#[local] Arguments set_uniform_buffer_binding _ _ /.
#[local] Arguments set_uniform_buffer_base _ _ /.
#[local] Arguments set_vertex_array_binding _ _ /.
#[local] Arguments set_current_program _ _ /.
#[local] Arguments set_uniforms _ _ /.
#[local] Arguments set_cull_face _ _ /.
#[local] Arguments set_depth_test _ _ /.
#[local] Arguments set_multisample _ _ /.
#[local] Arguments set_framebuffer_srgb _ _ /.
#[local] Arguments set_depth_mask _ _ /.
#[local] Arguments set_polygon_mode _ _ /.
#[local] Arguments set_clear_color _ _ /.
#[local] Arguments set_point_size _ _ /.
#[local] Arguments set_viewport _ _ /.
#[local] Arguments set_window_color _ _ /.
#[local] Arguments set_window_depth _ _ /.

(** The rasteriser: what a clear or a draw command does to a colour or depth
    image, given the whole context state at the time of the command, and what
    a blit does to the destination given the source. *)
Class Rasteriser := {
  shade_color : GLState → GLCall → Image → Image;
  shade_depth : GLState → GLCall → Image → Image;
  blit_color : GLState → GLCall → Image → Image → Image }.
Context {RA : Rasteriser}.

(** *** Queries *)

(** [glIsTexture]: the name is non-zero and has been bound. *)
Definition is_texture (g : GLState) (n : N) : bool :=
  negb (n =? 0)%N &&
  match textures g !! n with
  | Some t => match tex_target t with Some _ => true | None => false end
  | None => false
  end.

(** [glIsRenderbuffer] *)
Definition is_renderbuffer (g : GLState) (n : N) : bool :=
  negb (n =? 0)%N &&
  match renderbuffers g !! n with
  | Some r => rb_created r
  | None => false
  end.

(** [glIsEnabled] *)
Definition is_enabled (g : GLState) (cap : Capability) : bool :=
  match cap with
  | GL_CULL_FACE => cull_face g
  | GL_DEPTH_TEST => depth_test g
  | GL_MULTISAMPLE => multisample g
  | GL_FRAMEBUFFER_SRGB => framebuffer_srgb g
  end.

(** The texture bound to [target] on the active texture unit. *)
Definition bound_texture (g : GLState) (target : TextureTarget) : N :=
  default 0%N
    (match target with
     | GL_TEXTURE_2D => texture_binding_2d g
     | GL_TEXTURE_2D_MULTISAMPLE => texture_binding_2dms g
     end !! active_texture g).

Definition storage_nonempty (s : option Storage) : bool :=
  match s with
  | Some st => (0 <? st_width st) && (0 <? st_height st)
  | None => false
  end.

Definition storage_samples (s : option Storage) : Z :=
  match s with Some st => st_samples st | None => 0 end.

(** Framebuffer completeness of the framebuffer named [fb]: the window's own
    framebuffer is complete; an object needs a colour image with storage,
    and, when a depth image is attached, storage with the same sample
    count. *)
Definition framebuffer_complete (g : GLState) (fb : N) : bool :=
  if (fb =? 0)%N then true else
  match framebuffers g !! fb with
  | None => false
  | Some f =>
    match textures g !! fb_color f with
    | None => false
    | Some t =>
      storage_nonempty (tex_storage t) &&
      (if (fb_depth f =? 0)%N then true else
       match renderbuffers g !! fb_depth f with
       | None => false
       | Some r => storage_nonempty (rb_storage r) &&
                   (storage_samples (rb_storage r) =? storage_samples (tex_storage t))
       end)
    end
  end.

(** *** Object life cycle *)

Definition new_texture : Texture := MkTexture None None blank.
Definition new_renderbuffer : Renderbuffer := MkRenderbuffer false None blank.
Definition new_framebuffer : Framebuffer := MkFramebuffer false 0%N 0%N.
Definition new_buffer : Buffer := MkBuffer false 0 ∅ false.

(** Every binding of the deleted name reverts to zero. *)
Definition unbind (n : N) (b : N) : N := if (b =? n)%N then 0%N else b.

Definition detach_color (n : N) (f : Framebuffer) : Framebuffer :=
  MkFramebuffer (fb_created f) (unbind n (fb_color f)) (fb_depth f).
Definition detach_depth (n : N) (f : Framebuffer) : Framebuffer :=
  MkFramebuffer (fb_created f) (fb_color f) (unbind n (fb_depth f)).

(** A deleted image is detached from the currently bound framebuffers only. *)
Definition on_bound_framebuffers (h : Framebuffer → Framebuffer) (g : GLState)
  : gmap N Framebuffer :=
  alter h (read_framebuffer g) (alter h (draw_framebuffer g) (framebuffers g)).

(** [glDeleteTextures] for one name: zero and names that are not in use are
    silently ignored. *)
Definition delete_texture (n : N) (g : GLState) : GLState :=
  if (n =? 0)%N then g else
  match textures g !! n with
  | None => g
  | Some _ =>
    set_textures (delete n (textures g))
      (set_texture_binding_2d (unbind n <$> texture_binding_2d g)
        (set_texture_binding_2dms (unbind n <$> texture_binding_2dms g)
          (set_framebuffers (on_bound_framebuffers (detach_color n) g) g)))
  end.

(** [glDeleteRenderbuffers] for one name. *)
Definition delete_renderbuffer (n : N) (g : GLState) : GLState :=
  if (n =? 0)%N then g else
  match renderbuffers g !! n with
  | None => g
  | Some _ =>
    set_renderbuffers (delete n (renderbuffers g))
      (set_renderbuffer_binding (unbind n (renderbuffer_binding g))
        (set_framebuffers (on_bound_framebuffers (detach_depth n) g) g))
  end.

(** [glDeleteFramebuffers] for one name. *)
Definition delete_framebuffer (n : N) (g : GLState) : GLState :=
  if (n =? 0)%N then g else
  match framebuffers g !! n with
  | None => g
  | Some _ =>
    set_framebuffers (delete n (framebuffers g))
      (set_draw_framebuffer (unbind n (draw_framebuffer g))
        (set_read_framebuffer (unbind n (read_framebuffer g)) g))
  end.

(** [glDeleteBuffers] for one name. *)
Definition delete_buffer (n : N) (g : GLState) : GLState :=
  if (n =? 0)%N then g else
  match buffers g !! n with
  | None => g
  | Some _ =>
    set_buffers (delete n (buffers g))
      (set_uniform_buffer_binding (unbind n (uniform_buffer_binding g))
        (set_uniform_buffer_base (unbind n <$> uniform_buffer_base g) g))
  end.

Definition delete_vertex_array (n : N) (g : GLState) : GLState :=
  set_vertex_arrays (vertex_arrays g ∖ {[n]})
    (set_vertex_array_binding (unbind n (vertex_array_binding g)) g).

(** *** Textures and renderbuffers *)

Definition bind_texture (target : TextureTarget) (n : N) (g : GLState) : GLState :=
  let bind g :=
    match target with
    | GL_TEXTURE_2D =>
        set_texture_binding_2d (<[active_texture g := n]> (texture_binding_2d g)) g
    | GL_TEXTURE_2D_MULTISAMPLE =>
        set_texture_binding_2dms (<[active_texture g := n]> (texture_binding_2dms g)) g
    end in
  if (n =? 0)%N then bind g else
  match textures g !! n with
  | None => g
  | Some t =>
    match tex_target t with
    | None =>
        bind (set_textures
                (<[n := MkTexture (Some target) (tex_storage t) (tex_image t)]>
                   (textures g)) g)
    | Some t' => if decide (t' = target) then bind g else g
    end
  end.

(** Respecifying the image of the texture bound to [target]. *)
Definition specify_texture (target : TextureTarget) (st : Storage) (g : GLState) : GLState :=
  let n := bound_texture g target in
  if (st_width st <? 0) || (st_height st <? 0) || (st_samples st <? 0) then g else
  match textures g !! n with
  | None => g
  | Some t => set_textures (<[n := MkTexture (tex_target t) (Some st) blank]> (textures g)) g
  end.

Definition bind_renderbuffer (n : N) (g : GLState) : GLState :=
  if (n =? 0)%N then set_renderbuffer_binding 0%N g else
  match renderbuffers g !! n with
  | None => g
  | Some r =>
    set_renderbuffer_binding n
      (set_renderbuffers
         (<[n := MkRenderbuffer true (rb_storage r) (rb_image r)]> (renderbuffers g)) g)
  end.

Definition renderbuffer_storage (st : Storage) (g : GLState) : GLState :=
  let n := renderbuffer_binding g in
  if (st_width st <? 0) || (st_height st <? 0) || (st_samples st <? 0) then g else
  match renderbuffers g !! n with
  | None => g
  | Some r =>
    set_renderbuffers (<[n := MkRenderbuffer (rb_created r) (Some st) blank]> (renderbuffers g)) g
  end.

(** *** Framebuffers *)

Definition bind_framebuffer (target : FramebufferTarget) (n : N) (g : GLState) : GLState :=
  let bind g :=
    match target with
    | GL_FRAMEBUFFER => set_draw_framebuffer n (set_read_framebuffer n g)
    | GL_DRAW_FRAMEBUFFER => set_draw_framebuffer n g
    | GL_READ_FRAMEBUFFER => set_read_framebuffer n g
    end in
  if (n =? 0)%N then bind g else
  match framebuffers g !! n with
  | None => g
  | Some f =>
    bind (set_framebuffers
            (<[n := MkFramebuffer true (fb_color f) (fb_depth f)]> (framebuffers g)) g)
  end.

(** Attaching to the framebuffer bound for drawing; the default framebuffer
    takes no attachments, and only an existing object (or zero, to detach) can
    be attached. *)
Definition framebuffer_texture (textarget : TextureTarget) (n : N) (g : GLState) : GLState :=
  let ok :=
    if (n =? 0)%N then true else
    match textures g !! n with
    | Some t => bool_decide (tex_target t = Some textarget)
    | None => false
    end in
  if ok
  then set_framebuffers
         (alter (λ f, MkFramebuffer (fb_created f) n (fb_depth f))
                (draw_framebuffer g) (framebuffers g)) g
  else g.

Definition framebuffer_renderbuffer (n : N) (g : GLState) : GLState :=
  if (n =? 0)%N || is_renderbuffer g n
  then set_framebuffers
         (alter (λ f, MkFramebuffer (fb_created f) (fb_color f) n)
                (draw_framebuffer g) (framebuffers g)) g
  else g.

(** *** Buffers *)

(** The buffer bound to [GL_UNIFORM_BUFFER], if it is an object. *)
Definition bound_buffer (g : GLState) : option Buffer :=
  if (uniform_buffer_binding g =? 0)%N then None
  else buffers g !! uniform_buffer_binding g.

Definition put_bound_buffer (b : Buffer) (g : GLState) : GLState :=
  set_buffers (<[uniform_buffer_binding g := b]> (buffers g)) g.

Definition bind_buffer (n : N) (g : GLState) : GLState :=
  if (n =? 0)%N then set_uniform_buffer_binding 0%N g else
  match buffers g !! n with
  | None => g
  | Some b =>
    set_uniform_buffer_binding n
      (set_buffers
         (<[n := MkBuffer true (buf_size b) (buf_data b) (buf_mapped b)]> (buffers g)) g)
  end.

(** [glBindBufferBase] binds the indexed binding point and the generic one. *)
Definition bind_buffer_base (index n : N) (g : GLState) : GLState :=
  if (n =? 0)%N || bool_decide (is_Some (buffers g !! n))
  then let g' := bind_buffer n g in
       set_uniform_buffer_base (<[index := n]> (uniform_buffer_base g')) g'
  else g.

(** Floats stored one after the other, four bytes each, from byte [off]. *)
Fixpoint store_floats (off : Z) (data : list float) (m : gmap Z float) : gmap Z float :=
  match data with
  | [] => m
  | x :: rest => store_floats (off + 4) rest (<[off := x]> m)
  end.

(** Writing [size] bytes of [data] at byte [offset] of a buffer; [None] when
    the range is outside the data store. *)
Definition buffer_write (offset size : Z) (data : list float) (b : Buffer) : option Buffer :=
  if (0 <=? offset) && (0 <=? size) && (offset + size <=? buf_size b)
  then Some (MkBuffer (buf_created b) (buf_size b)
               (store_floats offset (take (Z.to_nat (size / 4)) data) (buf_data b))
               (buf_mapped b))
  else None.

Definition buffer_data (size : Z) (g : GLState) : GLState :=
  match bound_buffer g with
  | Some b => if size <? 0 then g
              else put_bound_buffer (MkBuffer (buf_created b) size ∅ false) g
  | None => g
  end.

Definition buffer_sub_data (offset size : Z) (data : list float) (g : GLState) : GLState :=
  match bound_buffer g with
  | Some b =>
    if buf_mapped b then g else
    match buffer_write offset size data b with
    | Some b' => put_bound_buffer b' g
    | None => g
    end
  | None => g
  end.

(** [glMapBuffer] returns a pointer exactly when a non-empty, unmapped buffer
    object is bound. *)
Definition can_map (g : GLState) : bool :=
  match bound_buffer g with
  | Some b => negb (buf_mapped b) && (0 <? buf_size b)
  | None => false
  end.

Definition map_buffer (g : GLState) : GLState :=
  match bound_buffer g with
  | Some b =>
    if can_map g
    then put_bound_buffer (MkBuffer (buf_created b) (buf_size b) (buf_data b) true) g
    else g
  | None => g
  end.

(** The mapped range can take [size] bytes. *)
Definition mapped_fits (size : Z) (g : GLState) : bool :=
  match bound_buffer g with
  | Some b => buf_mapped b && (0 <=? size) && (size <=? buf_size b)
  | None => false
  end.

Definition write_mapped (size : Z) (data : list float) (g : GLState) : GLState :=
  match bound_buffer g with
  | Some b =>
    if buf_mapped b then
      match buffer_write 0 size data b with
      | Some b' => put_bound_buffer b' g
      | None => g
      end
    else g
  | None => g
  end.

Definition unmap_buffer (g : GLState) : GLState :=
  match bound_buffer g with
  | Some b => put_bound_buffer (MkBuffer (buf_created b) (buf_size b) (buf_data b) false) g
  | None => g
  end.

(** *** Uniforms *)

(** A uniform of the program in use; location [-1] is silently ignored. *)
Definition set_uniform (location : Z) (value : list float) (g : GLState) : GLState :=
  if (current_program g =? 0)%N || (location =? -1) then g
  else set_uniforms (<[(current_program g, location) := value]> (uniforms g)) g.

(** *** Rendering *)

(** Apply [h] to the colour image of the framebuffer bound for drawing. *)
Definition paint_color (h : Image → Image) (g : GLState) : GLState :=
  if (draw_framebuffer g =? 0)%N then set_window_color (h (window_color g)) g else
  match framebuffers g !! draw_framebuffer g with
  | None => g
  | Some f =>
    set_textures
      (alter (λ t, MkTexture (tex_target t) (tex_storage t) (h (tex_image t)))
             (fb_color f) (textures g)) g
  end.

(** Apply [h] to its depth image. *)
Definition paint_depth (h : Image → Image) (g : GLState) : GLState :=
  if (draw_framebuffer g =? 0)%N then set_window_depth (h (window_depth g)) g else
  match framebuffers g !! draw_framebuffer g with
  | None => g
  | Some f =>
    set_renderbuffers
      (alter (λ r, MkRenderbuffer (rb_created r) (rb_storage r) (h (rb_image r)))
             (fb_depth f) (renderbuffers g)) g
  end.

(** A clear or draw command [c]: it renders into the framebuffer bound for
    drawing, and is dropped when that framebuffer is incomplete. *)
Definition render (c : GLCall) (g : GLState) : GLState :=
  if framebuffer_complete g (draw_framebuffer g)
  then paint_color (shade_color g c) (paint_depth (shade_depth g c) g)
  else g.

(** The colour image of the framebuffer bound for reading. *)
Definition read_color (g : GLState) : option Image :=
  if (read_framebuffer g =? 0)%N then Some (window_color g) else
  match framebuffers g !! read_framebuffer g with
  | None => None
  | Some f => tex_image <$> (textures g !! fb_color f)
  end.

(** [glBlitFramebuffer] of the colour buffer. *)
Definition blit (c : GLCall) (g : GLState) : GLState :=
  if framebuffer_complete g (draw_framebuffer g)
     && framebuffer_complete g (read_framebuffer g)
  then match read_color g with
       | Some src => paint_color (blit_color g c src) g
       | None => g
       end
  else g.

Definition set_capability (cap : Capability) (on : bool) (g : GLState) : GLState :=
  match cap with
  | GL_CULL_FACE => set_cull_face on g
  | GL_DEPTH_TEST => set_depth_test on g
  | GL_MULTISAMPLE => set_multisample on g
  | GL_FRAMEBUFFER_SRGB => set_framebuffer_srgb on g
  end.

(** *** The effect of a command on the context *)
Definition gl_exec (c : GLCall) (g : GLState) : GLState :=
  match c with
  | glViewport x y w h => if (w <? 0) || (h <? 0) then g else set_viewport (x, y, w, h) g
  | glEnable cap => set_capability cap true g
  | glDisable cap => set_capability cap false g
  | glCullFace_BACK => g
  | glDepthFunc_LEQUAL => g
  | glDepthMask flag => set_depth_mask flag g
  | glPolygonMode mode => set_polygon_mode mode g
  | glClearColor r gr b a => set_clear_color [r; gr; b; a] g
  | glClear _ _ => render c g
  | glPointSize s => set_point_size (Some s) g
  | glUseProgram p =>
      if (p =? 0)%N || bool_decide (p ∈ programs g) then set_current_program p g else g
  | glCreateProgram p => set_programs ({[p]} ∪ programs g) g
  | glDeleteProgram p => set_programs (programs g ∖ {[p]}) g
  | glUniform1f l v0 => set_uniform l [v0] g
  | glUniform3f l v0 v1 v2 => set_uniform l [v0; v1; v2] g
  | glUniform4f l v0 v1 v2 v3 => set_uniform l [v0; v1; v2; v3] g
  | glUniform3fv l v => set_uniform l v g
  | glUniformMatrix4x3fv l v => set_uniform l v g
  | glActiveTexture u => set_active_texture u g
  | glGenTextures n => set_textures (<[n := new_texture]> (textures g)) g
  | glBindTexture target n => bind_texture target n g
  | glTexImage2D target fmt w h => specify_texture target (MkStorage 0 fmt w h) g
  | glTexImage2DMultisample target samples fmt w h =>
      if samples <=? 0 then g else specify_texture target (MkStorage samples fmt w h) g
  | glTexParameteri_LINEAR _ _ => g
  | glDeleteTextures names => foldl (λ g n, delete_texture n g) g names
  | glGenSamplers n => set_samplers ({[n]} ∪ samplers g) g
  | glBindSampler u s =>
      if (s =? 0)%N || bool_decide (s ∈ samplers g)
      then set_sampler_binding (<[u := s]> (sampler_binding g)) g else g
  | glGenFramebuffers n => set_framebuffers (<[n := new_framebuffer]> (framebuffers g)) g
  | glBindFramebuffer target n => bind_framebuffer target n g
  | glFramebufferTexture2D att textarget n =>
      match att with
      | GL_COLOR_ATTACHMENT0 => framebuffer_texture textarget n g
      | GL_DEPTH_ATTACHMENT => g
      end
  | glFramebufferRenderbuffer att n =>
      match att with
      | GL_DEPTH_ATTACHMENT => framebuffer_renderbuffer n g
      | GL_COLOR_ATTACHMENT0 => g
      end
  | glDrawBuffers _ => g
  | glDrawBuffer_BACK => g
  | glDeleteFramebuffers names => foldl (λ g n, delete_framebuffer n g) g names
  | glBlitFramebuffer _ _ _ _ _ _ _ _ => blit c g
  | glGenRenderbuffers n => set_renderbuffers (<[n := new_renderbuffer]> (renderbuffers g)) g
  | glBindRenderbuffer n => bind_renderbuffer n g
  | glRenderbufferStorage fmt w h => renderbuffer_storage (MkStorage 0 fmt w h) g
  | glRenderbufferStorageMultisample samples fmt w h =>
      renderbuffer_storage (MkStorage samples fmt w h) g
  | glDeleteRenderbuffers names => foldl (λ g n, delete_renderbuffer n g) g names
  | glGenBuffers n => set_buffers (<[n := new_buffer]> (buffers g)) g
  | glBindBuffer n => bind_buffer n g
  | glBindBufferBase index n => bind_buffer_base index n g
  | glBufferData size => buffer_data size g
  | glBufferSubData offset size data => buffer_sub_data offset size data g
  | glMapBuffer => map_buffer g
  | memcpy_mapped size data => write_mapped size data g
  | glUnmapBuffer => unmap_buffer g
  | glDeleteBuffers names => foldl (λ g n, delete_buffer n g) g names
  | glGenVertexArrays n => set_vertex_arrays ({[n]} ∪ vertex_arrays g) g
  | glBindVertexArray n =>
      if (n =? 0)%N || bool_decide (n ∈ vertex_arrays g)
      then set_vertex_array_binding n g else g
  | glDeleteVertexArrays names => foldl (λ g n, delete_vertex_array n g) g names
  | glDrawElements _ _ => render c g
  | glDrawElementsInstanced _ _ _ => render c g
  | glDrawArrays _ _ _ => render c g
  end.

(** The context right after creation: no objects, everything unbound, only
    multisampling enabled, polygons filled. *)
Definition initial_context : GLState :=
  MkGLState ∅ ∅ ∅ ∅ ∅ ∅ ∅ 0%N 0%N 0%N 0%N ∅ ∅ ∅ 0%N ∅ 0%N 0%N ∅
    false false true false true GL_FILL
    [fconst 0; fconst 0; fconst 0; fconst 0] None (0, 0, 0, 0) blank blank.

End Context3D.

(** ** Collaborators

    [Camera.h], [Geometry.h], [Textures.h], [MathSupport.h] and [shaders.h]
    are not part of the sources; GLFW, GLAD and the GL driver are external.
    What [main.cpp] needs of them is collected in two interfaces. *)

(** [MovementDirections]: the flags [processInput] ors together. *)
Record Directions := MkDirections {
  Forward : bool; Backward : bool; Left : bool; Right : bool; Up : bool; Down : bool }.

(** Modelled from the spec: [Camera.h] is missing; the camera is "an opaque
    transform provider" with the operations listed in section 6. *)
Class CameraOps {FO : FloatOps} := {
  Camera : Type;
  camera_default : Camera;
  SetProjection : float → float → float → float → Camera → Camera;
  SetTransformation : glm.vec3 → glm.vec3 → glm.vec3 → Camera → Camera;
  SetMovementSpeed : float → Camera → Camera;
  Move : Directions → glm.vec2 → float → Camera → Camera;
  GetWorldToView : Camera → glm.mat4x4;
  GetProjection : Camera → glm.mat4x4;
  GetViewToWorld : Camera → glm.mat4x4 }.

(** The platform: the name allocator of the GL implementation (a [glGen*]
    command returns a non-zero name that is not in use), what the driver
    reports about limits and shader interfaces, the outcome of the GLFW and
    GLAD start-up calls, and the constants and the random number generator of
    the missing headers. *)
Class Platform {FO : FloatOps} := {
  gen_name : gset N → N;
  gen_name_fresh : ∀ used, gen_name used ∉ used;
  gen_name_nonzero : ∀ used, gen_name used ≠ 0%N;
  GL_MAX_UNIFORM_BLOCK_SIZE : Z;
  uniform_location : N → string → Z;
  uniform_block_data_size : N → string → Z;
  glfwInit_ok : bool;
  glfwCreateWindow_ok : bool;
  gladLoadGL_ok : bool;
  compileShaders_ok : bool;
  quad_index_count : Z;
  cube_index_count : Z;
  image_size : string → Z * Z;
  Rng : Type;
  rng_seed : Rng;
  getRandom : float → float → Rng → float * Rng }.

(** The scene constant [numCubes], a [const int]. *)
Class Scene := {
  numCubes : Z;
  numCubes_int : -2 ^ 31 ≤ numCubes < 2 ^ 31 }.

(** ** The program state *)

Inductive LoadedTexture :=
  White | Grey | Blue | CheckerBoard | Diffuse | Normal | Specular | Occlusion.
(** [loadedTextures] and [shaderProgram] are arrays indexed by an
    enumeration: total maps from the enumerators. *)
Definition all_textures : list LoadedTexture :=
  [White; Grey; Blue; CheckerBoard; Diffuse; Normal; Specular; Occlusion].

Inductive ShaderProgram := Default | Instancing | PointRendering | Tonemapping.
Definition all_programs : list ShaderProgram :=
  [Default; Instancing; PointRendering; Tonemapping].

#[global] Instance LoadedTexture_eq_dec : EqDecision LoadedTexture.
Proof. solve_decision. Defined.
#[global] Instance ShaderProgram_eq_dec : EqDecision ShaderProgram.
Proof. solve_decision. Defined.

Inductive KeyCode :=
| GLFW_KEY_ESCAPE | GLFW_KEY_F1 | GLFW_KEY_F2 | GLFW_KEY_F3 | GLFW_KEY_F4
| GLFW_KEY_F5 | GLFW_KEY_F6 | GLFW_KEY_KP_ADD | GLFW_KEY_EQUAL
| GLFW_KEY_KP_SUBTRACT | GLFW_KEY_MINUS | GLFW_KEY_BACKSPACE | GLFW_KEY_OTHER.
Inductive KeyAction := GLFW_RELEASE | GLFW_PRESS | GLFW_REPEAT.

#[global] Instance KeyCode_eq_dec : EqDecision KeyCode.
Proof. solve_decision. Defined.
#[global] Instance KeyAction_eq_dec : EqDecision KeyAction.
Proof. solve_decision. Defined.

Section Application.
Context {FO : FloatOps} {IM : ImageType} {RA : Rasteriser}.
Context {CA : CameraOps} {PF : Platform} {SC : Scene}.
Import glm.

Definition DefaultWidth : Z := 800.
Definition DefaultHeight : Z := 600.
Definition nearClipPlane : float := fconst 0.1.
Definition farClipPlane : float := fconst 100.1.
Definition CameraNormalSpeed : float := fconst 5.
Definition CameraTurboSpeed : float := fconst 50.
Definition MAX_INSTANCES : Z := 1024.
Definition MSAA_SAMPLES : Z := 4.

(** [struct MouseStatus] *)
Record MouseStatus := MkMouseStatus {
  mouse_x : double; mouse_y : double; mouse_prevX : double; mouse_prevY : double }.

(** [struct InstanceData] *)
Record InstanceData := MkInstanceData { transformation : mat3x4 }.

(** [sizeof(glm::mat3x4)], [sizeof(glm::mat4x4)], [sizeof(InstanceData)] *)
Definition sizeof_float : Z := 4.
Definition sizeof_mat3x4 : Z := 3 * 4 * sizeof_float.
Definition sizeof_mat4x4 : Z := 4 * 4 * sizeof_float.
Definition sizeof_InstanceData : Z := sizeof_mat3x4.

(** Modelled from the spec: [Geometry.h] is missing; a mesh gives "draw-count
    metadata (index count, vertex array handle)". *)
Record Mesh := MkMesh { GetVAO : N; GetIBOSize : Z }.

Record App := MkApp {
  (** [mainWindow] *)
  mainWindow_width : Z;
  mainWindow_height : Z;
  mainWindow_handle : bool;
  fov : float;
  mouseStatus : MouseStatus;
  msaaLevel : Z;
  cubePositions : list vec3;
  camera : Camera;
  quad : option Mesh;
  cube : option Mesh;
  (** the sampler held by the [Textures] singleton *)
  anisotropicSampler : N;
  vao : N;
  fbo : N;
  renderTarget : N;
  depthStencil : N;
  vsync : bool;
  depthTest : bool;
  wireframe : bool;
  tonemapping : bool;
  instancingBuffer : N;
  transformBlockUBO : N;
  loadedTextures : LoadedTexture → N;
  shaderProgram : ShaderProgram → N;
  (** the static staging vector of [updateInstanceData] *)
  instanceData : list InstanceData;
  (** the state behind [getRandom] *)
  rng : Rng;
  (** what GLFW was told *)
  swapInterval : Z;
  windowShouldClose : bool;
  (** what was printed *)
  stdout : list string;
  (** the context, and the commands it received, newest first *)
  gl : GLState;
  gl_log : list GLCall;
}.

Definition set_mainWindow_width (v : Z) (s : App) : App :=
  MkApp v (mainWindow_height s) (mainWindow_handle s) (fov s) (mouseStatus s)
    (msaaLevel s) (cubePositions s) (camera s) (quad s) (cube s)
    (anisotropicSampler s) (vao s) (fbo s) (renderTarget s) (depthStencil s)
    (vsync s) (depthTest s) (wireframe s) (tonemapping s) (instancingBuffer s)
    (transformBlockUBO s) (loadedTextures s) (shaderProgram s)
    (instanceData s) (rng s) (swapInterval s) (windowShouldClose s) (stdout s)
    (gl s) (gl_log s).
Definition set_mainWindow_height (v : Z) (s : App) : App :=
  MkApp (mainWindow_width s) v (mainWindow_handle s) (fov s) (mouseStatus s)
    (msaaLevel s) (cubePositions s) (camera s) (quad s) (cube s)
    (anisotropicSampler s) (vao s) (fbo s) (renderTarget s) (depthStencil s)
    (vsync s) (depthTest s) (wireframe s) (tonemapping s) (instancingBuffer s)
    (transformBlockUBO s) (loadedTextures s) (shaderProgram s)
    (instanceData s) (rng s) (swapInterval s) (windowShouldClose s) (stdout s)
    (gl s) (gl_log s).
Definition set_mainWindow_handle (v : bool) (s : App) : App :=
  MkApp (mainWindow_width s) (mainWindow_height s) v (fov s) (mouseStatus s)
    (msaaLevel s) (cubePositions s) (camera s) (quad s) (cube s)
    (anisotropicSampler s) (vao s) (fbo s) (renderTarget s) (depthStencil s)
    (vsync s) (depthTest s) (wireframe s) (tonemapping s) (instancingBuffer s)
    (transformBlockUBO s) (loadedTextures s) (shaderProgram s)
    (instanceData s) (rng s) (swapInterval s) (windowShouldClose s) (stdout s)
    (gl s) (gl_log s).
Definition set_fov (v : float) (s : App) : App :=
  MkApp (mainWindow_width s) (mainWindow_height s) (mainWindow_handle s) v
    (mouseStatus s) (msaaLevel s) (cubePositions s) (camera s) (quad s)
    (cube s) (anisotropicSampler s) (vao s) (fbo s) (renderTarget s)
    (depthStencil s) (vsync s) (depthTest s) (wireframe s) (tonemapping s)
    (instancingBuffer s) (transformBlockUBO s) (loadedTextures s)
    (shaderProgram s) (instanceData s) (rng s) (swapInterval s)
    (windowShouldClose s) (stdout s) (gl s) (gl_log s).
Definition set_mouseStatus (v : MouseStatus) (s : App) : App :=
  MkApp (mainWindow_width s) (mainWindow_height s) (mainWindow_handle s)
    (fov s) v (msaaLevel s) (cubePositions s) (camera s) (quad s) (cube s)
    (anisotropicSampler s) (vao s) (fbo s) (renderTarget s) (depthStencil s)
    (vsync s) (depthTest s) (wireframe s) (tonemapping s) (instancingBuffer s)
    (transformBlockUBO s) (loadedTextures s) (shaderProgram s)
    (instanceData s) (rng s) (swapInterval s) (windowShouldClose s) (stdout s)
    (gl s) (gl_log s).
Definition set_msaaLevel (v : Z) (s : App) : App :=
  MkApp (mainWindow_width s) (mainWindow_height s) (mainWindow_handle s)
    (fov s) (mouseStatus s) v (cubePositions s) (camera s) (quad s) (cube s)
    (anisotropicSampler s) (vao s) (fbo s) (renderTarget s) (depthStencil s)
    (vsync s) (depthTest s) (wireframe s) (tonemapping s) (instancingBuffer s)
    (transformBlockUBO s) (loadedTextures s) (shaderProgram s)
    (instanceData s) (rng s) (swapInterval s) (windowShouldClose s) (stdout s)
    (gl s) (gl_log s).
Definition set_cubePositions (v : list vec3) (s : App) : App :=
  MkApp (mainWindow_width s) (mainWindow_height s) (mainWindow_handle s)
    (fov s) (mouseStatus s) (msaaLevel s) v (camera s) (quad s) (cube s)
    (anisotropicSampler s) (vao s) (fbo s) (renderTarget s) (depthStencil s)
    (vsync s) (depthTest s) (wireframe s) (tonemapping s) (instancingBuffer s)
    (transformBlockUBO s) (loadedTextures s) (shaderProgram s)
    (instanceData s) (rng s) (swapInterval s) (windowShouldClose s) (stdout s)
    (gl s) (gl_log s).
Definition set_camera (v : Camera) (s : App) : App :=
  MkApp (mainWindow_width s) (mainWindow_height s) (mainWindow_handle s)
    (fov s) (mouseStatus s) (msaaLevel s) (cubePositions s) v (quad s)
    (cube s) (anisotropicSampler s) (vao s) (fbo s) (renderTarget s)
    (depthStencil s) (vsync s) (depthTest s) (wireframe s) (tonemapping s)
    (instancingBuffer s) (transformBlockUBO s) (loadedTextures s)
    (shaderProgram s) (instanceData s) (rng s) (swapInterval s)
    (windowShouldClose s) (stdout s) (gl s) (gl_log s).
Definition set_quad (v : option Mesh) (s : App) : App :=
  MkApp (mainWindow_width s) (mainWindow_height s) (mainWindow_handle s)
    (fov s) (mouseStatus s) (msaaLevel s) (cubePositions s) (camera s) v
    (cube s) (anisotropicSampler s) (vao s) (fbo s) (renderTarget s)
    (depthStencil s) (vsync s) (depthTest s) (wireframe s) (tonemapping s)
    (instancingBuffer s) (transformBlockUBO s) (loadedTextures s)
    (shaderProgram s) (instanceData s) (rng s) (swapInterval s)
    (windowShouldClose s) (stdout s) (gl s) (gl_log s).
Definition set_cube (v : option Mesh) (s : App) : App :=
  MkApp (mainWindow_width s) (mainWindow_height s) (mainWindow_handle s)
    (fov s) (mouseStatus s) (msaaLevel s) (cubePositions s) (camera s)
    (quad s) v (anisotropicSampler s) (vao s) (fbo s) (renderTarget s)
    (depthStencil s) (vsync s) (depthTest s) (wireframe s) (tonemapping s)
    (instancingBuffer s) (transformBlockUBO s) (loadedTextures s)
    (shaderProgram s) (instanceData s) (rng s) (swapInterval s)
    (windowShouldClose s) (stdout s) (gl s) (gl_log s).
Definition set_anisotropicSampler (v : N) (s : App) : App :=
  MkApp (mainWindow_width s) (mainWindow_height s) (mainWindow_handle s)
    (fov s) (mouseStatus s) (msaaLevel s) (cubePositions s) (camera s)
    (quad s) (cube s) v (vao s) (fbo s) (renderTarget s) (depthStencil s)
    (vsync s) (depthTest s) (wireframe s) (tonemapping s) (instancingBuffer s)
    (transformBlockUBO s) (loadedTextures s) (shaderProgram s)
    (instanceData s) (rng s) (swapInterval s) (windowShouldClose s) (stdout s)
    (gl s) (gl_log s).
Definition set_vao (v : N) (s : App) : App :=
  MkApp (mainWindow_width s) (mainWindow_height s) (mainWindow_handle s)
    (fov s) (mouseStatus s) (msaaLevel s) (cubePositions s) (camera s)
    (quad s) (cube s) (anisotropicSampler s) v (fbo s) (renderTarget s)
    (depthStencil s) (vsync s) (depthTest s) (wireframe s) (tonemapping s)
    (instancingBuffer s) (transformBlockUBO s) (loadedTextures s)
    (shaderProgram s) (instanceData s) (rng s) (swapInterval s)
    (windowShouldClose s) (stdout s) (gl s) (gl_log s).
Definition set_fbo (v : N) (s : App) : App :=
  MkApp (mainWindow_width s) (mainWindow_height s) (mainWindow_handle s)
    (fov s) (mouseStatus s) (msaaLevel s) (cubePositions s) (camera s)
    (quad s) (cube s) (anisotropicSampler s) (vao s) v (renderTarget s)
    (depthStencil s) (vsync s) (depthTest s) (wireframe s) (tonemapping s)
    (instancingBuffer s) (transformBlockUBO s) (loadedTextures s)
    (shaderProgram s) (instanceData s) (rng s) (swapInterval s)
    (windowShouldClose s) (stdout s) (gl s) (gl_log s).
Definition set_renderTarget (v : N) (s : App) : App :=
  MkApp (mainWindow_width s) (mainWindow_height s) (mainWindow_handle s)
    (fov s) (mouseStatus s) (msaaLevel s) (cubePositions s) (camera s)
    (quad s) (cube s) (anisotropicSampler s) (vao s) (fbo s) v
    (depthStencil s) (vsync s) (depthTest s) (wireframe s) (tonemapping s)
    (instancingBuffer s) (transformBlockUBO s) (loadedTextures s)
    (shaderProgram s) (instanceData s) (rng s) (swapInterval s)
    (windowShouldClose s) (stdout s) (gl s) (gl_log s).
Definition set_depthStencil (v : N) (s : App) : App :=
  MkApp (mainWindow_width s) (mainWindow_height s) (mainWindow_handle s)
    (fov s) (mouseStatus s) (msaaLevel s) (cubePositions s) (camera s)
    (quad s) (cube s) (anisotropicSampler s) (vao s) (fbo s) (renderTarget s)
    v (vsync s) (depthTest s) (wireframe s) (tonemapping s)
    (instancingBuffer s) (transformBlockUBO s) (loadedTextures s)
    (shaderProgram s) (instanceData s) (rng s) (swapInterval s)
    (windowShouldClose s) (stdout s) (gl s) (gl_log s).
Definition set_vsync (v : bool) (s : App) : App :=
  MkApp (mainWindow_width s) (mainWindow_height s) (mainWindow_handle s)
    (fov s) (mouseStatus s) (msaaLevel s) (cubePositions s) (camera s)
    (quad s) (cube s) (anisotropicSampler s) (vao s) (fbo s) (renderTarget s)
    (depthStencil s) v (depthTest s) (wireframe s) (tonemapping s)
    (instancingBuffer s) (transformBlockUBO s) (loadedTextures s)
    (shaderProgram s) (instanceData s) (rng s) (swapInterval s)
    (windowShouldClose s) (stdout s) (gl s) (gl_log s).
Definition set_depthTest (v : bool) (s : App) : App :=
  MkApp (mainWindow_width s) (mainWindow_height s) (mainWindow_handle s)
    (fov s) (mouseStatus s) (msaaLevel s) (cubePositions s) (camera s)
    (quad s) (cube s) (anisotropicSampler s) (vao s) (fbo s) (renderTarget s)
    (depthStencil s) (vsync s) v (wireframe s) (tonemapping s)
    (instancingBuffer s) (transformBlockUBO s) (loadedTextures s)
    (shaderProgram s) (instanceData s) (rng s) (swapInterval s)
    (windowShouldClose s) (stdout s) (gl s) (gl_log s).
Definition set_wireframe (v : bool) (s : App) : App :=
  MkApp (mainWindow_width s) (mainWindow_height s) (mainWindow_handle s)
    (fov s) (mouseStatus s) (msaaLevel s) (cubePositions s) (camera s)
    (quad s) (cube s) (anisotropicSampler s) (vao s) (fbo s) (renderTarget s)
    (depthStencil s) (vsync s) (depthTest s) v (tonemapping s)
    (instancingBuffer s) (transformBlockUBO s) (loadedTextures s)
    (shaderProgram s) (instanceData s) (rng s) (swapInterval s)
    (windowShouldClose s) (stdout s) (gl s) (gl_log s).
Definition set_tonemapping (v : bool) (s : App) : App :=
  MkApp (mainWindow_width s) (mainWindow_height s) (mainWindow_handle s)
    (fov s) (mouseStatus s) (msaaLevel s) (cubePositions s) (camera s)
    (quad s) (cube s) (anisotropicSampler s) (vao s) (fbo s) (renderTarget s)
    (depthStencil s) (vsync s) (depthTest s) (wireframe s) v
    (instancingBuffer s) (transformBlockUBO s) (loadedTextures s)
    (shaderProgram s) (instanceData s) (rng s) (swapInterval s)
    (windowShouldClose s) (stdout s) (gl s) (gl_log s).
Definition set_instancingBuffer (v : N) (s : App) : App :=
  MkApp (mainWindow_width s) (mainWindow_height s) (mainWindow_handle s)
    (fov s) (mouseStatus s) (msaaLevel s) (cubePositions s) (camera s)
    (quad s) (cube s) (anisotropicSampler s) (vao s) (fbo s) (renderTarget s)
    (depthStencil s) (vsync s) (depthTest s) (wireframe s) (tonemapping s) v
    (transformBlockUBO s) (loadedTextures s) (shaderProgram s)
    (instanceData s) (rng s) (swapInterval s) (windowShouldClose s) (stdout s)
    (gl s) (gl_log s).
Definition set_transformBlockUBO (v : N) (s : App) : App :=
  MkApp (mainWindow_width s) (mainWindow_height s) (mainWindow_handle s)
    (fov s) (mouseStatus s) (msaaLevel s) (cubePositions s) (camera s)
    (quad s) (cube s) (anisotropicSampler s) (vao s) (fbo s) (renderTarget s)
    (depthStencil s) (vsync s) (depthTest s) (wireframe s) (tonemapping s)
    (instancingBuffer s) v (loadedTextures s) (shaderProgram s)
    (instanceData s) (rng s) (swapInterval s) (windowShouldClose s) (stdout s)
    (gl s) (gl_log s).
Definition set_loadedTextures (v : LoadedTexture → N) (s : App) : App :=
  MkApp (mainWindow_width s) (mainWindow_height s) (mainWindow_handle s)
    (fov s) (mouseStatus s) (msaaLevel s) (cubePositions s) (camera s)
    (quad s) (cube s) (anisotropicSampler s) (vao s) (fbo s) (renderTarget s)
    (depthStencil s) (vsync s) (depthTest s) (wireframe s) (tonemapping s)
    (instancingBuffer s) (transformBlockUBO s) v (shaderProgram s)
    (instanceData s) (rng s) (swapInterval s) (windowShouldClose s) (stdout s)
    (gl s) (gl_log s).
Definition set_shaderProgram (v : ShaderProgram → N) (s : App) : App :=
  MkApp (mainWindow_width s) (mainWindow_height s) (mainWindow_handle s)
    (fov s) (mouseStatus s) (msaaLevel s) (cubePositions s) (camera s)
    (quad s) (cube s) (anisotropicSampler s) (vao s) (fbo s) (renderTarget s)
    (depthStencil s) (vsync s) (depthTest s) (wireframe s) (tonemapping s)
    (instancingBuffer s) (transformBlockUBO s) (loadedTextures s) v
    (instanceData s) (rng s) (swapInterval s) (windowShouldClose s) (stdout s)
    (gl s) (gl_log s).
Definition set_instanceData (v : list InstanceData) (s : App) : App :=
  MkApp (mainWindow_width s) (mainWindow_height s) (mainWindow_handle s)
    (fov s) (mouseStatus s) (msaaLevel s) (cubePositions s) (camera s)
    (quad s) (cube s) (anisotropicSampler s) (vao s) (fbo s) (renderTarget s)
    (depthStencil s) (vsync s) (depthTest s) (wireframe s) (tonemapping s)
    (instancingBuffer s) (transformBlockUBO s) (loadedTextures s)
    (shaderProgram s) v (rng s) (swapInterval s) (windowShouldClose s)
    (stdout s) (gl s) (gl_log s).
Definition set_rng (v : Rng) (s : App) : App :=
  MkApp (mainWindow_width s) (mainWindow_height s) (mainWindow_handle s)
    (fov s) (mouseStatus s) (msaaLevel s) (cubePositions s) (camera s)
    (quad s) (cube s) (anisotropicSampler s) (vao s) (fbo s) (renderTarget s)
    (depthStencil s) (vsync s) (depthTest s) (wireframe s) (tonemapping s)
    (instancingBuffer s) (transformBlockUBO s) (loadedTextures s)
    (shaderProgram s) (instanceData s) v (swapInterval s)
    (windowShouldClose s) (stdout s) (gl s) (gl_log s).
Definition set_swapInterval (v : Z) (s : App) : App :=
  MkApp (mainWindow_width s) (mainWindow_height s) (mainWindow_handle s)
    (fov s) (mouseStatus s) (msaaLevel s) (cubePositions s) (camera s)
    (quad s) (cube s) (anisotropicSampler s) (vao s) (fbo s) (renderTarget s)
    (depthStencil s) (vsync s) (depthTest s) (wireframe s) (tonemapping s)
    (instancingBuffer s) (transformBlockUBO s) (loadedTextures s)
    (shaderProgram s) (instanceData s) (rng s) v (windowShouldClose s)
    (stdout s) (gl s) (gl_log s).
Definition set_windowShouldClose (v : bool) (s : App) : App :=
  MkApp (mainWindow_width s) (mainWindow_height s) (mainWindow_handle s)
    (fov s) (mouseStatus s) (msaaLevel s) (cubePositions s) (camera s)
    (quad s) (cube s) (anisotropicSampler s) (vao s) (fbo s) (renderTarget s)
    (depthStencil s) (vsync s) (depthTest s) (wireframe s) (tonemapping s)
    (instancingBuffer s) (transformBlockUBO s) (loadedTextures s)
    (shaderProgram s) (instanceData s) (rng s) (swapInterval s) v (stdout s)
    (gl s) (gl_log s).
Definition set_stdout (v : list string) (s : App) : App :=
  MkApp (mainWindow_width s) (mainWindow_height s) (mainWindow_handle s)
    (fov s) (mouseStatus s) (msaaLevel s) (cubePositions s) (camera s)
    (quad s) (cube s) (anisotropicSampler s) (vao s) (fbo s) (renderTarget s)
    (depthStencil s) (vsync s) (depthTest s) (wireframe s) (tonemapping s)
    (instancingBuffer s) (transformBlockUBO s) (loadedTextures s)
    (shaderProgram s) (instanceData s) (rng s) (swapInterval s)
    (windowShouldClose s) v (gl s) (gl_log s).
Definition set_gl (v : GLState) (s : App) : App :=
  MkApp (mainWindow_width s) (mainWindow_height s) (mainWindow_handle s)
    (fov s) (mouseStatus s) (msaaLevel s) (cubePositions s) (camera s)
    (quad s) (cube s) (anisotropicSampler s) (vao s) (fbo s) (renderTarget s)
    (depthStencil s) (vsync s) (depthTest s) (wireframe s) (tonemapping s)
    (instancingBuffer s) (transformBlockUBO s) (loadedTextures s)
    (shaderProgram s) (instanceData s) (rng s) (swapInterval s)
    (windowShouldClose s) (stdout s) v (gl_log s).
Definition set_gl_log (v : list GLCall) (s : App) : App :=
  MkApp (mainWindow_width s) (mainWindow_height s) (mainWindow_handle s)
    (fov s) (mouseStatus s) (msaaLevel s) (cubePositions s) (camera s)
    (quad s) (cube s) (anisotropicSampler s) (vao s) (fbo s) (renderTarget s)
    (depthStencil s) (vsync s) (depthTest s) (wireframe s) (tonemapping s)
    (instancingBuffer s) (transformBlockUBO s) (loadedTextures s)
    (shaderProgram s) (instanceData s) (rng s) (swapInterval s)
    (windowShouldClose s) (stdout s) (gl s) v.

#[local] Arguments set_mainWindow_width _ _ /.
#[local] Arguments set_mainWindow_height _ _ /.
#[local] Arguments set_mainWindow_handle _ _ /.
#[local] Arguments set_fov _ _ /.
#[local] Arguments set_mouseStatus _ _ /.
#[local] Arguments set_msaaLevel _ _ /.
#[local] Arguments set_cubePositions _ _ /.
#[local] Arguments set_camera _ _ /.
#[local] Arguments set_quad _ _ /.
#[local] Arguments set_cube _ _ /.
#[local] Arguments set_anisotropicSampler _ _ /.
#[local] Arguments set_vao _ _ /.
#[local] Arguments set_fbo _ _ /.
#[local] Arguments set_renderTarget _ _ /.
#[local] Arguments set_depthStencil _ _ /.
#[local] Arguments set_vsync _ _ /.
#[local] Arguments set_depthTest _ _ /.
#[local] Arguments set_wireframe _ _ /.
#[local] Arguments set_tonemapping _ _ /.
#[local] Arguments set_instancingBuffer _ _ /.
#[local] Arguments set_transformBlockUBO _ _ /.
#[local] Arguments set_loadedTextures _ _ /.
#[local] Arguments set_shaderProgram _ _ /.
#[local] Arguments set_instanceData _ _ /.
#[local] Arguments set_rng _ _ /.
#[local] Arguments set_swapInterval _ _ /.
#[local] Arguments set_windowShouldClose _ _ /.
#[local] Arguments set_stdout _ _ /.
#[local] Arguments set_gl _ _ /.
#[local] Arguments set_gl_log _ _ /.

(** The globals as their initialisers leave them, on a fresh context; the
    staging vector holds [MAX_INSTANCES] value-initialised records. *)
Definition zero_vec4 : vec4 := Vec4 (fconst 0) (fconst 0) (fconst 0) (fconst 0).
Definition zero_InstanceData : InstanceData :=
  MkInstanceData (Mat3x4 zero_vec4 zero_vec4 zero_vec4).

Definition initial_app : App :=
  MkApp 0 0 false (fconst 45)
    (MkMouseStatus (dconst 0) (dconst 0) (dconst 0) (dconst 0))
    MSAA_SAMPLES [] camera_default None None 0%N 0%N 0%N 0%N 0%N
    true true false true 0%N 0%N
    (λ _, 0%N) (λ _, 0%N)
    (replicate (Z.to_nat MAX_INSTANCES) zero_InstanceData)
    rng_seed 0 false [] initial_context [].

(** ** The monad of the program

    A function of [main.cpp] is a state transformer that may have no defined
    result: indexing a vector out of range, dereferencing a null pointer or
    copying outside a mapped range is undefined behaviour, [None] here. *)
Definition Prog (A : Type) : Type := App → option (A * App).

#[global] Instance Prog_ret : MRet Prog := λ A x a, Some (x, a).
#[global] Instance Prog_bind : MBind Prog := λ A B f m a,
  match m a with
  | Some (x, a') => f x a'
  | None => None
  end.

Definition get {A} (f : App → A) : Prog A := λ a, Some (f a, a).
Definition modify (f : App → App) : Prog unit := λ a, Some (tt, f a).
Definition undefined {A} : Prog A := λ _, None.
Definition when (b : bool) (m : Prog unit) : Prog unit := if b then m else mret tt.

(** The state a program ends in, when it ends. *)
Definition exec {A} (m : Prog A) (a : App) : option App := snd <$> m a.

(** A command is carried out by the context and logged. *)
Definition do_call (c : GLCall) (a : App) : App :=
  set_gl_log (c :: gl_log a) (set_gl (gl_exec c (gl a)) a).
#[local] Arguments do_call _ _ /.
Definition call (c : GLCall) : Prog unit := modify (do_call c).

(** The commands in the order they were issued. *)
Definition trace (a : App) : list GLCall := rev (gl_log a).

Definition printf (msg : string) : Prog unit :=
  modify (λ a, set_stdout (stdout a ++ [msg]) a).

Fixpoint for_each {A} (l : list A) (body : A → Prog unit) : Prog unit :=
  match l with
  | [] => mret tt
  | x :: rest => body x;; for_each rest body
  end.

(** [v[i]] on a [std::vector] or array: undefined out of range. *)
Definition at_index {A} (l : list A) (i : Z) : Prog A :=
  if i <? 0 then undefined else
  match l !! Z.to_nat i with
  | Some x => mret x
  | None => undefined
  end.

(** [p->...] on a pointer that may be null. *)
Definition deref {A} (p : option A) : Prog A :=
  match p with
  | Some x => mret x
  | None => undefined
  end.

(** The [glGen*] commands, one name each. *)
Definition glGenTextures1 : Prog N :=
  n ← get (λ a, gen_name (dom (textures (gl a))));
  call (glGenTextures n);; mret n.
Definition glGenRenderbuffers1 : Prog N :=
  n ← get (λ a, gen_name (dom (renderbuffers (gl a))));
  call (glGenRenderbuffers n);; mret n.
Definition glGenFramebuffers1 : Prog N :=
  n ← get (λ a, gen_name (dom (framebuffers (gl a))));
  call (glGenFramebuffers n);; mret n.
Definition glGenBuffers1 : Prog N :=
  n ← get (λ a, gen_name (dom (buffers (gl a))));
  call (glGenBuffers n);; mret n.
Definition glGenVertexArrays1 : Prog N :=
  n ← get (λ a, gen_name (vertex_arrays (gl a)));
  call (glGenVertexArrays n);; mret n.
Definition glGenSamplers1 : Prog N :=
  n ← get (λ a, gen_name (samplers (gl a)));
  call (glGenSamplers n);; mret n.
Definition glCreateProgram1 : Prog N :=
  n ← get (λ a, gen_name (programs (gl a)));
  call (glCreateProgram n);; mret n.

(** The usual arithmetic conversions: [int] to [unsigned int], and [int] to
    [size_t] (64 bits). *)
Definition to_unsigned (i : Z) : Z := i mod 2 ^ 32.
Definition to_size_t (i : Z) : Z := i mod 2 ^ 64.

(** ** The functions of [main.cpp] *)

(** [createFramebuffer], lines 458-547, block by block: the framebuffer
    object, lines 460-470; *)
Definition createFramebuffer_object : Prog unit :=
  call (glBindFramebuffer GL_FRAMEBUFFER 0);;
  f ← get fbo;
  when (f =? 0)%N (n ← glGenFramebuffers1; modify (set_fbo n));;
  f ← get fbo;
  call (glBindFramebuffer GL_FRAMEBUFFER f).

(** "Render target texture", lines 476-503; *)
Definition createFramebuffer_color (width height MSAA : Z) : Prog unit :=
  rt ← get renderTarget;
  isTexture ← get (λ a, is_texture (gl a) rt);
  when isTexture (call (glDeleteTextures [rt]);; modify (set_renderTarget 0%N));;
  rt ← get renderTarget;
  when (rt =? 0)%N (n ← glGenTextures1; modify (set_renderTarget n));;
  rt ← get renderTarget;
  if 1 <? MSAA
  then call (glBindTexture GL_TEXTURE_2D_MULTISAMPLE rt);;
       call (glTexImage2DMultisample GL_TEXTURE_2D_MULTISAMPLE MSAA GL_RGB16F width height);;
       call (glFramebufferTexture2D GL_COLOR_ATTACHMENT0 GL_TEXTURE_2D_MULTISAMPLE rt)
  else call (glBindTexture GL_TEXTURE_2D rt);;
       call (glTexImage2D GL_TEXTURE_2D GL_RGB16F width height);;
       call (glTexParameteri_LINEAR GL_TEXTURE_2D GL_TEXTURE_MIN_FILTER);;
       call (glTexParameteri_LINEAR GL_TEXTURE_2D GL_TEXTURE_MAG_FILTER);;
       call (glFramebufferTexture2D GL_COLOR_ATTACHMENT0 GL_TEXTURE_2D rt).

(** "Depth buffer texture", lines 509-532; *)
Definition createFramebuffer_depth (width height MSAA : Z) : Prog unit :=
  ds ← get depthStencil;
  isRenderbuffer ← get (λ a, is_renderbuffer (gl a) ds);
  when isRenderbuffer (call (glDeleteRenderbuffers [ds]);; modify (set_depthStencil 0%N));;
  ds ← get depthStencil;
  when (ds =? 0)%N (n ← glGenRenderbuffers1; modify (set_depthStencil n));;
  ds ← get depthStencil;
  call (glBindRenderbuffer ds);;
  (if 1 <? MSAA
   then call (glRenderbufferStorageMultisample MSAA GL_DEPTH_COMPONENT32F width height)
   else call (glRenderbufferStorage GL_DEPTH_COMPONENT32F width height));;
  call (glFramebufferRenderbuffer GL_DEPTH_ATTACHMENT ds).

(** and the draw buffers and the completeness check, lines 534-546. *)
Definition createFramebuffer_check : Prog unit :=
  call (glDrawBuffers [GL_COLOR_ATTACHMENT0]);;
  complete ← get (λ a, framebuffer_complete (gl a) (draw_framebuffer (gl a)));
  when (negb complete) (printf "Failed to create framebuffer");;
  call (glBindFramebuffer GL_FRAMEBUFFER 0).

Definition createFramebuffer (width height MSAA : Z) : Prog unit :=
  createFramebuffer_object;;
  createFramebuffer_color width height MSAA;;
  createFramebuffer_depth width height MSAA;;
  createFramebuffer_check.

Definition setProjection : Prog unit :=
  modify (λ a, set_camera
    (SetProjection (fov a)
       (float_of_int (mainWindow_width a) / float_of_int (mainWindow_height a))%F
       nearClipPlane farClipPlane (camera a)) a).

(** [resizeCallback], lines 176-184. *)
Definition resizeCallback (width height : Z) : Prog unit :=
  modify (set_mainWindow_width width);;
  modify (set_mainWindow_height height);;
  call (glViewport 0 0 width height);;
  setProjection;;
  level ← get msaaLevel;
  createFramebuffer width height level.

(** [mouseMoveCallback], lines 187-192. *)
Definition mouseMoveCallback (x y : double) : Prog unit :=
  modify (λ a, set_mouseStatus
    (MkMouseStatus x y (mouse_prevX (mouseStatus a)) (mouse_prevY (mouseStatus a))) a).

Definition pressed (key : KeyCode) (action : KeyAction) (k : KeyCode) : bool :=
  bool_decide (key = k) && bool_decide (action = GLFW_PRESS).

(** [keyCallback], lines 195-276.  In the two zoom tests [&&] binds tighter
    than [||], as in the source. *)
Definition keyCallback (key : KeyCode) (action : KeyAction) : Prog unit :=
  when (pressed key action GLFW_KEY_ESCAPE) (modify (set_windowShouldClose true));;
  when (pressed key action GLFW_KEY_F1)
    (level ← get msaaLevel;
     (if 1 <? level then modify (set_msaaLevel 1) else modify (set_msaaLevel MSAA_SAMPLES));;
     w ← get mainWindow_width; h ← get mainWindow_height; level ← get msaaLevel;
     createFramebuffer w h level);;
  when (pressed key action GLFW_KEY_F2) (modify (λ a, set_wireframe (negb (wireframe a)) a));;
  when (pressed key action GLFW_KEY_F3)
    (culling ← get (λ a, is_enabled (gl a) GL_CULL_FACE);
     if culling : bool then call (glDisable GL_CULL_FACE) else call (glEnable GL_CULL_FACE));;
  when (pressed key action GLFW_KEY_F4) (modify (λ a, set_depthTest (negb (depthTest a)) a));;
  when (pressed key action GLFW_KEY_F5)
    (modify (λ a, set_vsync (negb (vsync a)) a);;
     modify (λ a, set_swapInterval (if vsync a then 1 else 0) a));;
  when (pressed key action GLFW_KEY_F6) (modify (λ a, set_tonemapping (negb (tonemapping a)) a));;
  when (bool_decide (key = GLFW_KEY_KP_ADD) || pressed key action GLFW_KEY_EQUAL)
    (modify (λ a, set_fov (fov a - fconst 1)%F a);;
     f ← get fov;
     when (flt f (fconst 5)) (modify (set_fov (fconst 5))));;
  when (bool_decide (key = GLFW_KEY_KP_SUBTRACT) || pressed key action GLFW_KEY_MINUS)
    (modify (λ a, set_fov (fov a + fconst 1)%F a);;
     f ← get fov;
     when (fge f (fconst 180)) (modify (set_fov (fconst 179))));;
  when (pressed key action GLFW_KEY_BACKSPACE) (modify (set_fov (fconst 45)));;
  setProjection.

(** Modelled from the spec: [Textures.h] is missing.  The texture helper
    "loads/creates GPU texture objects" and hands back "opaque GPU handles":
    a texture is created by generating a name and binding it, and given an
    image of the stated size. *)
Definition CreateTexture (width height : Z) : Prog N :=
  n ← glGenTextures1;
  call (glBindTexture GL_TEXTURE_2D n);;
  call (glTexImage2D GL_TEXTURE_2D GL_RGB16F width height);;
  mret n.
Definition CreateSingleColorTexture : Prog N := CreateTexture 1 1.
Definition CreateCheckerBoardTexture (size : Z) : Prog N := CreateTexture size size.
Definition LoadTexture (path : string) : Prog N :=
  CreateTexture (fst (image_size path)) (snd (image_size path)).
Definition CreateSamplers : Prog unit :=
  n ← glGenSamplers1; modify (set_anisotropicSampler n).

Definition setTexture (t : LoadedTexture) (n : N) : Prog unit :=
  modify (λ a, set_loadedTextures (<[t := n]> (loadedTextures a)) a).

(** [loadTextures], lines 281-295. *)
Definition loadTextures : Prog unit :=
  CreateSamplers;;
  n ← CreateSingleColorTexture; setTexture White n;;
  n ← CreateSingleColorTexture; setTexture Grey n;;
  n ← CreateSingleColorTexture; setTexture Blue n;;
  n ← CreateCheckerBoardTexture 256; setTexture CheckerBoard n;;
  n ← LoadTexture "data/Terracotta_Tiles_002_Base_Color.jpg"; setTexture Diffuse n;;
  n ← LoadTexture "data/Terracotta_Tiles_002_Normal.jpg"; setTexture Normal n;;
  n ← LoadTexture "data/Terracotta_Tiles_002_Roughness.jpg"; setTexture Specular n;;
  n ← LoadTexture "data/Terracotta_Tiles_002_ambientOcclusion.jpg"; setTexture Occlusion n.

(** Modelled from the spec: [Geometry.h] is missing.  A mesh owns a vertex
    array and knows its index count. *)
Definition CreateQuadNormalTangentTex : Prog Mesh :=
  n ← glGenVertexArrays1; mret (MkMesh n quad_index_count).
Definition CreateCubeNormalTangentTex : Prog Mesh :=
  n ← glGenVertexArrays1; mret (MkMesh n cube_index_count).
Definition delete_mesh (m : option Mesh) : Prog unit :=
  match m with
  | Some mesh => call (glDeleteVertexArrays [GetVAO mesh])
  | None => mret tt
  end.

(** Modelled from the spec: [shaders.h] is missing.  The shader collaborator
    "exposes a fixed enumerated set of compiled program handles" and reports
    failures "as a single aggregate boolean". *)
Definition compileShaders : Prog bool :=
  for_each all_programs (λ p,
    n ← glCreateProgram1;
    modify (λ a, set_shaderProgram (<[p := n]> (shaderProgram a)) a));;
  mret compileShaders_ok.

(** Modelled from the spec: [MathSupport.h] is missing; [getRandom] draws
    from a generator with hidden state. *)
Definition random (lo hi : float) : Prog float :=
  r ← get (λ a, getRandom lo hi (rng a));
  modify (set_rng (snd r));; mret (fst r).

Definition push_back (p : vec3) : Prog unit :=
  modify (λ a, set_cubePositions (cubePositions a ++ [p]) a).

(** One iteration of the position loop, lines 354-358: three random numbers
    and a new position. *)
Definition push_random (i : Z) : Prog unit :=
  x ← random (fconst (-5)) (fconst 5);
  y ← random (fconst 1) (fconst 5);
  z ← random (fconst (-5)) (fconst 5);
  push_back (Vec3 x y z).

(** [createGeometry], lines 298-360, block by block: the vertex array and
    the meshes, lines 300-305; *)
Definition createGeometry_meshes : Prog unit :=
  n ← glGenVertexArrays1; modify (set_vao n);;
  q ← CreateQuadNormalTangentTex; modify (set_quad (Some q));;
  c ← CreateCubeNormalTangentTex; modify (set_cube (Some c)).

(** the instancing buffer, lines 307-322; *)
Definition createGeometry_instancing : Prog unit :=
  b ← glGenBuffers1; modify (set_instancingBuffer b);;
  b ← get instancingBuffer;
  call (glBindBuffer b);;
  p ← get (λ a, shaderProgram a Instancing);
  call (glBufferData (uniform_block_data_size p "InstanceBuffer"));;
  call (glBindBuffer 0).

(** the transform block, lines 324-345; *)
Definition createGeometry_transform : Prog unit :=
  b ← glGenBuffers1; modify (set_transformBlockUBO b);;
  b ← get transformBlockUBO;
  call (glBindBuffer b);;
  p ← get (λ a, shaderProgram a Default);
  call (glBufferData (uniform_block_data_size p "TransformBlock"));;
  call (glBindBufferBase 0 b);;
  call (glBindBuffer 0).

(** and the cube positions, lines 347-359.  [reserve] with a negative count
    asks for more than [max_size] and throws. *)
Definition createGeometry_cubes : Prog unit :=
  (if numCubes <? 0 then undefined else mret tt);;
  push_back (Vec3 (fconst 0) (fconst 0.5) (fconst 0));;
  for_each (seqZ 1 numCubes) push_random.

Definition createGeometry : Prog unit :=
  createGeometry_meshes;; createGeometry_instancing;;
  createGeometry_transform;; createGeometry_cubes.

Definition expectedUboSize : Z := 4096 * 4 * 4.

Definition initialCameraTransformation : Prog unit :=
  modify (λ a, set_camera
    (SetTransformation (Vec3 (fconst (-3)) (fconst 3) (fconst (-5)))
       (Vec3 (fconst 0) (fconst 0) (fconst 0))
       (Vec3 (fconst 0) (fconst 1) (fconst 0)) (camera a)) a).

Definition setSwapInterval : Prog unit :=
  modify (λ a, set_swapInterval (if vsync a then 1 else 0) a).

(** [initOpenGL], lines 363-455.  [numCubes > MAX_INSTANCES] compares an
    [int] with an [unsigned int]. *)
Definition initOpenGL : Prog bool :=
  if negb glfwInit_ok then mret false else
  modify (set_mainWindow_handle glfwCreateWindow_ok);;
  if negb glfwCreateWindow_ok
  then printf "Failed to create the GLFW window!";; mret false else
  if negb gladLoadGL_ok
  then printf "GLAD failed!";; mret false else
  if GL_MAX_UNIFORM_BLOCK_SIZE <? expectedUboSize
  then printf "Implementation allowed UBO size smaller than expected!";; mret false else
  if MAX_INSTANCES <? to_unsigned numCubes
  then printf "Trying to render more than the maximum number of cubes!";; mret false else
  setSwapInterval;;
  call (glEnable GL_CULL_FACE);;
  call glCullFace_BACK;;
  call (glEnable GL_DEPTH_TEST);;
  call glDepthFunc_LEQUAL;;
  call (glEnable GL_FRAMEBUFFER_SRGB);;
  resizeCallback DefaultWidth DefaultHeight;;
  initialCameraTransformation;;
  mret true.

(** [shutDown], lines 550-583.  [glfwDestroyWindow] destroys the context
    with whatever objects are still in its stores; the stores are kept here
    as they are at that moment. *)
Definition shutDown : Prog unit :=
  for_each all_programs (λ p,
    n ← get (λ a, shaderProgram a p); call (glDeleteProgram n));;
  q ← get quad; delete_mesh q;; modify (set_quad None);;
  c ← get cube; delete_mesh c;; modify (set_cube None);;
  b ← get instancingBuffer; call (glDeleteBuffers [b]);;
  rt ← get renderTarget; call (glDeleteTextures [rt]);;
  ds ← get depthStencil; call (glDeleteTextures [ds]);;
  f ← get fbo; call (glDeleteFramebuffers [f]);;
  v ← get vao; call (glDeleteVertexArrays [v]);;
  l ← get (λ a, loadedTextures a <$> all_textures); call (glDeleteTextures l);;
  modify (set_mainWindow_handle false).

(** What [glfwGetKey] and [glfwGetMouseButton] report during a frame. *)
Record Input := MkInput {
  key_W : bool; key_S : bool; key_A : bool; key_D : bool; key_R : bool;
  key_F : bool; key_LEFT_SHIFT : bool; key_ENTER : bool;
  mouse_button_right : bool }.

(** [processInput], lines 588-637. *)
Definition processInput (input : Input) (dt : float) : Prog unit :=
  let direction :=
    MkDirections (key_W input) (key_S input) (key_A input) (key_D input)
      (key_R input) (key_F input) in
  modify (λ a, set_camera
    (SetMovementSpeed
       (if key_LEFT_SHIFT input then CameraTurboSpeed else CameraNormalSpeed)
       (camera a)) a);;
  ms ← get mouseStatus;
  let dx := dsub (mouse_x ms) (mouse_prevX ms) in
  let dy := dsub (mouse_y ms) (mouse_prevY ms) in
  modify (set_mouseStatus (MkMouseStatus (mouse_x ms) (mouse_y ms) (mouse_x ms) (mouse_y ms)));;
  let mouseMove :=
    if mouse_button_right input
    then Vec2 (float_of_double dx) (float_of_double dy)
    else Vec2 (fconst 0) (fconst 0) in
  modify (λ a, set_camera (Move direction mouseMove dt (camera a)) a);;
  when (key_ENTER input) (setProjection;; initialCameraTransformation).

(** [bindTextures], lines 640-658. *)
Definition bindTextures (diffuse normal specular occlusion : N) : Prog unit :=
  sampler ← get anisotropicSampler;
  call (glActiveTexture 0);;
  call (glBindTexture GL_TEXTURE_2D diffuse);;
  call (glBindSampler 0 sampler);;
  call (glActiveTexture 1);;
  call (glBindTexture GL_TEXTURE_2D normal);;
  call (glBindSampler 1 sampler);;
  call (glActiveTexture 2);;
  call (glBindTexture GL_TEXTURE_2D specular);;
  call (glBindSampler 2 sampler);;
  call (glActiveTexture 3);;
  call (glBindTexture GL_TEXTURE_2D occlusion);;
  call (glBindSampler 3 sampler).

(** The world transform of cube [i] at position [p]: the two statements of
    the loop body, lines 672-673. *)
Definition cubeTransformation (i : Z) (p : vec3) : mat4x4 :=
  let angle := fconst 20 in
  mat4_mul (translate p)
    (rotate (radians (float_of_int i * angle)%F)
            (Vec3 (fconst 1) (fconst 1) (fconst 1))).

(** The floats of the staging vector, in memory order, and the first
    [size] bytes of them. *)
Definition instance_floats (l : list InstanceData) : list float :=
  concat ((λ d, value_ptr_mat3x4 (transformation d)) <$> l).
Definition instance_bytes (size : Z) (l : list InstanceData) : list float :=
  take (Z.to_nat (size / sizeof_float)) (instance_floats l).

(** One iteration of the loop of [updateInstanceData], lines 670-676. *)
Definition updateInstance (i : Z) : Prog unit :=
  positions ← get cubePositions;
  p ← at_index positions i;
  staging ← get instanceData;
  at_index staging i;;
  modify (set_instanceData
    (<[Z.to_nat i := MkInstanceData (mat3x4_of_mat4 (transpose (cubeTransformation i p)))]>
       staging)).

(** The size argument of the [memcpy]: [numCubes * sizeof(InstanceData)] in
    [size_t]. *)
Definition upload_size : Z := to_size_t (to_size_t numCubes * sizeof_InstanceData).

(** [updateInstanceData], lines 661-685. *)
Definition updateInstanceData : Prog unit :=
  for_each (seqZ 0 numCubes) updateInstance;;
  b ← get instancingBuffer;
  call (glBindBufferBase 1 b);;
  ptr ← get (λ a, can_map (gl a));
  call glMapBuffer;;
  staging ← get instanceData;
  fits ← get (λ a, mapped_fits upload_size (gl a));
  (if (ptr : bool) && (fits : bool)
      && (upload_size <=? Z.of_nat (length staging) * sizeof_InstanceData)
   then call (memcpy_mapped upload_size (instance_bytes upload_size staging))
   else undefined);;
  call glUnmapBuffer.

(** [updateProgramData], lines 687-699. *)
Definition updateProgramData (program : N) (lightPosition : vec3) : Prog unit :=
  call (glUniform3f (uniform_location program "lightPosWS")
          (v3_x lightPosition) (v3_y lightPosition) (v3_z lightPosition));;
  viewPos ← get (λ a, m4_3 (GetViewToWorld (camera a)));
  call (glUniform4f (uniform_location program "viewPosWS")
          (v4_x viewPos) (v4_y viewPos) (v4_z viewPos) (v4_w viewPos)).

(** [updateTransformBlock], lines 702-722. *)
Definition updateTransformBlock : Prog unit :=
  ubo ← get transformBlockUBO;
  call (glBindBuffer ubo);;
  worldToView ← get (λ a, mat3x4_of_mat4 (transpose (GetWorldToView (camera a))));
  call (glBufferSubData 0 sizeof_mat3x4 (value_ptr_mat3x4 worldToView));;
  projection ← get (λ a, GetProjection (camera a));
  call (glBufferSubData sizeof_mat3x4 sizeof_mat4x4 (value_ptr_mat4x4 projection));;
  call (glBindBuffer 0).

Definition lightPosition : vec3 := Vec3 (fconst (-3)) (fconst 3) (fconst 0).

(** [renderScene], lines 724-869, block by block.  First the state the
    offscreen pass is drawn with, lines 726-757. *)
Definition renderScene_begin : Prog unit :=
  updateTransformBlock;;
  f ← get fbo;
  call (glBindFramebuffer GL_FRAMEBUFFER f);;
  test ← get depthTest;
  (if test : bool
   then call (glEnable GL_DEPTH_TEST);; call glDepthFunc_LEQUAL;; call (glDepthMask true)
   else call (glDisable GL_DEPTH_TEST));;
  level ← get msaaLevel;
  (if 1 <? level then call (glEnable GL_MULTISAMPLE) else call (glDisable GL_MULTISAMPLE));;
  wire ← get wireframe;
  (if wire : bool then call (glPolygonMode GL_LINE) else call (glPolygonMode GL_FILL));;
  call (glClearColor (fconst 0.1) (fconst 0.2) (fconst 0.4) (fconst 1));;
  call (glClear true true).

(** "Draw the scene floor", lines 765-777. *)
Definition renderScene_floor : Prog unit :=
  p ← get (λ a, shaderProgram a Default);
  call (glUseProgram p);;
  updateProgramData p lightPosition;;
  let transformation :=
    mat4x3_of_mat4 (scale (Vec3 (fconst 30) (fconst 1) (fconst 30))) in
  call (glUniformMatrix4x3fv 0 (value_ptr_mat4x3 transformation));;
  t ← get loadedTextures;
  bindTextures (t CheckerBoard) (t Blue) (t Grey) (t White);;
  q ← get quad; mesh ← deref q;
  call (glBindVertexArray (GetVAO mesh));;
  call (glDrawElements GL_TRIANGLES (GetIBOSize mesh)).

(** "Draw cubes", lines 782-798. *)
Definition renderScene_cubes : Prog unit :=
  p ← get (λ a, shaderProgram a Instancing);
  call (glUseProgram p);;
  updateProgramData p lightPosition;;
  updateInstanceData;;
  t ← get loadedTextures;
  bindTextures (t Diffuse) (t Normal) (t Specular) (t Occlusion);;
  c ← get cube; mesh ← deref c;
  call (glBindVertexArray (GetVAO mesh));;
  call (glDrawElementsInstanced GL_TRIANGLES (GetIBOSize mesh) numCubes);;
  call (glBindBufferBase 1 0).

(** "Draw the light", lines 803-823; the colour goes to location 0, not to
    the location that was looked up. *)
Definition renderScene_light : Prog unit :=
  p ← get (λ a, shaderProgram a PointRendering);
  call (glUseProgram p);;
  call (glUniform3fv (uniform_location p "position") (vec3_floats lightPosition));;
  call (glUniform3f 0 (fconst 1) (fconst 1) (fconst 1));;
  call (glPointSize (fconst 10));;
  v ← get vao;
  call (glBindVertexArray v);;
  call (glDrawArrays GL_POINTS 0 1);;
  call (glBindVertexArray 0);;
  call (glUseProgram 0).

(** Presentation, lines 825-868: the tonemapping pass or the blit. *)
Definition renderScene_present : Prog unit :=
  tonemap ← get tonemapping;
  if tonemap : bool
  then
    call (glBindFramebuffer GL_FRAMEBUFFER 0);;
    call (glPolygonMode GL_FILL);;
    call (glDisable GL_MULTISAMPLE);;
    call (glDisable GL_DEPTH_TEST);;
    call (glClearColor (fconst 0) (fconst 0) (fconst 0) (fconst 1));;
    call (glClear true false);;
    p ← get (λ a, shaderProgram a Tonemapping);
    call (glUseProgram p);;
    level ← get msaaLevel;
    call (glUniform1f 0 (float_of_int level));;
    let target := if 1 <? level then GL_TEXTURE_2D_MULTISAMPLE else GL_TEXTURE_2D in
    call (glActiveTexture 0);;
    rt ← get renderTarget;
    call (glBindTexture target rt);;
    call (glBindSampler 0 0);;
    v ← get vao;
    call (glBindVertexArray v);;
    call (glDrawArrays GL_TRIANGLES 0 6);;
    call (glBindVertexArray 0);;
    call (glUseProgram 0)
  else
    call (glBindFramebuffer GL_DRAW_FRAMEBUFFER 0);;
    f ← get fbo;
    call (glBindFramebuffer GL_READ_FRAMEBUFFER f);;
    call glDrawBuffer_BACK;;
    w ← get mainWindow_width; h ← get mainWindow_height;
    call (glBlitFramebuffer 0 0 w h 0 0 w h).

(** The offscreen part of a frame: everything before the test of
    [tonemapping]. *)
Definition renderScene_offscreen : Prog unit :=
  renderScene_begin;; renderScene_floor;; renderScene_cubes;; renderScene_light.

Definition renderScene : Prog unit :=
  renderScene_offscreen;; renderScene_present.

(** What [glfwPollEvents] delivers to the registered callbacks. *)
Inductive Event :=
| FramebufferSizeEvent (width height : Z)
| KeyEvent (key : KeyCode) (action : KeyAction)
| CursorPosEvent (x y : double).

Definition dispatch (e : Event) : Prog unit :=
  match e with
  | FramebufferSizeEvent w h => resizeCallback w h
  | KeyEvent key action => keyCallback key action
  | CursorPosEvent x y => mouseMoveCallback x y
  end.

(** One iteration of the loop of [mainLoop]: its time step, the events
    polled and the keys held. *)
Record Frame := MkFrame {
  frame_dt : float; frame_events : list Event; frame_input : Input }.

Definition frame (f : Frame) : Prog unit :=
  for_each (frame_events f) dispatch;;
  processInput (frame_input f) (frame_dt f);;
  renderScene.

(** [mainLoop], lines 872-899, over the frames that happen before the window
    is closed or the list ends. *)
Fixpoint mainLoop (frames : list Frame) : Prog unit :=
  match frames with
  | [] => mret tt
  | f :: rest =>
    close ← get windowShouldClose;
    if close : bool then mret tt else frame f;; mainLoop rest
  end.

(** The statements of [main] that come before [mainLoop], lines 903-923;
    [false] when one of the two checks fails. *)
Definition startup : Prog bool :=
  ok ← initOpenGL;
  if negb ok then printf "Failed to initialize OpenGL!";; mret false else
  ok ← compileShaders;
  if negb ok then printf "Failed to compile shaders!";; mret false else
  createGeometry;; loadTextures;; mret true.

(** The OpenGL entry points are function pointers that [gladLoadGL] fills
    in: they exist once [initOpenGL] has got past its first three checks,
    lines 366-395. *)
Definition entry_points_loaded : bool :=
  glfwInit_ok && glfwCreateWindow_ok && gladLoadGL_ok.

(** [main], lines 901-931.  When start-up fails before the entry points are
    loaded, the [glDeleteProgram] of [shutDown] is a call through a null
    pointer. *)
Definition main (frames : list Frame) : Prog Z :=
  ok ← startup;
  if negb ok
  then (if entry_points_loaded then shutDown;; mret (-1) else undefined)
  else mainLoop frames;; shutDown;; mret 0.


(** ** The commands of a frame

    The functions that only read globals and issue commands are described by
    the list of commands they issue.  [run_calls] issues a list of commands;
    [gl_run] is its effect on the context. *)
Definition run_calls (cs : list GLCall) (a : App) : App :=
  foldl (λ a c, do_call c a) a cs.
Definition gl_run (cs : list GLCall) (g : GLState) : GLState :=
  foldl (λ g c, gl_exec c g) g cs.

Definition updateTransformBlock_calls (a : App) : list GLCall :=
  [ glBindBuffer (transformBlockUBO a);
    glBufferSubData 0 sizeof_mat3x4
      (value_ptr_mat3x4 (mat3x4_of_mat4 (transpose (GetWorldToView (camera a)))));
    glBufferSubData sizeof_mat3x4 sizeof_mat4x4
      (value_ptr_mat4x4 (GetProjection (camera a)));
    glBindBuffer 0 ].

Definition updateProgramData_calls (a : App) (program : N) (light : vec3) : list GLCall :=
  let viewPos := m4_3 (GetViewToWorld (camera a)) in
  [ glUniform3f (uniform_location program "lightPosWS")
      (v3_x light) (v3_y light) (v3_z light);
    glUniform4f (uniform_location program "viewPosWS")
      (v4_x viewPos) (v4_y viewPos) (v4_z viewPos) (v4_w viewPos) ].

Definition bindTextures_calls (a : App) (diffuse normal specular occlusion : N)
  : list GLCall :=
  [ glActiveTexture 0; glBindTexture GL_TEXTURE_2D diffuse;
    glBindSampler 0 (anisotropicSampler a);
    glActiveTexture 1; glBindTexture GL_TEXTURE_2D normal;
    glBindSampler 1 (anisotropicSampler a);
    glActiveTexture 2; glBindTexture GL_TEXTURE_2D specular;
    glBindSampler 2 (anisotropicSampler a);
    glActiveTexture 3; glBindTexture GL_TEXTURE_2D occlusion;
    glBindSampler 3 (anisotropicSampler a) ].

Definition renderScene_begin_calls (a : App) : list GLCall :=
  updateTransformBlock_calls a
  ++ [glBindFramebuffer GL_FRAMEBUFFER (fbo a)]
  ++ (if depthTest a
      then [glEnable GL_DEPTH_TEST; glDepthFunc_LEQUAL; glDepthMask true]
      else [glDisable GL_DEPTH_TEST])
  ++ [if 1 <? msaaLevel a then glEnable GL_MULTISAMPLE else glDisable GL_MULTISAMPLE]
  ++ [if wireframe a then glPolygonMode GL_LINE else glPolygonMode GL_FILL]
  ++ [glClearColor (fconst 0.1) (fconst 0.2) (fconst 0.4) (fconst 1);
      glClear true true].

Definition renderScene_floor_calls (a : App) (mesh : Mesh) : list GLCall :=
  [glUseProgram (shaderProgram a Default)]
  ++ updateProgramData_calls a (shaderProgram a Default) lightPosition
  ++ [glUniformMatrix4x3fv 0
        (value_ptr_mat4x3 (mat4x3_of_mat4 (scale (Vec3 (fconst 30) (fconst 1) (fconst 30)))))]
  ++ bindTextures_calls a (loadedTextures a CheckerBoard) (loadedTextures a Blue)
       (loadedTextures a Grey) (loadedTextures a White)
  ++ [glBindVertexArray (GetVAO mesh);
      glDrawElements GL_TRIANGLES (GetIBOSize mesh)].

(** The commands of "Draw cubes" up to the mapping of the instancing buffer,
    and from the copy on; [staging] is the staging vector after the loop. *)
Definition renderScene_cubes_calls_map (a : App) : list GLCall :=
  [glUseProgram (shaderProgram a Instancing)]
  ++ updateProgramData_calls a (shaderProgram a Instancing) lightPosition
  ++ [glBindBufferBase 1 (instancingBuffer a)].

Definition renderScene_cubes_calls_draw (a : App) (mesh : Mesh)
    (staging : list InstanceData) : list GLCall :=
  [glMapBuffer; memcpy_mapped upload_size (instance_bytes upload_size staging);
   glUnmapBuffer]
  ++ bindTextures_calls a (loadedTextures a Diffuse) (loadedTextures a Normal)
       (loadedTextures a Specular) (loadedTextures a Occlusion)
  ++ [glBindVertexArray (GetVAO mesh);
      glDrawElementsInstanced GL_TRIANGLES (GetIBOSize mesh) numCubes;
      glBindBufferBase 1 0].

Definition renderScene_light_calls (a : App) : list GLCall :=
  [ glUseProgram (shaderProgram a PointRendering);
    glUniform3fv (uniform_location (shaderProgram a PointRendering) "position")
      (vec3_floats lightPosition);
    glUniform3f 0 (fconst 1) (fconst 1) (fconst 1);
    glPointSize (fconst 10);
    glBindVertexArray (vao a);
    glDrawArrays GL_POINTS 0 1;
    glBindVertexArray 0;
    glUseProgram 0 ].

Definition renderScene_present_calls (a : App) : list GLCall :=
  if tonemapping a
  then [ glBindFramebuffer GL_FRAMEBUFFER 0;
         glPolygonMode GL_FILL;
         glDisable GL_MULTISAMPLE;
         glDisable GL_DEPTH_TEST;
         glClearColor (fconst 0) (fconst 0) (fconst 0) (fconst 1);
         glClear true false;
         glUseProgram (shaderProgram a Tonemapping);
         glUniform1f 0 (float_of_int (msaaLevel a));
         glActiveTexture 0;
         glBindTexture
           (if 1 <? msaaLevel a then GL_TEXTURE_2D_MULTISAMPLE else GL_TEXTURE_2D)
           (renderTarget a);
         glBindSampler 0 0;
         glBindVertexArray (vao a);
         glDrawArrays GL_TRIANGLES 0 6;
         glBindVertexArray 0;
         glUseProgram 0 ]
  else [ glBindFramebuffer GL_DRAW_FRAMEBUFFER 0;
         glBindFramebuffer GL_READ_FRAMEBUFFER (fbo a);
         glDrawBuffer_BACK;
         glBlitFramebuffer 0 0 (mainWindow_width a) (mainWindow_height a)
           0 0 (mainWindow_width a) (mainWindow_height a) ].

(** The commands of the offscreen part of a frame, up to the mapping of the
    instancing buffer and from there on, and of a whole frame. *)
Definition offscreen_calls_map (a : App) (q : Mesh) : list GLCall :=
  renderScene_begin_calls a ++ renderScene_floor_calls a q
  ++ renderScene_cubes_calls_map a.

Definition offscreen_calls_draw (a : App) (c : Mesh) (staging : list InstanceData)
  : list GLCall :=
  renderScene_cubes_calls_draw a c staging ++ renderScene_light_calls a.

Definition offscreen_calls (a : App) (q c : Mesh) (staging : list InstanceData)
  : list GLCall :=
  offscreen_calls_map a q ++ offscreen_calls_draw a c staging.

Definition frame_calls (a : App) (q c : Mesh) (staging : list InstanceData)
  : list GLCall :=
  offscreen_calls a q c staging ++ renderScene_present_calls a.

(** The loop of [updateInstanceData] on the two vectors alone: [None] when an
    index is out of range. *)
Definition packInstance (positions : list vec3) (staging : list InstanceData) (i : Z)
  : option (list InstanceData) :=
  if i <? 0 then None else
  match positions !! Z.to_nat i, staging !! Z.to_nat i with
  | Some p, Some _ =>
      Some (<[Z.to_nat i :=
               MkInstanceData (mat3x4_of_mat4 (transpose (cubeTransformation i p)))]>
              staging)
  | _, _ => None
  end.

Fixpoint packInstances (positions : list vec3) (indices : list Z)
    (staging : list InstanceData) : option (list InstanceData) :=
  match indices with
  | [] => Some staging
  | i :: rest =>
    match packInstance positions staging i with
    | Some staging' => packInstances positions rest staging'
    | None => None
    end
  end.

(** The [memcpy] of [updateInstanceData] is defined: the buffer could be
    mapped, and the mapped range and the staging vector both hold
    [upload_size] bytes. *)
Definition upload_defined (g : GLState) (staging : list InstanceData) : bool :=
  can_map g && mapped_fits upload_size (gl_exec glMapBuffer g)
  && (upload_size <=? Z.of_nat (length staging) * sizeof_InstanceData).

(** Unpacking an instance record, in the words of the spec: "unpacking the
    transposed 3x4 storage and re-transposing", with the implicit last
    column (0, 0, 0, 1) restored before the transposition. *)
Definition unpack_instance (m : mat3x4) : mat4x4 :=
  transpose
    (Mat4x4 (m34_0 m) (m34_1 m) (m34_2 m)
       (Vec4 (fconst 0) (fconst 0) (fconst 0) (fconst 1))).

(** The record [updateInstanceData] stores for cube [i] at position [p]. *)
Definition packed_instance (i : Z) (p : vec3) : InstanceData :=
  MkInstanceData (mat3x4_of_mat4 (transpose (cubeTransformation i p))).

(** A program that leaves the observation [f] of the state as it is. *)
Definition preserves {X A} (f : App → X) (m : Prog A) : Prop :=
  ∀ a x a', m a = Some (x, a') → f a' = f a.

(** A program that has a result in every state. *)
Definition always_returns {A} (m : Prog A) : Prop := ∀ a, is_Some (m a).

(** ** Classes of commands *)

(** The commands that render: clears, draws and blits. *)
Definition is_render (c : GLCall) : bool :=
  match c with
  | glClear _ _ | glDrawElements _ _ | glDrawElementsInstanced _ _ _
  | glDrawArrays _ _ _ | glBlitFramebuffer _ _ _ _ _ _ _ _ => true
  | _ => false
  end.


Definition is_instanced_draw (c : GLCall) : bool :=
  match c with
  | glDrawElementsInstanced _ _ _ => true
  | _ => false
  end.


Definition is_instance_upload (c : GLCall) : bool :=
  match c with
  | memcpy_mapped _ _ => true
  | _ => false
  end.

(** In the list [l] no command of class [p] comes after a command of class
    [q]. *)
Fixpoint all_before (p q : GLCall → bool) (l : list GLCall) : bool :=
  match l with
  | [] => true
  | c :: rest =>
    (if q c then forallb (λ x, negb (p x)) rest else true) && all_before p q rest
  end.

(** The commands that write to the data store of a buffer. *)
Definition is_buffer_write (c : GLCall) : bool :=
  match c with
  | glBufferData _ | glBufferSubData _ _ _ | memcpy_mapped _ _ => true
  | _ => false
  end.

(** The commands that allocate, respecify or release an image. *)
Definition is_image_allocation (c : GLCall) : bool :=
  match c with
  | glGenTextures _ | glDeleteTextures _ | glTexImage2D _ _ _ _
  | glTexImage2DMultisample _ _ _ _ _ | glGenRenderbuffers _
  | glDeleteRenderbuffers _ | glRenderbufferStorage _ _ _
  | glRenderbufferStorageMultisample _ _ _ _ => true
  | _ => false
  end.

(** The commands after which the framebuffer bound for drawing may be an
    object: bindings to a non-zero name and deletions. *)
Definition keeps_window_bound (c : GLCall) : bool :=
  match c with
  | glBindFramebuffer GL_READ_FRAMEBUFFER _ => true
  | glBindFramebuffer _ n => (n =? 0)%N
  | _ => true
  end.

(** The commands that may change the texture store, the renderbuffer store
    and the buffer store. *)
Definition touches_textures (c : GLCall) : bool :=
  match c with
  | glGenTextures _ | glBindTexture _ _ | glTexImage2D _ _ _ _
  | glTexImage2DMultisample _ _ _ _ _ | glDeleteTextures _ => true
  | _ => is_render c
  end.

Definition touches_renderbuffers (c : GLCall) : bool :=
  match c with
  | glGenRenderbuffers _ | glBindRenderbuffer _ | glRenderbufferStorage _ _ _
  | glRenderbufferStorageMultisample _ _ _ _ | glDeleteRenderbuffers _ => true
  | _ => is_render c
  end.

Definition touches_buffers (c : GLCall) : bool :=
  match c with
  | glGenBuffers _ | glBindBuffer _ | glBindBufferBase _ _ | glBufferData _
  | glBufferSubData _ _ _ | glMapBuffer | memcpy_mapped _ _ | glUnmapBuffer
  | glDeleteBuffers _ => true
  | _ => false
  end.

(** The commands that create or release a texture name, and a renderbuffer
    name. *)
Definition names_textures (c : GLCall) : bool :=
  match c with
  | glGenTextures _ | glDeleteTextures _ => true
  | _ => false
  end.

Definition names_renderbuffers (c : GLCall) : bool :=
  match c with
  | glGenRenderbuffers _ | glDeleteRenderbuffers _ => true
  | _ => false
  end.

(** The object a handle of the program holds on to: none for zero. *)
Definition held (n : N) : gset N := if decide (n = 0%N) then ∅ else {[n]}.

(** The commands by which [createFramebuffer] releases the object behind a
    handle, and gives it an image of the requested size. *)
Definition release_texture (g : GLState) (n : N) : list GLCall :=
  if is_texture g n then [glDeleteTextures [n]] else [].
Definition release_renderbuffer (g : GLState) (n : N) : list GLCall :=
  if is_renderbuffer g n then [glDeleteRenderbuffers [n]] else [].
Definition color_image (width height MSAA : Z) : GLCall :=
  if 1 <? MSAA
  then glTexImage2DMultisample GL_TEXTURE_2D_MULTISAMPLE MSAA GL_RGB16F width height
  else glTexImage2D GL_TEXTURE_2D GL_RGB16F width height.
Definition depth_image (width height MSAA : Z) : GLCall :=
  if 1 <? MSAA
  then glRenderbufferStorageMultisample MSAA GL_DEPTH_COMPONENT32F width height
  else glRenderbufferStorage GL_DEPTH_COMPONENT32F width height.

(** The handles that [shutDown] reads and the allocation commands issued so
    far. *)
Definition shutDown_view (a : App) : N * N * (LoadedTexture → N) * list GLCall :=
  (renderTarget a, depthStencil a, loadedTextures a,
   List.filter is_image_allocation (trace a)).

(** What the end-to-end scenario of the specification looks at: the size of
    the window and the sample count, the storage of the render target and of
    the depth buffer, the instanced draws issued, the size in bytes and in
    floats of every instance upload, and the size of the transform block with
    its first 28 floats. *)
Definition report (a : App)
  : Z * Z * Z * option (option Storage) * option (option Storage)
    * list GLCall * list (Z * nat) * option (Z * list (option float)) :=
  (mainWindow_width a, mainWindow_height a, msaaLevel a,
   tex_storage <$> textures (gl a) !! renderTarget a,
   rb_storage <$> renderbuffers (gl a) !! depthStencil a,
   List.filter is_instanced_draw (trace a),
   (λ c, match c with
         | memcpy_mapped size data => (size, length data)
         | _ => (0, 0%nat)
         end) <$> List.filter is_instance_upload (trace a),
   (λ b, (buf_size b, (λ k, buf_data b !! (4 * k)) <$> seqZ 0 28))
     <$> buffers (gl a) !! transformBlockUBO a).

(** The commands that enable or disable a capability. *)
Definition sets_capability (c : GLCall) : bool :=
  match c with
  | glEnable _ | glDisable _ => true
  | _ => false
  end.

(** The switches of the program that the keys toggle: closing, wireframe,
    depth test, tonemapping, vsync with the swap interval, and face culling,
    which lives in the context. *)
Definition switches (a : App) : bool * bool * bool * bool * bool * Z * bool :=
  (windowShouldClose a, wireframe a, depthTest a, tonemapping a, vsync a,
   swapInterval a, is_enabled (gl a) GL_CULL_FACE).

(** The events that ask for the window to be closed: a press of Escape. *)
Definition closes_window (e : Event) : bool :=
  match e with
  | KeyEvent key action => pressed key action GLFW_KEY_ESCAPE
  | _ => false
  end.

(** The commands that create, resize, map, unmap or delete a buffer. *)
Definition reshapes_buffers (c : GLCall) : bool :=
  match c with
  | glGenBuffers _ | glBufferData _ | glMapBuffer | glUnmapBuffer
  | glDeleteBuffers _ => true
  | _ => false
  end.

(** The size of the buffer [n] and whether it is mapped. *)
Definition buffer_shape (g : GLState) (n : N) : option (Z * bool) :=
  (λ b, (buf_size b, buf_mapped b)) <$> buffers g !! n.

(** What a frame needs of the program state. *)
Definition frame_view (a : App)
  : option Mesh * option Mesh * list vec3 * list InstanceData * N * option (Z * bool) :=
  (quad a, cube a, cubePositions a, instanceData a, instancingBuffer a,
   buffer_shape (gl a) (instancingBuffer a)).

(** ** What is compared and what is kept *)

(** The storage and the pixels of every texture, and of every renderbuffer:
    the contents of the offscreen render targets. *)
Definition texture_contents (g : GLState) : gmap N (option Storage * Image) :=
  (λ t, (tex_storage t, tex_image t)) <$> textures g.
Definition renderbuffer_contents (g : GLState) : gmap N (option Storage * Image) :=
  (λ r, (rb_storage r, rb_image r)) <$> renderbuffers g.

(** The names the program holds for the render target and the depth buffer
    are either zero or name an object of the right type. *)
Definition handles_valid (a : App) : Prop :=
  (renderTarget a = 0%N ∨ is_texture (gl a) (renderTarget a) = true) ∧
  (depthStencil a = 0%N ∨ is_renderbuffer (gl a) (depthStencil a) = true).

(** [msaaLevel] is one of the two values the program ever assigns. *)
Definition msaa_valid (a : App) : Prop :=
  msaaLevel a = 1 ∨ msaaLevel a = MSAA_SAMPLES.

(** A state in which a frame can be rendered: the meshes and the positions
    exist, the staging vector has its capacity, and the instancing buffer is
    an unmapped object large enough for [numCubes] instances. *)
Definition frame_ready (a : App) : Prop :=
  is_Some (quad a) ∧ is_Some (cube a) ∧
  0 ≤ numCubes ≤ MAX_INSTANCES ∧
  numCubes < Z.of_nat (length (cubePositions a)) ∧
  Z.of_nat (length (instanceData a)) = MAX_INSTANCES ∧
  instancingBuffer a ≠ 0%N ∧
  ∃ b, buffers (gl a) !! instancingBuffer a = Some b ∧
       buf_mapped b = false ∧ 0 < buf_size b ∧
       numCubes * sizeof_InstanceData ≤ buf_size b.

End Application.

(** ** A concrete platform

    Integers for the scalars (literals are rounded down, [cos] and [sin] are
    constant, which is all the examples need), images that remember the
    commands drawn into them, a camera that never moves, and an
    implementation that hands out a name above the ones in use. *)
Module Demo.
Import glm.

Definition round_down (q : Q) : Z := Qnum q / Z.pos (Qden q).

#[local] Instance floats : FloatOps := {|
  float := Z; double := Z;
  fconst := round_down;
  fadd := Z.add; fsub := Z.sub; fmul := Z.mul; fdiv := Z.div;
  fcos _ := 1; fsin _ := 0; fsqrt z := z;
  flt := Z.ltb;
  fge := Z.geb;
  float_of_int z := z;
  dconst := round_down; dsub := Z.sub; float_of_double z := z |}.

#[local] Instance images : ImageType := {| Image := list GLCall; blank := [] |}.

#[local] Instance rasteriser : Rasteriser := {|
  shade_color _ c img := img ++ [c];
  shade_depth _ c img := img ++ [c];
  blit_color _ c src dst := src ++ [c] |}.

#[local] Instance fixed_camera : CameraOps := {|
  Camera := unit;
  camera_default := tt;
  SetProjection _ _ _ _ c := c;
  SetTransformation _ _ _ c := c;
  SetMovementSpeed _ c := c;
  Move _ _ _ c := c;
  GetWorldToView _ := translate (Vec3 3 (-3) 5);
  GetProjection _ := scale (Vec3 2 2 2);
  GetViewToWorld _ := translate (Vec3 (-3) 3 (-5)) |}.

Definition next_name (used : gset N) : N := fresh ({[0%N]} ∪ used).

#[local] Program Instance platform : Platform := {|
  gen_name := next_name;
  GL_MAX_UNIFORM_BLOCK_SIZE := 65536;
  uniform_location _ _ := 0;
  uniform_block_data_size _ name :=
    if bool_decide (name = "InstanceBuffer") then 1024 * 48 else 48 + 64;
  glfwInit_ok := true;
  glfwCreateWindow_ok := true;
  gladLoadGL_ok := true;
  compileShaders_ok := true;
  quad_index_count := 6;
  cube_index_count := 36;
  image_size _ := (1024, 1024);
  Rng := Z;
  rng_seed := 0;
  getRandom lo hi r := (lo + r, (r + 1) mod 4) |}.
Next Obligation.
  intros. pose proof (is_fresh ({[0%N]} ∪ used)) as Hf.
  unfold next_name. set_solver.
Qed.
Next Obligation.
  intros. pose proof (is_fresh ({[0%N]} ∪ used)) as Hf.
  unfold next_name. set_solver.
Qed.

(** The scene of [main.cpp]: ten cubes. *)
#[local] Program Instance ten_cubes : Scene := {| numCubes := 10 |}.
Next Obligation. lia. Qed.

(** A scene that asks for more cubes than [MAX_INSTANCES]. *)
Program Definition too_many_cubes : Scene := {| numCubes := 2000 |}.
Next Obligation. lia. Qed.

(** A scene with a negative number of cubes. *)
Program Definition negative_cubes : Scene := {| numCubes := -1 |}.
Next Obligation. lia. Qed.

Definition still : Input := MkInput false false false false false false false false false.

(** A frame in which nothing happens. *)
Definition quiet : Frame := MkFrame 0 [] still.

(** The state when [mainLoop] is entered, and after its first frame. *)
Definition started : option App := exec startup initial_app.
Definition first_frame : option App := started ≫= exec (frame quiet).

(** What the scenario looks at after the first frame. *)
Definition first_frame_report := report <$> first_frame.

(** The same two states, evaluated. *)
Definition ready : App := Eval vm_compute in default initial_app started.
Definition rendered : App := Eval vm_compute in default initial_app first_frame.

End Demo.

(** * Verification *)

Create Rewrite HintDb globals.

#[local] Arguments set_textures _ _ /.
#[local] Arguments set_renderbuffers _ _ /.
#[local] Arguments set_framebuffers _ _ /.
#[local] Arguments set_buffers _ _ /.
#[local] Arguments set_vertex_arrays _ _ /.
#[local] Arguments set_programs _ _ /.
#[local] Arguments set_samplers _ _ /.
#[local] Arguments set_draw_framebuffer _ _ /.
#[local] Arguments set_read_framebuffer _ _ /.
#[local] Arguments set_renderbuffer_binding _ _ /.
#[local] Arguments set_active_texture _ _ /.
#[local] Arguments set_texture_binding_2d _ _ /.
#[local] Arguments set_texture_binding_2dms _ _ /.
#[local] Arguments set_sampler_binding _ _ /.
#[local] Arguments set_uniform_buffer_binding _ _ /.
#[local] Arguments set_uniform_buffer_base _ _ /.
#[local] Arguments set_vertex_array_binding _ _ /.
#[local] Arguments set_current_program _ _ /.
#[local] Arguments set_uniforms _ _ /.
#[local] Arguments set_cull_face _ _ /.
#[local] Arguments set_depth_test _ _ /.
#[local] Arguments set_multisample _ _ /.
#[local] Arguments set_framebuffer_srgb _ _ /.
#[local] Arguments set_depth_mask _ _ /.
#[local] Arguments set_polygon_mode _ _ /.
#[local] Arguments set_clear_color _ _ /.
#[local] Arguments set_point_size _ _ /.
#[local] Arguments set_viewport _ _ /.
#[local] Arguments set_window_color _ _ /.
#[local] Arguments set_window_depth _ _ /.
#[local] Arguments gl_exec : simpl never.
#[local] Arguments do_call : simpl never.
#[local] Arguments run_calls : simpl never.
#[local] Arguments gl_run : simpl never.
#[local] Arguments glm.value_ptr_mat3x4 : simpl never.
#[local] Arguments glm.value_ptr_mat4x4 : simpl never.
#[local] Arguments glm.value_ptr_mat4x3 : simpl never.
#[local] Arguments glm.mat3x4_of_mat4 : simpl never.
#[local] Arguments glm.mat4x3_of_mat4 : simpl never.
#[local] Arguments glm.transpose : simpl never.
#[local] Arguments glm.scale : simpl never.
#[local] Arguments cubeTransformation : simpl never.
#[local] Arguments instance_bytes : simpl never.
#[local] Arguments upload_size : simpl never.
#[local] Arguments Z.ltb : simpl never.
#[local] Arguments Z.leb : simpl never.
#[local] Arguments Z.mul : simpl never.
#[local] Arguments Z.to_nat : simpl never.
#[local] Arguments seqZ : simpl never.

(** Reading a global after an assignment to a global. *)
Ltac is_global f :=
  lazymatch f with
  | @mainWindow_width _ _ _ _ => idtac
  | @mainWindow_height _ _ _ _ => idtac
  | @mainWindow_handle _ _ _ _ => idtac
  | @fov _ _ _ _ => idtac
  | @mouseStatus _ _ _ _ => idtac
  | @msaaLevel _ _ _ _ => idtac
  | @cubePositions _ _ _ _ => idtac
  | @camera _ _ _ _ => idtac
  | @quad _ _ _ _ => idtac
  | @cube _ _ _ _ => idtac
  | @anisotropicSampler _ _ _ _ => idtac
  | @vao _ _ _ _ => idtac
  | @fbo _ _ _ _ => idtac
  | @renderTarget _ _ _ _ => idtac
  | @depthStencil _ _ _ _ => idtac
  | @vsync _ _ _ _ => idtac
  | @depthTest _ _ _ _ => idtac
  | @wireframe _ _ _ _ => idtac
  | @tonemapping _ _ _ _ => idtac
  | @instancingBuffer _ _ _ _ => idtac
  | @transformBlockUBO _ _ _ _ => idtac
  | @loadedTextures _ _ _ _ => idtac
  | @shaderProgram _ _ _ _ => idtac
  | @instanceData _ _ _ _ => idtac
  | @rng _ _ _ _ => idtac
  | @swapInterval _ _ _ _ => idtac
  | @windowShouldClose _ _ _ _ => idtac
  | @stdout _ _ _ _ => idtac
  | @gl _ _ _ _ => idtac
  | @gl_log _ _ _ _ => idtac
  end.
Ltac is_setter f :=
  lazymatch f with
  | @set_mainWindow_width _ _ _ _ => idtac
  | @set_mainWindow_height _ _ _ _ => idtac
  | @set_mainWindow_handle _ _ _ _ => idtac
  | @set_fov _ _ _ _ => idtac
  | @set_mouseStatus _ _ _ _ => idtac
  | @set_msaaLevel _ _ _ _ => idtac
  | @set_cubePositions _ _ _ _ => idtac
  | @set_camera _ _ _ _ => idtac
  | @set_quad _ _ _ _ => idtac
  | @set_cube _ _ _ _ => idtac
  | @set_anisotropicSampler _ _ _ _ => idtac
  | @set_vao _ _ _ _ => idtac
  | @set_fbo _ _ _ _ => idtac
  | @set_renderTarget _ _ _ _ => idtac
  | @set_depthStencil _ _ _ _ => idtac
  | @set_vsync _ _ _ _ => idtac
  | @set_depthTest _ _ _ _ => idtac
  | @set_wireframe _ _ _ _ => idtac
  | @set_tonemapping _ _ _ _ => idtac
  | @set_instancingBuffer _ _ _ _ => idtac
  | @set_transformBlockUBO _ _ _ _ => idtac
  | @set_loadedTextures _ _ _ _ => idtac
  | @set_shaderProgram _ _ _ _ => idtac
  | @set_instanceData _ _ _ _ => idtac
  | @set_rng _ _ _ _ => idtac
  | @set_swapInterval _ _ _ _ => idtac
  | @set_windowShouldClose _ _ _ _ => idtac
  | @set_stdout _ _ _ _ => idtac
  | @set_gl _ _ _ _ => idtac
  | @set_gl_log _ _ _ _ => idtac
  end.
Ltac read_globals :=
  repeat match goal with
  | |- context [?f (?st ?v ?s)] =>
      is_global f; is_setter st;
      let H := fresh in
      first [ assert (H : f (st v s) = f s) by reflexivity
            | assert (H : f (st v s) = v) by reflexivity ];
      rewrite !H; clear H
  end.

(** Symbolic execution of a program: unfold the monad, then push the reads
    of globals through the commands and the assignments. *)
Ltac prog_unfold :=
  unfold mbind, mret, Prog_bind, Prog_ret, get, call, modify, when, printf,
    undefined, deref.
Ltac prog := repeat (prog_unfold; cbn; autorewrite with globals).
Ltac progs := repeat (prog_unfold; cbn; autorewrite with globals; read_globals).
Ltac prog_case :=
  match goal with
  | |- context [if ?b then _ else _] => destruct b eqn:?
  end.
Ltac prog_cases := prog; repeat (prog_case; prog).

Ltac gl_cases :=
  repeat match goal with
  | |- context [if ?b then _ else _] => destruct b eqn:?
  | |- context [match ?x with _ => _ end] => destruct x eqn:?
  end.

(** ** The context, command by command *)
Section ContextProofs.
Context {FO : FloatOps} {IM : ImageType} {RA : Rasteriser}.


Lemma foldl_preserves {A B C} (f : A → B → A) (p : A → C) (l : list B) (x : A) :
  (∀ y b, p (f y b) = p y) → p (foldl f x l) = p x.
Proof.
  intros H. revert x. induction l as [|b l IH]; intros x; cbn; [reflexivity|].
  rewrite IH. apply H.
Qed.

Lemma delete_renderbuffer_textures n g :
  textures (delete_renderbuffer n g) = textures g.
Proof. unfold delete_renderbuffer. gl_cases; reflexivity. Qed.
Lemma delete_framebuffer_textures n g :
  textures (delete_framebuffer n g) = textures g.
Proof. unfold delete_framebuffer. gl_cases; reflexivity. Qed.
Lemma delete_buffer_textures n g : textures (delete_buffer n g) = textures g.
Proof. unfold delete_buffer. gl_cases; reflexivity. Qed.
Lemma delete_vertex_array_textures n g :
  textures (delete_vertex_array n g) = textures g.
Proof. reflexivity. Qed.

(** A command outside [touches_textures] leaves the texture store alone. *)
Lemma exec_textures c g :
  touches_textures c = false → textures (gl_exec c g) = textures g.
Proof.
  destruct c; unfold gl_exec; cbn; intros H; try discriminate H; try reflexivity.
  all: try (apply foldl_preserves; intros;
            first [apply delete_renderbuffer_textures | apply delete_framebuffer_textures
                  | apply delete_buffer_textures | apply delete_vertex_array_textures]).
  all: unfold set_capability, set_uniform, bind_framebuffer, framebuffer_texture,
         framebuffer_renderbuffer, bind_renderbuffer, renderbuffer_storage, bind_buffer,
         bind_buffer_base, bind_buffer, buffer_data, buffer_sub_data, map_buffer,
         write_mapped, unmap_buffer, put_bound_buffer.
  all: gl_cases; reflexivity.
Qed.
End ContextProofs.

(** ** The program *)
Section Commands.
Context {FO : FloatOps} {IM : ImageType} {RA : Rasteriser}.
Context {CA : CameraOps} {PF : Platform} {SC : Scene}.
Import glm.

(** ** Running lists of commands *)

Lemma run_calls_app (cs1 cs2 : list GLCall) (a : App) :
  run_calls (cs1 ++ cs2) a = run_calls cs2 (run_calls cs1 a).
Proof. unfold run_calls. apply foldl_app. Qed.

Lemma gl_run_app (cs1 cs2 : list GLCall) (g : GLState) :
  gl_run (cs1 ++ cs2) g = gl_run cs2 (gl_run cs1 g).
Proof. unfold gl_run. apply foldl_app. Qed.

Lemma run_calls_eq (cs : list GLCall) (a : App) :
  run_calls cs a = set_gl_log (rev cs ++ gl_log a) (set_gl (gl_run cs (gl a)) a).
Proof.
  revert a. induction cs as [|c cs IH]; intros a.
  - destruct a; reflexivity.
  - change (run_calls (c :: cs) a) with (run_calls cs (do_call c a)).
    rewrite IH. cbn [rev]. rewrite <- app_assoc. reflexivity.
Qed.

Lemma gl_run_calls (cs : list GLCall) (a : App) :
  gl (run_calls cs a) = gl_run cs (gl a).
Proof. rewrite run_calls_eq. reflexivity. Qed.

Lemma trace_run_calls (cs : list GLCall) (a : App) :
  trace (run_calls cs a) = trace a ++ cs.
Proof.
  rewrite run_calls_eq. unfold trace. cbn. rewrite rev_app_distr, rev_involutive.
  reflexivity.
Qed.

(** A command leaves every global of the program as it is. *)
Lemma mainWindow_width_do_call (c : GLCall) (a : App) : mainWindow_width (do_call c a) = mainWindow_width a.
Proof. reflexivity. Qed.
Lemma mainWindow_height_do_call (c : GLCall) (a : App) : mainWindow_height (do_call c a) = mainWindow_height a.
Proof. reflexivity. Qed.
Lemma mainWindow_handle_do_call (c : GLCall) (a : App) : mainWindow_handle (do_call c a) = mainWindow_handle a.
Proof. reflexivity. Qed.
Lemma fov_do_call (c : GLCall) (a : App) : fov (do_call c a) = fov a.
Proof. reflexivity. Qed.
Lemma mouseStatus_do_call (c : GLCall) (a : App) : mouseStatus (do_call c a) = mouseStatus a.
Proof. reflexivity. Qed.
Lemma msaaLevel_do_call (c : GLCall) (a : App) : msaaLevel (do_call c a) = msaaLevel a.
Proof. reflexivity. Qed.
Lemma cubePositions_do_call (c : GLCall) (a : App) : cubePositions (do_call c a) = cubePositions a.
Proof. reflexivity. Qed.
Lemma camera_do_call (c : GLCall) (a : App) : camera (do_call c a) = camera a.
Proof. reflexivity. Qed.
Lemma quad_do_call (c : GLCall) (a : App) : quad (do_call c a) = quad a.
Proof. reflexivity. Qed.
Lemma cube_do_call (c : GLCall) (a : App) : cube (do_call c a) = cube a.
Proof. reflexivity. Qed.
Lemma anisotropicSampler_do_call (c : GLCall) (a : App) : anisotropicSampler (do_call c a) = anisotropicSampler a.
Proof. reflexivity. Qed.
Lemma vao_do_call (c : GLCall) (a : App) : vao (do_call c a) = vao a.
Proof. reflexivity. Qed.
Lemma fbo_do_call (c : GLCall) (a : App) : fbo (do_call c a) = fbo a.
Proof. reflexivity. Qed.
Lemma renderTarget_do_call (c : GLCall) (a : App) : renderTarget (do_call c a) = renderTarget a.
Proof. reflexivity. Qed.
Lemma depthStencil_do_call (c : GLCall) (a : App) : depthStencil (do_call c a) = depthStencil a.
Proof. reflexivity. Qed.
Lemma vsync_do_call (c : GLCall) (a : App) : vsync (do_call c a) = vsync a.
Proof. reflexivity. Qed.
Lemma depthTest_do_call (c : GLCall) (a : App) : depthTest (do_call c a) = depthTest a.
Proof. reflexivity. Qed.
Lemma wireframe_do_call (c : GLCall) (a : App) : wireframe (do_call c a) = wireframe a.
Proof. reflexivity. Qed.
Lemma tonemapping_do_call (c : GLCall) (a : App) : tonemapping (do_call c a) = tonemapping a.
Proof. reflexivity. Qed.
Lemma instancingBuffer_do_call (c : GLCall) (a : App) : instancingBuffer (do_call c a) = instancingBuffer a.
Proof. reflexivity. Qed.
Lemma transformBlockUBO_do_call (c : GLCall) (a : App) : transformBlockUBO (do_call c a) = transformBlockUBO a.
Proof. reflexivity. Qed.
Lemma loadedTextures_do_call (c : GLCall) (a : App) : loadedTextures (do_call c a) = loadedTextures a.
Proof. reflexivity. Qed.
Lemma shaderProgram_do_call (c : GLCall) (a : App) : shaderProgram (do_call c a) = shaderProgram a.
Proof. reflexivity. Qed.
Lemma instanceData_do_call (c : GLCall) (a : App) : instanceData (do_call c a) = instanceData a.
Proof. reflexivity. Qed.
Lemma rng_do_call (c : GLCall) (a : App) : rng (do_call c a) = rng a.
Proof. reflexivity. Qed.
Lemma swapInterval_do_call (c : GLCall) (a : App) : swapInterval (do_call c a) = swapInterval a.
Proof. reflexivity. Qed.
Lemma windowShouldClose_do_call (c : GLCall) (a : App) : windowShouldClose (do_call c a) = windowShouldClose a.
Proof. reflexivity. Qed.
Lemma stdout_do_call (c : GLCall) (a : App) : stdout (do_call c a) = stdout a.
Proof. reflexivity. Qed.
Lemma mainWindow_width_run_calls (cs : list GLCall) (a : App) :
  mainWindow_width (run_calls cs a) = mainWindow_width a.
Proof. rewrite run_calls_eq. reflexivity. Qed.
Lemma mainWindow_height_run_calls (cs : list GLCall) (a : App) :
  mainWindow_height (run_calls cs a) = mainWindow_height a.
Proof. rewrite run_calls_eq. reflexivity. Qed.
Lemma mainWindow_handle_run_calls (cs : list GLCall) (a : App) :
  mainWindow_handle (run_calls cs a) = mainWindow_handle a.
Proof. rewrite run_calls_eq. reflexivity. Qed.
Lemma fov_run_calls (cs : list GLCall) (a : App) :
  fov (run_calls cs a) = fov a.
Proof. rewrite run_calls_eq. reflexivity. Qed.
Lemma mouseStatus_run_calls (cs : list GLCall) (a : App) :
  mouseStatus (run_calls cs a) = mouseStatus a.
Proof. rewrite run_calls_eq. reflexivity. Qed.
Lemma msaaLevel_run_calls (cs : list GLCall) (a : App) :
  msaaLevel (run_calls cs a) = msaaLevel a.
Proof. rewrite run_calls_eq. reflexivity. Qed.
Lemma cubePositions_run_calls (cs : list GLCall) (a : App) :
  cubePositions (run_calls cs a) = cubePositions a.
Proof. rewrite run_calls_eq. reflexivity. Qed.
Lemma camera_run_calls (cs : list GLCall) (a : App) :
  camera (run_calls cs a) = camera a.
Proof. rewrite run_calls_eq. reflexivity. Qed.
Lemma quad_run_calls (cs : list GLCall) (a : App) :
  quad (run_calls cs a) = quad a.
Proof. rewrite run_calls_eq. reflexivity. Qed.
Lemma cube_run_calls (cs : list GLCall) (a : App) :
  cube (run_calls cs a) = cube a.
Proof. rewrite run_calls_eq. reflexivity. Qed.
Lemma anisotropicSampler_run_calls (cs : list GLCall) (a : App) :
  anisotropicSampler (run_calls cs a) = anisotropicSampler a.
Proof. rewrite run_calls_eq. reflexivity. Qed.
Lemma vao_run_calls (cs : list GLCall) (a : App) :
  vao (run_calls cs a) = vao a.
Proof. rewrite run_calls_eq. reflexivity. Qed.
Lemma fbo_run_calls (cs : list GLCall) (a : App) :
  fbo (run_calls cs a) = fbo a.
Proof. rewrite run_calls_eq. reflexivity. Qed.
Lemma renderTarget_run_calls (cs : list GLCall) (a : App) :
  renderTarget (run_calls cs a) = renderTarget a.
Proof. rewrite run_calls_eq. reflexivity. Qed.
Lemma depthStencil_run_calls (cs : list GLCall) (a : App) :
  depthStencil (run_calls cs a) = depthStencil a.
Proof. rewrite run_calls_eq. reflexivity. Qed.
Lemma vsync_run_calls (cs : list GLCall) (a : App) :
  vsync (run_calls cs a) = vsync a.
Proof. rewrite run_calls_eq. reflexivity. Qed.
Lemma depthTest_run_calls (cs : list GLCall) (a : App) :
  depthTest (run_calls cs a) = depthTest a.
Proof. rewrite run_calls_eq. reflexivity. Qed.
Lemma wireframe_run_calls (cs : list GLCall) (a : App) :
  wireframe (run_calls cs a) = wireframe a.
Proof. rewrite run_calls_eq. reflexivity. Qed.
Lemma tonemapping_run_calls (cs : list GLCall) (a : App) :
  tonemapping (run_calls cs a) = tonemapping a.
Proof. rewrite run_calls_eq. reflexivity. Qed.
Lemma instancingBuffer_run_calls (cs : list GLCall) (a : App) :
  instancingBuffer (run_calls cs a) = instancingBuffer a.
Proof. rewrite run_calls_eq. reflexivity. Qed.
Lemma transformBlockUBO_run_calls (cs : list GLCall) (a : App) :
  transformBlockUBO (run_calls cs a) = transformBlockUBO a.
Proof. rewrite run_calls_eq. reflexivity. Qed.
Lemma loadedTextures_run_calls (cs : list GLCall) (a : App) :
  loadedTextures (run_calls cs a) = loadedTextures a.
Proof. rewrite run_calls_eq. reflexivity. Qed.
Lemma shaderProgram_run_calls (cs : list GLCall) (a : App) :
  shaderProgram (run_calls cs a) = shaderProgram a.
Proof. rewrite run_calls_eq. reflexivity. Qed.
Lemma instanceData_run_calls (cs : list GLCall) (a : App) :
  instanceData (run_calls cs a) = instanceData a.
Proof. rewrite run_calls_eq. reflexivity. Qed.
Lemma rng_run_calls (cs : list GLCall) (a : App) :
  rng (run_calls cs a) = rng a.
Proof. rewrite run_calls_eq. reflexivity. Qed.
Lemma swapInterval_run_calls (cs : list GLCall) (a : App) :
  swapInterval (run_calls cs a) = swapInterval a.
Proof. rewrite run_calls_eq. reflexivity. Qed.
Lemma windowShouldClose_run_calls (cs : list GLCall) (a : App) :
  windowShouldClose (run_calls cs a) = windowShouldClose a.
Proof. rewrite run_calls_eq. reflexivity. Qed.
Lemma stdout_run_calls (cs : list GLCall) (a : App) :
  stdout (run_calls cs a) = stdout a.
Proof. rewrite run_calls_eq. reflexivity. Qed.

(** Writing the staging vector leaves everything else as it is. *)
Lemma mainWindow_width_set_instanceData (st : list InstanceData) (a : App) :
  mainWindow_width (set_instanceData st a) = mainWindow_width a.
Proof. reflexivity. Qed.
Lemma mainWindow_height_set_instanceData (st : list InstanceData) (a : App) :
  mainWindow_height (set_instanceData st a) = mainWindow_height a.
Proof. reflexivity. Qed.
Lemma mainWindow_handle_set_instanceData (st : list InstanceData) (a : App) :
  mainWindow_handle (set_instanceData st a) = mainWindow_handle a.
Proof. reflexivity. Qed.
Lemma fov_set_instanceData (st : list InstanceData) (a : App) :
  fov (set_instanceData st a) = fov a.
Proof. reflexivity. Qed.
Lemma mouseStatus_set_instanceData (st : list InstanceData) (a : App) :
  mouseStatus (set_instanceData st a) = mouseStatus a.
Proof. reflexivity. Qed.
Lemma msaaLevel_set_instanceData (st : list InstanceData) (a : App) :
  msaaLevel (set_instanceData st a) = msaaLevel a.
Proof. reflexivity. Qed.
Lemma cubePositions_set_instanceData (st : list InstanceData) (a : App) :
  cubePositions (set_instanceData st a) = cubePositions a.
Proof. reflexivity. Qed.
Lemma camera_set_instanceData (st : list InstanceData) (a : App) :
  camera (set_instanceData st a) = camera a.
Proof. reflexivity. Qed.
Lemma quad_set_instanceData (st : list InstanceData) (a : App) :
  quad (set_instanceData st a) = quad a.
Proof. reflexivity. Qed.
Lemma cube_set_instanceData (st : list InstanceData) (a : App) :
  cube (set_instanceData st a) = cube a.
Proof. reflexivity. Qed.
Lemma anisotropicSampler_set_instanceData (st : list InstanceData) (a : App) :
  anisotropicSampler (set_instanceData st a) = anisotropicSampler a.
Proof. reflexivity. Qed.
Lemma vao_set_instanceData (st : list InstanceData) (a : App) :
  vao (set_instanceData st a) = vao a.
Proof. reflexivity. Qed.
Lemma fbo_set_instanceData (st : list InstanceData) (a : App) :
  fbo (set_instanceData st a) = fbo a.
Proof. reflexivity. Qed.
Lemma renderTarget_set_instanceData (st : list InstanceData) (a : App) :
  renderTarget (set_instanceData st a) = renderTarget a.
Proof. reflexivity. Qed.
Lemma depthStencil_set_instanceData (st : list InstanceData) (a : App) :
  depthStencil (set_instanceData st a) = depthStencil a.
Proof. reflexivity. Qed.
Lemma vsync_set_instanceData (st : list InstanceData) (a : App) :
  vsync (set_instanceData st a) = vsync a.
Proof. reflexivity. Qed.
Lemma depthTest_set_instanceData (st : list InstanceData) (a : App) :
  depthTest (set_instanceData st a) = depthTest a.
Proof. reflexivity. Qed.
Lemma wireframe_set_instanceData (st : list InstanceData) (a : App) :
  wireframe (set_instanceData st a) = wireframe a.
Proof. reflexivity. Qed.
Lemma tonemapping_set_instanceData (st : list InstanceData) (a : App) :
  tonemapping (set_instanceData st a) = tonemapping a.
Proof. reflexivity. Qed.
Lemma instancingBuffer_set_instanceData (st : list InstanceData) (a : App) :
  instancingBuffer (set_instanceData st a) = instancingBuffer a.
Proof. reflexivity. Qed.
Lemma transformBlockUBO_set_instanceData (st : list InstanceData) (a : App) :
  transformBlockUBO (set_instanceData st a) = transformBlockUBO a.
Proof. reflexivity. Qed.
Lemma loadedTextures_set_instanceData (st : list InstanceData) (a : App) :
  loadedTextures (set_instanceData st a) = loadedTextures a.
Proof. reflexivity. Qed.
Lemma shaderProgram_set_instanceData (st : list InstanceData) (a : App) :
  shaderProgram (set_instanceData st a) = shaderProgram a.
Proof. reflexivity. Qed.
Lemma instanceData_set_instanceData (st : list InstanceData) (a : App) :
  instanceData (set_instanceData st a) = st.
Proof. reflexivity. Qed.
Lemma rng_set_instanceData (st : list InstanceData) (a : App) :
  rng (set_instanceData st a) = rng a.
Proof. reflexivity. Qed.
Lemma swapInterval_set_instanceData (st : list InstanceData) (a : App) :
  swapInterval (set_instanceData st a) = swapInterval a.
Proof. reflexivity. Qed.
Lemma windowShouldClose_set_instanceData (st : list InstanceData) (a : App) :
  windowShouldClose (set_instanceData st a) = windowShouldClose a.
Proof. reflexivity. Qed.
Lemma stdout_set_instanceData (st : list InstanceData) (a : App) :
  stdout (set_instanceData st a) = stdout a.
Proof. reflexivity. Qed.
Lemma gl_set_instanceData (st : list InstanceData) (a : App) :
  gl (set_instanceData st a) = gl a.
Proof. reflexivity. Qed.
Lemma gl_log_set_instanceData (st : list InstanceData) (a : App) :
  gl_log (set_instanceData st a) = gl_log a.
Proof. reflexivity. Qed.

Lemma gl_do_call (c : GLCall) (a : App) : gl (do_call c a) = gl_exec c (gl a).
Proof. reflexivity. Qed.
Lemma gl_log_do_call (c : GLCall) (a : App) : gl_log (do_call c a) = c :: gl_log a.
Proof. reflexivity. Qed.

(** Sequencing after a program whose result is known. *)
Lemma bind_run {A B} (m : Prog A) (k : A → Prog B) (a a1 : App) (x : A) :
  m a = Some (x, a1) → (m ≫= k) a = k x a1.
Proof. intros H. unfold mbind, Prog_bind. rewrite H. reflexivity. Qed.

Lemma bind_fail {A B} (m : Prog A) (k : A → Prog B) (a : App) :
  m a = None → (m ≫= k) a = None.
Proof. intros H. unfold mbind, Prog_bind. rewrite H. reflexivity. Qed.

Lemma run_calls_cons (c : GLCall) (cs : list GLCall) (a : App) :
  run_calls (c :: cs) a = run_calls cs (do_call c a).
Proof. reflexivity. Qed.

Lemma run_calls_nil (a : App) : run_calls [] a = a.
Proof. reflexivity. Qed.

Lemma run_calls_set_instanceData (cs : list GLCall) (st : list InstanceData) (a : App) :
  run_calls cs (set_instanceData st a) = set_instanceData st (run_calls cs a).
Proof. rewrite !run_calls_eq. reflexivity. Qed.

End Commands.

#[global] Hint Rewrite
  @mainWindow_width_do_call
  @mainWindow_height_do_call
  @mainWindow_handle_do_call
  @fov_do_call
  @mouseStatus_do_call
  @msaaLevel_do_call
  @cubePositions_do_call
  @camera_do_call
  @quad_do_call
  @cube_do_call
  @anisotropicSampler_do_call
  @vao_do_call
  @fbo_do_call
  @renderTarget_do_call
  @depthStencil_do_call
  @vsync_do_call
  @depthTest_do_call
  @wireframe_do_call
  @tonemapping_do_call
  @instancingBuffer_do_call
  @transformBlockUBO_do_call
  @loadedTextures_do_call
  @shaderProgram_do_call
  @instanceData_do_call
  @rng_do_call
  @swapInterval_do_call
  @windowShouldClose_do_call
  @stdout_do_call
  @mainWindow_width_run_calls
  @mainWindow_height_run_calls
  @mainWindow_handle_run_calls
  @fov_run_calls
  @mouseStatus_run_calls
  @msaaLevel_run_calls
  @cubePositions_run_calls
  @camera_run_calls
  @quad_run_calls
  @cube_run_calls
  @anisotropicSampler_run_calls
  @vao_run_calls
  @fbo_run_calls
  @renderTarget_run_calls
  @depthStencil_run_calls
  @vsync_run_calls
  @depthTest_run_calls
  @wireframe_run_calls
  @tonemapping_run_calls
  @instancingBuffer_run_calls
  @transformBlockUBO_run_calls
  @loadedTextures_run_calls
  @shaderProgram_run_calls
  @instanceData_run_calls
  @rng_run_calls
  @swapInterval_run_calls
  @windowShouldClose_run_calls
  @stdout_run_calls
  @gl_do_call @gl_log_do_call
  @mainWindow_width_set_instanceData
  @mainWindow_height_set_instanceData
  @mainWindow_handle_set_instanceData
  @fov_set_instanceData
  @mouseStatus_set_instanceData
  @msaaLevel_set_instanceData
  @cubePositions_set_instanceData
  @camera_set_instanceData
  @quad_set_instanceData
  @cube_set_instanceData
  @anisotropicSampler_set_instanceData
  @vao_set_instanceData
  @fbo_set_instanceData
  @renderTarget_set_instanceData
  @depthStencil_set_instanceData
  @vsync_set_instanceData
  @depthTest_set_instanceData
  @wireframe_set_instanceData
  @tonemapping_set_instanceData
  @instancingBuffer_set_instanceData
  @transformBlockUBO_set_instanceData
  @loadedTextures_set_instanceData
  @shaderProgram_set_instanceData
  @instanceData_set_instanceData
  @rng_set_instanceData
  @swapInterval_set_instanceData
  @windowShouldClose_set_instanceData
  @stdout_set_instanceData
  @gl_set_instanceData
  @gl_log_set_instanceData : globals.

(** ** A frame as a list of commands *)
Section Frame.
Context {FO : FloatOps} {IM : ImageType} {RA : Rasteriser}.
Context {CA : CameraOps} {PF : Platform} {SC : Scene}.
Import glm.


Lemma renderScene_begin_run (a : App) :
  renderScene_begin a = Some (tt, run_calls (renderScene_begin_calls a) a).
Proof.
  unfold renderScene_begin, updateTransformBlock, renderScene_begin_calls.
  prog_cases; reflexivity.
Qed.

Lemma renderScene_floor_run (a : App) :
  renderScene_floor a =
  match quad a with
  | Some q => Some (tt, run_calls (renderScene_floor_calls a q) a)
  | None => None
  end.
Proof.
  unfold renderScene_floor, updateProgramData, bindTextures, renderScene_floor_calls.
  prog. destruct (quad a); prog; reflexivity.
Qed.

Lemma renderScene_light_run (a : App) :
  renderScene_light a = Some (tt, run_calls (renderScene_light_calls a) a).
Proof. unfold renderScene_light, renderScene_light_calls. prog. reflexivity. Qed.

Lemma renderScene_present_run (a : App) :
  renderScene_present a = Some (tt, run_calls (renderScene_present_calls a) a).
Proof.
  unfold renderScene_present, renderScene_present_calls.
  prog. destruct (tonemapping a); prog; reflexivity.
Qed.

(** The loop of [updateInstanceData] only touches the staging vector. *)
Lemma updateInstance_run (i : Z) (a : App) :
  updateInstance i a =
  match packInstance (cubePositions a) (instanceData a) i with
  | Some st => Some (tt, set_instanceData st a)
  | None => None
  end.
Proof.
  unfold updateInstance, packInstance, at_index. prog.
  destruct (i <? 0); [reflexivity|].
  destruct (cubePositions a !! Z.to_nat i); [|reflexivity]. prog.
  destruct (instanceData a !! Z.to_nat i); reflexivity.
Qed.

Lemma for_each_updateInstance (l : list Z) (a : App) :
  for_each l updateInstance a =
  match packInstances (cubePositions a) l (instanceData a) with
  | Some st => Some (tt, set_instanceData st a)
  | None => None
  end.
Proof.
  revert a. induction l as [|i l IH]; intros a.
  - destruct a; reflexivity.
  - cbn [for_each packInstances]. unfold mbind, Prog_bind.
    rewrite updateInstance_run.
    destruct (packInstance (cubePositions a) (instanceData a) i) as [st|]; [|reflexivity].
    rewrite IH. cbn.
    destruct (packInstances (cubePositions a) l st); reflexivity.
Qed.

Lemma updateInstanceData_run (a : App) :
  updateInstanceData a =
  match packInstances (cubePositions a) (seqZ 0 numCubes) (instanceData a) with
  | Some st =>
    let a1 := do_call (glBindBufferBase 1 (instancingBuffer a)) (set_instanceData st a) in
    if upload_defined (gl a1) st
    then Some (tt, run_calls
                     [glMapBuffer;
                      memcpy_mapped upload_size (instance_bytes upload_size st);
                      glUnmapBuffer] a1)
    else None
  | None => None
  end.
Proof.
  unfold updateInstanceData.
  pose proof (for_each_updateInstance (seqZ 0 numCubes) a) as Hloop.
  destruct (packInstances (cubePositions a) (seqZ 0 numCubes) (instanceData a)) as [st|].
  - rewrite (bind_run _ _ _ _ _ Hloop). unfold upload_defined. prog.
    destruct (can_map _); [|reflexivity].
    destruct (mapped_fits _ _); [|reflexivity].
    destruct (_ <=? _); reflexivity.
  - rewrite (bind_fail _ _ _ Hloop). reflexivity.
Qed.

(** The lists of commands do not depend on the context or on the staging
    vector. *)
Lemma renderScene_floor_calls_run_calls cs a q :
  renderScene_floor_calls (run_calls cs a) q = renderScene_floor_calls a q.
Proof. rewrite run_calls_eq. reflexivity. Qed.

Lemma renderScene_cubes_calls_map_run_calls cs a :
  renderScene_cubes_calls_map (run_calls cs a) = renderScene_cubes_calls_map a.
Proof. rewrite run_calls_eq. reflexivity. Qed.

Lemma renderScene_cubes_calls_draw_run_calls cs st' a c st :
  renderScene_cubes_calls_draw (run_calls cs (set_instanceData st' a)) c st
  = renderScene_cubes_calls_draw a c st.
Proof. rewrite run_calls_eq. reflexivity. Qed.

Lemma renderScene_cubes_calls_draw_run_calls' cs a c st :
  renderScene_cubes_calls_draw (run_calls cs a) c st
  = renderScene_cubes_calls_draw a c st.
Proof. rewrite run_calls_eq. reflexivity. Qed.

Lemma renderScene_light_calls_run_calls cs st' a :
  renderScene_light_calls (run_calls cs (set_instanceData st' a))
  = renderScene_light_calls a.
Proof. rewrite run_calls_eq. reflexivity. Qed.

Lemma renderScene_present_calls_run_calls cs st' a :
  renderScene_present_calls (run_calls cs (set_instanceData st' a))
  = renderScene_present_calls a.
Proof. rewrite run_calls_eq. reflexivity. Qed.

Lemma renderScene_cubes_run (a : App) :
  renderScene_cubes a =
  match cube a, packInstances (cubePositions a) (seqZ 0 numCubes) (instanceData a) with
  | Some c, Some st =>
    if upload_defined (gl_run (renderScene_cubes_calls_map a) (gl a)) st
    then Some (tt, run_calls
                     (renderScene_cubes_calls_map a ++ renderScene_cubes_calls_draw a c st)
                     (set_instanceData st a))
    else None
  | _, _ => None
  end.
Proof.
  unfold renderScene_cubes, updateProgramData. prog.
  rewrite updateInstanceData_run. autorewrite with globals.
  destruct (packInstances (cubePositions a) (seqZ 0 numCubes) (instanceData a)) as [st|];
    [|destruct (cube a); reflexivity].
  cbv zeta.
  change (gl (do_call (glBindBufferBase 1 (instancingBuffer a)) _))
    with (gl_run (renderScene_cubes_calls_map a) (gl a)).
  destruct (upload_defined _ st); [|destruct (cube a); reflexivity].
  unfold bindTextures. prog. destruct (cube a) as [c|]; [|reflexivity]. prog.
  reflexivity.
Qed.

(** The offscreen part of a frame. *)
Lemma renderScene_offscreen_run (a : App) :
  renderScene_offscreen a =
  match quad a, cube a,
        packInstances (cubePositions a) (seqZ 0 numCubes) (instanceData a) with
  | Some q, Some c, Some st =>
    if upload_defined (gl_run (offscreen_calls_map a q) (gl a)) st
    then Some (tt, run_calls (offscreen_calls a q c st) (set_instanceData st a))
    else None
  | _, _, _ => None
  end.
Proof.
  unfold renderScene_offscreen.
  rewrite (bind_run _ _ _ _ _ (renderScene_begin_run a)).
  unfold mbind at 1; unfold Prog_bind. rewrite renderScene_floor_run.
  autorewrite with globals.
  destruct (quad a) as [q|]; [|reflexivity].
  rewrite renderScene_floor_calls_run_calls, <- run_calls_app.
  unfold mbind at 1; unfold Prog_bind. rewrite renderScene_cubes_run.
  autorewrite with globals. rewrite gl_run_calls.
  destruct (cube a) as [c|]; [|reflexivity].
  destruct (packInstances _ _ _) as [st|]; [|reflexivity].
  rewrite renderScene_cubes_calls_map_run_calls, <- gl_run_app.
  unfold offscreen_calls_map. rewrite <- app_assoc.
  destruct (upload_defined _ _); [|reflexivity].
  rewrite renderScene_light_run. f_equal. f_equal.
  rewrite <- run_calls_set_instanceData, <- !run_calls_app.
  rewrite renderScene_light_calls_run_calls, renderScene_cubes_calls_draw_run_calls'.
  unfold offscreen_calls, offscreen_calls_map, offscreen_calls_draw.
  rewrite <- !app_assoc. reflexivity.
Qed.

(** A whole frame. *)
Theorem renderScene_run (a : App) :
  renderScene a =
  match quad a, cube a,
        packInstances (cubePositions a) (seqZ 0 numCubes) (instanceData a) with
  | Some q, Some c, Some st =>
    if upload_defined (gl_run (offscreen_calls_map a q) (gl a)) st
    then Some (tt, run_calls (frame_calls a q c st) (set_instanceData st a))
    else None
  | _, _, _ => None
  end.
Proof.
  unfold renderScene. unfold mbind at 1; unfold Prog_bind.
  rewrite renderScene_offscreen_run.
  destruct (quad a) as [q|]; [|reflexivity].
  destruct (cube a) as [c|]; [|reflexivity].
  destruct (packInstances _ _ _) as [st|]; [|reflexivity].
  destruct (upload_defined _ _); [|reflexivity].
  rewrite renderScene_present_run, renderScene_present_calls_run_calls.
  rewrite <- run_calls_app. reflexivity.
Qed.
End Frame.

(** ** The instance updater *)
Section Instances.
Context {FO : FloatOps} {IM : ImageType} {RA : Rasteriser}.
Context {CA : CameraOps} {PF : Platform} {SC : Scene}.
Import glm.

Lemma packInstance_spec ps st i st' :
  packInstance ps st i = Some st' →
  0 ≤ i ∧ (Z.to_nat i < length st)%nat ∧
  ∃ p, ps !! Z.to_nat i = Some p ∧ st' = <[Z.to_nat i := packed_instance i p]> st.
Proof.
  unfold packInstance. destruct (i <? 0) eqn:Hi; [discriminate|].
  destruct (ps !! Z.to_nat i) as [p|] eqn:Hp; [|discriminate].
  destruct (st !! Z.to_nat i) as [d|] eqn:Hd; [|discriminate].
  intros [= <-]. apply Z.ltb_ge in Hi. apply lookup_lt_Some in Hd. eauto.
Qed.

Lemma packInstance_total ps st i :
  0 ≤ i → (Z.to_nat i < length ps)%nat → (Z.to_nat i < length st)%nat →
  is_Some (packInstance ps st i).
Proof.
  intros Hi Hp Hs. unfold packInstance.
  destruct (i <? 0) eqn:E; [apply Z.ltb_lt in E; lia|].
  destruct (lookup_lt_is_Some_2 ps _ Hp) as [p ->].
  destruct (lookup_lt_is_Some_2 st _ Hs) as [d ->]. eauto.
Qed.

(** The loop keeps the length of the staging vector, only assigns at the
    indices it visits, and needs every index to be in range of both
    vectors. *)
Lemma packInstances_frame ps l st st' :
  packInstances ps l st = Some st' →
  length st' = length st ∧
  (∀ j : nat, Z.of_nat j ∉ l → st' !! j = st !! j) ∧
  (∀ i, i ∈ l → 0 ≤ i ∧ (Z.to_nat i < length st)%nat ∧ (Z.to_nat i < length ps)%nat).
Proof.
  revert st. induction l as [|i l IH]; intros st; cbn.
  - intros [= <-]. split; [done|]. split; [done|]. intros i Hi. inversion Hi.
  - destruct (packInstance ps st i) as [st1|] eqn:H1; [|discriminate].
    intros H. apply packInstance_spec in H1 as (Hi & Hlt & p & Hp & ->).
    apply IH in H as (Hlen & Hother & Hrange). rewrite length_insert in Hlen, Hrange.
    split; [done|]. split.
    + intros j Hj. rewrite Hother by (intros ?; apply Hj; by right).
      apply list_lookup_insert_ne. intros Heq. apply Hj.
      replace (Z.of_nat j) with i by lia. left.
    + intros k [->|Hk]%elem_of_cons; [|by apply Hrange].
      split; [done|]. split; [done|]. by apply lookup_lt_Some in Hp.
Qed.

(** After the loop every visited index holds the record packed from the
    position of the same index. *)
Lemma packInstances_lookup ps l st st' i :
  packInstances ps l st = Some st' → i ∈ l →
  ∃ p, ps !! Z.to_nat i = Some p ∧ st' !! Z.to_nat i = Some (packed_instance i p).
Proof.
  revert st. induction l as [|k l IH]; intros st H Hi; [inversion Hi|].
  cbn in H. destruct (packInstance ps st k) as [st1|] eqn:H1; [|discriminate].
  destruct (decide (i ∈ l)) as [Hin|Hnin]; [by eapply IH|].
  apply elem_of_cons in Hi as [->|?]; [|done].
  apply packInstance_spec in H1 as (Hk & Hlt & p & Hp & ->).
  apply packInstances_frame in H as (_ & Hother & _).
  exists p. split; [done|]. rewrite Hother.
  - by apply list_lookup_insert_eq.
  - rewrite Z2Nat.id by done. done.
Qed.

Lemma packInstances_total ps l st :
  (∀ i, i ∈ l → 0 ≤ i ∧ (Z.to_nat i < length st)%nat ∧ (Z.to_nat i < length ps)%nat) →
  is_Some (packInstances ps l st).
Proof.
  revert st. induction l as [|k l IH]; intros st H; cbn; [eauto|].
  destruct (H k) as (Hk & Hs & Hp); [left|].
  destruct (packInstance_total ps st k Hk Hp Hs) as [st1 H1]. rewrite H1.
  apply IH. intros i Hi. apply packInstance_spec in H1 as (_ & _ & p & _ & ->).
  rewrite length_insert. apply H. by right.
Qed.

(** What [updateInstanceData] returns is what the loop computed, uploaded. *)
Lemma updateInstanceData_inv a a' :
  updateInstanceData a = Some (tt, a') →
  ∃ st, packInstances (cubePositions a) (seqZ 0 numCubes) (instanceData a) = Some st ∧
        instanceData a' = st ∧ cubePositions a' = cubePositions a ∧
        upload_size ≤ Z.of_nat (length st) * sizeof_InstanceData.
Proof.
  rewrite updateInstanceData_run.
  destruct (packInstances _ _ _) as [st|]; [|discriminate]. cbv zeta.
  destruct (upload_defined _ _) eqn:Hup; [|discriminate].
  intros [= <-]. exists st. autorewrite with globals.
  repeat split; try reflexivity.
  unfold upload_defined in Hup. apply andb_prop in Hup as [_ Hup]. lia.
Qed.

(** C5. For every index [i] in [0, numCubes), [updateInstanceData] stores in
    the instance record [i] the transposed world transform
    [translate(cubePositions[i]) * rotate(radians(i * 20), (1,1,1))], cut to
    its first three columns: the three stored vectors are the rows x, y, z
    (four entries each) of the world transform. *)
Theorem updateInstanceData_stores_transposed_transform a a' i :
  updateInstanceData a = Some (tt, a') → 0 ≤ i < numCubes →
  ∃ p,
    cubePositions a !! Z.to_nat i = Some p ∧
    let world :=
      mat4_mul (translate p)
        (rotate (radians (float_of_int i * fconst 20)%F)
           (Vec3 (fconst 1) (fconst 1) (fconst 1))) in
    instanceData a' !! Z.to_nat i
      = Some (MkInstanceData (mat3x4_of_mat4 (transpose world))) ∧
    mat3x4_of_mat4 (transpose world) = Mat3x4 (row_x world) (row_y world) (row_z world).
Proof.
  intros H Hi. apply updateInstanceData_inv in H as (st & Hpack & <- & _).
  destruct (packInstances_lookup _ _ _ _ i Hpack) as (p & Hp & Hst).
  { apply elem_of_seqZ. lia. }
  exists p. split; [done|]. cbv zeta. split; [exact Hst|reflexivity].
Qed.

(** The packing loses nothing when the bottom row is (0, 0, 0, 1). *)
Lemma unpack_pack (m : mat4x4) :
  row_w m = Vec4 (fconst 0) (fconst 0) (fconst 0) (fconst 1) →
  unpack_instance (mat3x4_of_mat4 (transpose m)) = m.
Proof.
  destruct m as [[] [] [] []]. unfold row_w. cbn. intros [= -> -> -> ->].
  reflexivity.
Qed.

(** C6. Every instance record written by the updater for a world transform
    whose last row is (0, 0, 0, 1) (the vector the transposed storage leaves
    out) unpacks to that world transform exactly, hence within any
    tolerance. *)
Theorem instance_packing_invertible a a' i p :
  updateInstanceData a = Some (tt, a') → 0 ≤ i < numCubes →
  cubePositions a !! Z.to_nat i = Some p →
  row_w (cubeTransformation i p) = Vec4 (fconst 0) (fconst 0) (fconst 0) (fconst 1) →
  ∃ d, instanceData a' !! Z.to_nat i = Some d ∧
       unpack_instance (transformation d) = cubeTransformation i p.
Proof.
  intros H Hi Hp Hrow. apply updateInstanceData_inv in H as (st & Hpack & <- & _).
  destruct (packInstances_lookup _ _ _ _ i Hpack) as (p' & Hp' & Hst).
  { apply elem_of_seqZ. lia. }
  assert (p' = p) as -> by congruence.
  eexists. split; [exact Hst|]. cbn. by apply unpack_pack.
Qed.

End Instances.

(** ** Programs that leave an observation alone *)
Section Preservation.
Context {FO : FloatOps} {IM : ImageType} {RA : Rasteriser}.
Context {CA : CameraOps} {PF : Platform} {SC : Scene}.
Import glm.
Context {X : Type} (f : App → X).

Lemma bind_inv {A B} (m : Prog A) (k : A → Prog B) a y a' :
  (m ≫= k) a = Some (y, a') → ∃ x a1, m a = Some (x, a1) ∧ k x a1 = Some (y, a').
Proof.
  unfold mbind, Prog_bind. destruct (m a) as [[x a1]|]; [|discriminate]. eauto.
Qed.

Lemma preserves_bind {A B} (m : Prog A) (k : A → Prog B) :
  preserves f m → (∀ x, preserves f (k x)) → preserves f (m ≫= k).
Proof.
  intros Hm Hk a y a' (x & a1 & H1 & H2)%bind_inv.
  rewrite (Hk _ _ _ _ H2). eapply Hm, H1.
Qed.

Lemma preserves_ret {A} (x : A) : preserves f (mret x).
Proof. intros a y a' [= _ <-]. reflexivity. Qed.

Lemma preserves_get {A} (g : App → A) : preserves f (get g).
Proof. intros a y a' [= _ <-]. reflexivity. Qed.

Lemma preserves_undefined {A} : preserves f (undefined : Prog A).
Proof. intros a y a' [=]. Qed.

Lemma preserves_modify (g : App → App) :
  (∀ a, f (g a) = f a) → preserves f (modify g).
Proof. intros Hg a y a' [= _ <-]. apply Hg. Qed.

Lemma preserves_call (c : GLCall) :
  (∀ a, f (do_call c a) = f a) → preserves f (call c).
Proof. apply preserves_modify. Qed.

Lemma preserves_printf (msg : string) :
  (∀ l a, f (set_stdout l a) = f a) → preserves f (printf msg).
Proof. intros H. apply preserves_modify. intros a. apply H. Qed.

Lemma preserves_when (b : bool) (m : Prog unit) :
  preserves f m → preserves f (when b m).
Proof. intros H. destruct b; [exact H|apply preserves_ret]. Qed.

Lemma preserves_if {A} (b : bool) (m1 m2 : Prog A) :
  preserves f m1 → preserves f m2 → preserves f (if b then m1 else m2).
Proof. by destruct b. Qed.

Lemma preserves_at_index {A} (l : list A) (i : Z) : preserves f (at_index l i).
Proof.
  unfold at_index. destruct (i <? 0); [apply preserves_undefined|].
  destruct (l !! Z.to_nat i); [apply preserves_ret|apply preserves_undefined].
Qed.

Lemma preserves_deref {A} (p : option A) : preserves f (deref p).
Proof. destruct p; [apply preserves_ret|apply preserves_undefined]. Qed.

Lemma preserves_for_each {A} (l : list A) (body : A → Prog unit) :
  (∀ x, preserves f (body x)) → preserves f (for_each l body).
Proof.
  intros H. induction l as [|x l IH]; cbn; [apply preserves_ret|].
  apply preserves_bind; [apply H|intros _; exact IH].
Qed.

End Preservation.

(** Decompose a program that is built from the primitives. *)
Ltac preserve_step :=
  lazymatch goal with
  | |- preserves _ (_ ≫= _) => apply preserves_bind; [|intros ?]
  | |- preserves _ (mret _) => apply preserves_ret
  | |- preserves _ (get _) => apply preserves_get
  | |- preserves _ undefined => apply preserves_undefined
  | |- preserves _ (call _) => apply preserves_call; intros; reflexivity
  | |- preserves _ (modify _) => apply preserves_modify; intros; reflexivity
  | |- preserves _ (printf _) => apply preserves_printf; intros; reflexivity
  | |- preserves _ (when _ _) => apply preserves_when
  | |- preserves _ (if _ then _ else _) => apply preserves_if
  | |- preserves _ (at_index _ _) => apply preserves_at_index
  | |- preserves _ (deref _) => apply preserves_deref
  | |- preserves _ (for_each _ _) => apply preserves_for_each; intros ?
  | |- preserves _ (match ?x with _ => _ end) => destruct x
  end.
Ltac preserve := repeat preserve_step.

Section Scene.
Context {FO : FloatOps} {IM : ImageType} {RA : Rasteriser}.
Context {CA : CameraOps} {PF : Platform} {SC : Scene}.
Import glm.

Lemma createFramebuffer_cubePositions w h m :
  preserves cubePositions (createFramebuffer w h m).
Proof.
  unfold createFramebuffer, createFramebuffer_object, createFramebuffer_color,
    createFramebuffer_depth, createFramebuffer_check, glGenFramebuffers1,
    glGenTextures1, glGenRenderbuffers1.
  preserve.
Qed.

Lemma dispatch_cubePositions e : preserves cubePositions (dispatch e).
Proof.
  destruct e; unfold dispatch, resizeCallback, keyCallback, mouseMoveCallback,
    setProjection.
  all: preserve; try apply createFramebuffer_cubePositions.
Qed.

Lemma renderScene_cubePositions : preserves cubePositions renderScene.
Proof.
  unfold renderScene, renderScene_offscreen, renderScene_begin, renderScene_floor,
    renderScene_cubes, renderScene_light, renderScene_present, updateTransformBlock,
    updateProgramData, bindTextures, updateInstanceData, updateInstance.
  preserve.
Qed.

Lemma frame_cubePositions fr : preserves cubePositions (frame fr).
Proof.
  unfold frame, processInput, setProjection, initialCameraTransformation.
  preserve; [apply dispatch_cubePositions|apply renderScene_cubePositions].
Qed.

Lemma mainLoop_cubePositions frames : preserves cubePositions (mainLoop frames).
Proof.
  induction frames as [|fr frames IH]; cbn; preserve;
    [apply frame_cubePositions|exact IH].
Qed.

Lemma loadTextures_cubePositions : preserves cubePositions loadTextures.
Proof.
  unfold loadTextures, CreateSamplers, CreateSingleColorTexture,
    CreateCheckerBoardTexture, LoadTexture, CreateTexture, setTexture,
    glGenSamplers1, glGenTextures1.
  preserve.
Qed.

Lemma shutDown_cubePositions : preserves cubePositions shutDown.
Proof. unfold shutDown, delete_mesh. preserve. Qed.

(** *** [createGeometry] *)

Lemma push_random_run i a :
  ∃ v r, push_random i a = Some (tt, set_cubePositions (cubePositions a ++ [v]) (set_rng r a)).
Proof. unfold push_random, random, push_back. progs. eexists _, _. reflexivity. Qed.

Lemma push_loop_length (l : list Z) a a' :
  for_each l push_random a = Some (tt, a') →
  length (cubePositions a') = (length (cubePositions a) + length l)%nat.
Proof.
  revert a. induction l as [|i l IH]; intros a; cbn.
  - intros [= <-]. lia.
  - intros (x & a1 & H1 & H2)%bind_inv. apply IH in H2. rewrite H2.
    destruct (push_random_run i a) as (v & r & Hrun). rewrite Hrun in H1.
    injection H1 as _ <-. cbn. rewrite length_app. cbn. lia.
Qed.

Lemma createGeometry_cubes_positions a a' :
  createGeometry_cubes a = Some (tt, a') →
  0 ≤ numCubes ∧
  Z.of_nat (length (cubePositions a')) = Z.of_nat (length (cubePositions a)) + numCubes + 1.
Proof.
  unfold createGeometry_cubes, push_back.
  destruct (numCubes <? 0) eqn:Hn; [intros [=]|]. apply Z.ltb_ge in Hn.
  intros (? & a1 & [= _ <-] & (? & a2 & [= _ <-] & H)%bind_inv)%bind_inv.
  apply push_loop_length in H. split; [done|]. rewrite H. cbn.
  rewrite length_app, length_seqZ. cbn. lia.
Qed.

Lemma createGeometry_meshes_cubePositions :
  preserves cubePositions createGeometry_meshes.
Proof.
  unfold createGeometry_meshes, CreateQuadNormalTangentTex, CreateCubeNormalTangentTex,
    glGenVertexArrays1. preserve.
Qed.

Lemma createGeometry_instancing_cubePositions :
  preserves cubePositions createGeometry_instancing.
Proof. unfold createGeometry_instancing, glGenBuffers1. preserve. Qed.

Lemma createGeometry_transform_cubePositions :
  preserves cubePositions createGeometry_transform.
Proof. unfold createGeometry_transform, glGenBuffers1. preserve. Qed.

(** [createGeometry] appends [numCubes + 1] positions, and throws for a
    negative [numCubes]. *)
Lemma createGeometry_positions a a' :
  createGeometry a = Some (tt, a') →
  0 ≤ numCubes ∧
  Z.of_nat (length (cubePositions a')) = Z.of_nat (length (cubePositions a)) + numCubes + 1.
Proof.
  unfold createGeometry.
  intros (? & a1 & H1 & (? & a2 & H2 & (? & a3 & H3 & H4)%bind_inv)%bind_inv)%bind_inv.
  apply createGeometry_cubes_positions in H4.
  apply createGeometry_meshes_cubePositions in H1.
  apply createGeometry_instancing_cubePositions in H2.
  apply createGeometry_transform_cubePositions in H3.
  rewrite H3, H2, H1 in H4. exact H4.
Qed.

End Scene.

(** ** Programs that always return *)
Section Returns.
Context {FO : FloatOps} {IM : ImageType} {RA : Rasteriser}.
Context {CA : CameraOps} {PF : Platform} {SC : Scene}.

Lemma returns_bind {A B} (m : Prog A) (k : A → Prog B) :
  always_returns m → (∀ x, always_returns (k x)) → always_returns (m ≫= k).
Proof.
  intros Hm Hk a. destruct (Hm a) as [[x a1] H1].
  rewrite (bind_run _ _ _ _ _ H1). apply Hk.
Qed.

Lemma returns_ret {A} (x : A) : always_returns (mret x).
Proof. intros a. eexists. reflexivity. Qed.

Lemma returns_get {A} (g : App → A) : always_returns (get g).
Proof. intros a. eexists. reflexivity. Qed.

Lemma returns_modify (g : App → App) : always_returns (modify g).
Proof. intros a. eexists. reflexivity. Qed.

Lemma returns_when (b : bool) (m : Prog unit) :
  always_returns m → always_returns (when b m).
Proof. intros H. destruct b; [exact H|apply returns_ret]. Qed.

Lemma returns_if {A} (b : bool) (m1 m2 : Prog A) :
  always_returns m1 → always_returns m2 → always_returns (if b then m1 else m2).
Proof. by destruct b. Qed.

Lemma returns_for_each {A} (l : list A) (body : A → Prog unit) :
  (∀ x, always_returns (body x)) → always_returns (for_each l body).
Proof.
  intros H. induction l as [|x l IH]; cbn; [apply returns_ret|].
  apply returns_bind; [apply H|intros _; exact IH].
Qed.

End Returns.

Ltac returns_step :=
  lazymatch goal with
  | |- always_returns (_ ≫= _) => apply returns_bind; [|intros ?]
  | |- always_returns (mret _) => apply returns_ret
  | |- always_returns (get _) => apply returns_get
  | |- always_returns (call _) => apply returns_modify
  | |- always_returns (modify _) => apply returns_modify
  | |- always_returns (printf _) => apply returns_modify
  | |- always_returns (when _ _) => apply returns_when
  | |- always_returns (if _ then _ else _) => apply returns_if
  | |- always_returns (for_each _ _) => apply returns_for_each; intros ?
  | |- always_returns (match ?x with _ => _ end) => destruct x
  end.
Ltac returns := repeat returns_step.

(** ** Start-up *)
Section Startup.
Context {FO : FloatOps} {IM : ImageType} {RA : Rasteriser}.
Context {CA : CameraOps} {PF : Platform} {SC : Scene}.
Import glm.

Lemma createFramebuffer_returns w h m : always_returns (createFramebuffer w h m).
Proof.
  unfold createFramebuffer, createFramebuffer_object, createFramebuffer_color,
    createFramebuffer_depth, createFramebuffer_check, glGenFramebuffers1,
    glGenTextures1, glGenRenderbuffers1.
  returns.
Qed.

Lemma dispatch_returns e : always_returns (dispatch e).
Proof.
  destruct e; unfold dispatch, resizeCallback, keyCallback, mouseMoveCallback,
    setProjection.
  all: returns; apply createFramebuffer_returns.
Qed.

Lemma shutDown_returns : always_returns shutDown.
Proof. unfold shutDown, delete_mesh. returns. Qed.

Lemma to_unsigned_nonneg : 0 ≤ numCubes → to_unsigned numCubes = numCubes.
Proof.
  intros H. pose proof numCubes_int. unfold to_unsigned. apply Z.mod_small. lia.
Qed.

Lemma to_unsigned_negative : numCubes < 0 → to_unsigned numCubes = numCubes + 2 ^ 32.
Proof.
  intros H. pose proof numCubes_int. unfold to_unsigned. symmetry.
  apply (Z.mod_unique _ _ (-1)); lia.
Qed.

(** [initOpenGL] fails whenever the check of line 416 fires, whatever else
    the platform does. *)
Lemma initOpenGL_rejects a :
  MAX_INSTANCES < to_unsigned numCubes → ∃ a', initOpenGL a = Some (false, a').
Proof.
  intros H%Z.ltb_lt. unfold initOpenGL. rewrite H.
  destruct glfwInit_ok, glfwCreateWindow_ok, gladLoadGL_ok,
    (GL_MAX_UNIFORM_BLOCK_SIZE <? expectedUboSize); cbn; eauto.
Qed.

Lemma initOpenGL_accepts a a' :
  initOpenGL a = Some (true, a') → 0 ≤ numCubes ≤ MAX_INSTANCES.
Proof.
  intros H. destruct (decide (MAX_INSTANCES < to_unsigned numCubes)) as [Hbig|Hok].
  - destruct (initOpenGL_rejects a Hbig) as [a'' H']. congruence.
  - pose proof numCubes_int. destruct (decide (numCubes < 0)) as [Hneg|Hpos].
    + rewrite to_unsigned_negative in Hok by done. unfold MAX_INSTANCES in Hok. lia.
    + rewrite to_unsigned_nonneg in Hok by lia. lia.
Qed.

Lemma startup_rejects a :
  MAX_INSTANCES < to_unsigned numCubes → ∃ a', startup a = Some (false, a').
Proof.
  intros H. destruct (initOpenGL_rejects a H) as [a1 H1].
  unfold startup. rewrite (bind_run _ _ _ _ _ H1). cbn. eauto.
Qed.

Lemma main_rejects frames a :
  MAX_INSTANCES < to_unsigned numCubes → entry_points_loaded = true →
  ∃ a', main frames a = Some (-1, a').
Proof.
  intros H Hloaded. destruct (startup_rejects a H) as [a1 H1].
  unfold main. rewrite (bind_run _ _ _ _ _ H1), Hloaded. cbn [negb].
  destruct (shutDown_returns a1) as [[[] a2] H2].
  rewrite (bind_run _ _ _ _ _ H2). cbn. eauto.
Qed.

(** Without the entry points [main] has no result to speak of, and with too
    many cubes it never returns 0. *)
Lemma main_unloaded frames a :
  MAX_INSTANCES < to_unsigned numCubes → entry_points_loaded = false →
  main frames a = None.
Proof.
  intros H Hloaded. destruct (startup_rejects a H) as [a1 H1].
  unfold main. rewrite (bind_run _ _ _ _ _ H1), Hloaded. reflexivity.
Qed.

Lemma main_never_succeeds frames a r a' :
  MAX_INSTANCES < to_unsigned numCubes → main frames a = Some (r, a') → r = -1.
Proof.
  intros H Hmain. destruct entry_points_loaded eqn:Hloaded.
  - destruct (main_rejects frames a H Hloaded) as [a'' H']. congruence.
  - rewrite main_unloaded in Hmain by done. discriminate.
Qed.

(** The loop of [updateInstanceData] stays within the first [numCubes]
    entries of the staging vector, and the copy within its bytes. *)
Lemma updateInstanceData_bounds a a' :
  updateInstanceData a = Some (tt, a') →
  length (instanceData a') = length (instanceData a) ∧
  (∀ j : nat, numCubes ≤ Z.of_nat j → instanceData a' !! j = instanceData a !! j) ∧
  numCubes ≤ Z.of_nat (length (instanceData a)) ∧
  upload_size ≤ Z.of_nat (length (instanceData a)) * sizeof_InstanceData.
Proof.
  intros (st & Hpack & <- & _ & Hsize)%updateInstanceData_inv.
  apply packInstances_frame in Hpack as (Hlen & Hother & Hrange).
  split; [done|]. split; [|split].
  - intros j Hj. apply Hother. rewrite elem_of_seqZ. lia.
  - destruct (decide (numCubes ≤ 0)) as [|Hpos]; [lia|].
    destruct (Hrange (numCubes - 1)) as (_ & Hlt & _); [rewrite elem_of_seqZ; lia|]. lia.
  - by rewrite <- Hlen.
Qed.

End Startup.

(** ** The commands of a frame, in order *)
Section FrameOrder.
Context {FO : FloatOps} {IM : ImageType} {RA : Rasteriser}.
Context {CA : CameraOps} {PF : Platform} {SC : Scene}.
Import glm.

(** What [all_before] says in terms of positions. *)
Lemma all_before_spec (p q : GLCall → bool) (l : list GLCall) (i j : nat) x y :
  all_before p q l = true →
  l !! i = Some x → l !! j = Some y → p x = true → q y = true → (i ≤ j)%nat.
Proof.
  revert i j. induction l as [|c l IH]; intros i j H Hi Hj Hp Hq; [done|].
  cbn in H. apply andb_prop in H as [Hc Hl].
  destruct j as [|j]; [|destruct i as [|i]]; try lia.
  - destruct i as [|i]; [lia|]. cbn in Hi, Hj. injection Hj as ->.
    rewrite Hq in Hc. rewrite forallb_forall in Hc.
    apply list_elem_of_lookup_2, list_elem_of_In in Hi. apply Hc in Hi.
    rewrite Hp in Hi. discriminate.
  - cbn in Hi, Hj. apply le_n_S. by eapply IH.
Qed.

(** A frame that is rendered issues exactly the commands of [frame_calls]
    and leaves the packed instances in the staging vector. *)
Lemma renderScene_inv a a' :
  renderScene a = Some (tt, a') →
  ∃ q c, quad a = Some q ∧ cube a = Some c ∧
    packInstances (cubePositions a) (seqZ 0 numCubes) (instanceData a)
      = Some (instanceData a') ∧
    a' = run_calls (frame_calls a q c (instanceData a')) (set_instanceData (instanceData a') a) ∧
    trace a' = trace a ++ frame_calls a q c (instanceData a').
Proof.
  rewrite renderScene_run.
  destruct (quad a) as [q|]; [|discriminate].
  destruct (cube a) as [c|]; [|discriminate].
  destruct (packInstances _ _ _) as [st|]; [|discriminate].
  destruct (upload_defined _ _); [|discriminate].
  intros [= <-]. exists q, c. autorewrite with globals.
  repeat split; try reflexivity. rewrite trace_run_calls. reflexivity.
Qed.


End FrameOrder.

(** ** What a command does to the render targets *)
Section Contents.
Context {FO : FloatOps} {IM : ImageType} {RA : Rasteriser}.

Lemma delete_texture_renderbuffers n g :
  renderbuffers (delete_texture n g) = renderbuffers g.
Proof. unfold delete_texture. gl_cases; reflexivity. Qed.
Lemma delete_framebuffer_renderbuffers n g :
  renderbuffers (delete_framebuffer n g) = renderbuffers g.
Proof. unfold delete_framebuffer. gl_cases; reflexivity. Qed.
Lemma delete_buffer_renderbuffers n g :
  renderbuffers (delete_buffer n g) = renderbuffers g.
Proof. unfold delete_buffer. gl_cases; reflexivity. Qed.
Lemma delete_vertex_array_renderbuffers n g :
  renderbuffers (delete_vertex_array n g) = renderbuffers g.
Proof. reflexivity. Qed.

(** A command outside [touches_renderbuffers] leaves the renderbuffer store
    alone. *)
Lemma exec_renderbuffers c g :
  touches_renderbuffers c = false → renderbuffers (gl_exec c g) = renderbuffers g.
Proof.
  destruct c; unfold gl_exec; cbn; intros H; try discriminate H; try reflexivity.
  all: try (apply foldl_preserves; intros;
            first [apply delete_texture_renderbuffers | apply delete_framebuffer_renderbuffers
                  | apply delete_buffer_renderbuffers | apply delete_vertex_array_renderbuffers]).
  all: unfold set_capability, set_uniform, bind_texture, specify_texture, bind_framebuffer,
         framebuffer_texture, framebuffer_renderbuffer, bind_buffer,
         bind_buffer_base, bind_buffer, buffer_data, buffer_sub_data, map_buffer,
         write_mapped, unmap_buffer, put_bound_buffer.
  all: gl_cases; reflexivity.
Qed.

Lemma bind_texture_contents target n g :
  texture_contents (bind_texture target n g) = texture_contents g.
Proof.
  unfold bind_texture, texture_contents.
  destruct (n =? 0)%N; [destruct target; reflexivity|].
  destruct (textures g !! n) as [t|] eqn:Ht; [|reflexivity].
  destruct (tex_target t) as [t'|].
  - destruct (decide (t' = target)); [destruct target|]; reflexivity.
  - assert (∀ g', textures g' = <[n:=MkTexture (Some target) (tex_storage t) (tex_image t)]> (textures g) →
              (λ t, (tex_storage t, tex_image t)) <$> textures g'
              = (λ t, (tex_storage t, tex_image t)) <$> textures g) as Hins.
    { intros g' ->. rewrite fmap_insert. apply insert_id. rewrite lookup_fmap, Ht. reflexivity. }
    destruct target; apply Hins; reflexivity.
Qed.

Lemma bind_renderbuffer_contents n g :
  renderbuffer_contents (bind_renderbuffer n g) = renderbuffer_contents g.
Proof.
  unfold bind_renderbuffer, renderbuffer_contents.
  destruct (n =? 0)%N; [reflexivity|].
  destruct (renderbuffers g !! n) as [r|] eqn:Hr; [|reflexivity].
  cbn. rewrite fmap_insert. apply insert_id. rewrite lookup_fmap, Hr. reflexivity.
Qed.

(** With the window bound for drawing, rendering reaches no texture and no
    renderbuffer. *)
Lemma render_window c g :
  draw_framebuffer g = 0%N →
  textures (render c g) = textures g ∧ renderbuffers (render c g) = renderbuffers g.
Proof.
  intros H0. unfold render, paint_color, paint_depth. rewrite H0. cbn.
  destruct (framebuffer_complete g 0); cbn; rewrite ?H0; cbn; done.
Qed.

Lemma blit_window c g :
  draw_framebuffer g = 0%N →
  textures (blit c g) = textures g ∧ renderbuffers (blit c g) = renderbuffers g.
Proof.
  intros H0. unfold blit, paint_color. rewrite H0. cbn.
  destruct (framebuffer_complete g (read_framebuffer g)); [|done].
  destruct (read_color g); done.
Qed.

(** The contents of the render targets change only through commands that
    allocate images and through rendering into a framebuffer object. *)
Lemma exec_contents c g :
  is_image_allocation c = false →
  (is_render c = true → draw_framebuffer g = 0%N) →
  texture_contents (gl_exec c g) = texture_contents g ∧
  renderbuffer_contents (gl_exec c g) = renderbuffer_contents g.
Proof.
  intros Halloc Hdraw.
  destruct (is_render c) eqn:Hrender.
  - specialize (Hdraw eq_refl). unfold texture_contents, renderbuffer_contents.
    destruct c; try discriminate Hrender; unfold gl_exec.
    all: first [destruct (render_window (glClear color depth) g Hdraw) as [-> ->]
               |destruct (render_window (glDrawElements mode count) g Hdraw) as [-> ->]
               |destruct (render_window (glDrawElementsInstanced mode count instancecount) g Hdraw) as [-> ->]
               |destruct (render_window (glDrawArrays mode first count) g Hdraw) as [-> ->]
               |destruct (blit_window (glBlitFramebuffer srcX0 srcY0 srcX1 srcY1 dstX0 dstY0 dstX1 dstY1) g Hdraw) as [-> ->]];
      done.
  - destruct (touches_textures c) eqn:Ht, (touches_renderbuffers c) eqn:Hr.
    + destruct c; discriminate.
    + unfold renderbuffer_contents. rewrite exec_renderbuffers by done. split; [|done].
      destruct c; try discriminate; apply bind_texture_contents.
    + unfold texture_contents. rewrite exec_textures by done. split; [done|].
      destruct c; try discriminate; apply bind_renderbuffer_contents.
    + unfold texture_contents, renderbuffer_contents.
      rewrite exec_textures, exec_renderbuffers by done. done.
Qed.

Lemma delete_framebuffer_window n g :
  draw_framebuffer g = 0%N → draw_framebuffer (delete_framebuffer n g) = 0%N.
Proof.
  intros H0. unfold delete_framebuffer. gl_cases; cbn; rewrite ?H0; try done.
  unfold unbind. destruct (0 =? n)%N; done.
Qed.

Lemma delete_texture_draw_framebuffer n g :
  draw_framebuffer (delete_texture n g) = draw_framebuffer g.
Proof. unfold delete_texture. gl_cases; reflexivity. Qed.
Lemma delete_renderbuffer_draw_framebuffer n g :
  draw_framebuffer (delete_renderbuffer n g) = draw_framebuffer g.
Proof. unfold delete_renderbuffer. gl_cases; reflexivity. Qed.
Lemma delete_buffer_draw_framebuffer n g :
  draw_framebuffer (delete_buffer n g) = draw_framebuffer g.
Proof. unfold delete_buffer. gl_cases; reflexivity. Qed.

(** Once the window is bound for drawing it stays bound until a framebuffer
    object is bound for drawing. *)
Lemma exec_window_bound c g :
  keeps_window_bound c = true → draw_framebuffer g = 0%N →
  draw_framebuffer (gl_exec c g) = 0%N.
Proof.
  intros Hk H0. destruct c; unfold gl_exec; try exact H0.
  all: try (etransitivity; [|exact H0]; apply foldl_preserves; intros;
            first [apply delete_texture_draw_framebuffer
                  |apply delete_renderbuffer_draw_framebuffer
                  |apply delete_buffer_draw_framebuffer | reflexivity]).
  all: try (revert g H0; induction names as [|n names IH]; intros g H0; cbn;
            [exact H0|apply IH, delete_framebuffer_window, H0]).
  all: try (destruct target; cbn in Hk; [apply N.eqb_eq in Hk as ->; reflexivity
            |apply N.eqb_eq in Hk as ->; reflexivity|]).
  all: unfold set_capability, set_uniform, bind_texture, specify_texture, bind_framebuffer,
         framebuffer_texture, framebuffer_renderbuffer, bind_renderbuffer,
         renderbuffer_storage, bind_buffer_base, bind_buffer, buffer_data,
         buffer_sub_data, map_buffer, write_mapped, unmap_buffer, put_bound_buffer,
         render, blit, paint_color, paint_depth in *.
  all: cbn in *; gl_cases; cbn in *; rewrite ?H0; try done.
  all: try (rewrite H0 in *; discriminate).
Qed.

(** A list of commands issued while the window is bound for drawing. *)
Lemma gl_run_window cs g :
  draw_framebuffer g = 0%N →
  forallb (λ c, negb (is_image_allocation c) && keeps_window_bound c) cs = true →
  texture_contents (gl_run cs g) = texture_contents g ∧
  renderbuffer_contents (gl_run cs g) = renderbuffer_contents g.
Proof.
  revert g. induction cs as [|c cs IH]; intros g H0 Hcs; [done|].
  cbn in Hcs. apply andb_prop in Hcs as [[Ha Hk]%andb_prop Hcs].
  apply negb_true_iff in Ha.
  change (gl_run (c :: cs) g) with (gl_run cs (gl_exec c g)).
  destruct (IH (gl_exec c g)) as [-> ->]; [by apply exec_window_bound|done|].
  by apply exec_contents.
Qed.

End Contents.

(** ** Tonemapping *)
Section Tonemapping.
Context {FO : FloatOps} {IM : ImageType} {RA : Rasteriser}.
Context {CA : CameraOps} {PF : Platform} {SC : Scene}.
Import glm.

(** The presentation pass of either kind binds the window for drawing first
    and then renders into nothing else. *)
Lemma present_contents b a g :
  texture_contents (gl_run (renderScene_present_calls (set_tonemapping b a)) g)
    = texture_contents g ∧
  renderbuffer_contents (gl_run (renderScene_present_calls (set_tonemapping b a)) g)
    = renderbuffer_contents g.
Proof.
  unfold renderScene_present_calls.
  change (tonemapping (set_tonemapping b a)) with b.
  destruct b.
  - match goal with |- context [gl_run (?c :: ?cs) g] =>
      change (gl_run (c :: cs) g) with (gl_run cs (gl_exec c g));
      destruct (gl_run_window cs (gl_exec c g)) as [-> ->];
      [reflexivity|destruct (1 <? msaaLevel (set_tonemapping true a)); reflexivity|];
      apply exec_contents; [reflexivity|discriminate]
    end.
  - match goal with |- context [gl_run (?c :: ?cs) g] =>
      change (gl_run (c :: cs) g) with (gl_run cs (gl_exec c g));
      destruct (gl_run_window cs (gl_exec c g)) as [-> ->];
      [reflexivity|reflexivity|];
      apply exec_contents; [reflexivity|discriminate]
    end.
Qed.

(** A frame with the tonemapping flag set to [b]: the offscreen commands do
    not depend on [b]. *)
Lemma renderScene_tonemapping b a :
  renderScene (set_tonemapping b a) =
  match quad a, cube a,
        packInstances (cubePositions a) (seqZ 0 numCubes) (instanceData a) with
  | Some q, Some c, Some st =>
    if upload_defined (gl_run (offscreen_calls_map a q) (gl a)) st
    then Some (tt, run_calls
                     (offscreen_calls a q c st
                      ++ renderScene_present_calls (set_tonemapping b a))
                     (set_instanceData st (set_tonemapping b a)))
    else None
  | _, _, _ => None
  end.
Proof. rewrite renderScene_run. reflexivity. Qed.

(** C3. From the same state, a frame with tonemapping on and a frame with
    tonemapping off are both rendered or both undefined.  When rendered they
    issue the same offscreen commands, reach the same context state [g]
    before the flag is tested, and differ only in the presentation commands
    that follow; neither presentation changes the storage or the pixels of any
    texture or renderbuffer, so the offscreen render target is the same. *)
Theorem tonemapping_keeps_offscreen a :
  (is_Some (renderScene (set_tonemapping true a))
   ↔ is_Some (renderScene (set_tonemapping false a))) ∧
  ∀ a1 a2,
    renderScene (set_tonemapping true a) = Some (tt, a1) →
    renderScene (set_tonemapping false a) = Some (tt, a2) →
    ∃ off,
      let g := gl_run off (gl a) in
      trace a1 = trace a ++ off ++ renderScene_present_calls (set_tonemapping true a) ∧
      trace a2 = trace a ++ off ++ renderScene_present_calls (set_tonemapping false a) ∧
      gl a1 = gl_run (renderScene_present_calls (set_tonemapping true a)) g ∧
      gl a2 = gl_run (renderScene_present_calls (set_tonemapping false a)) g ∧
      texture_contents (gl a1) = texture_contents g ∧
      texture_contents (gl a2) = texture_contents g ∧
      renderbuffer_contents (gl a1) = renderbuffer_contents g ∧
      renderbuffer_contents (gl a2) = renderbuffer_contents g.
Proof.
  rewrite !renderScene_tonemapping.
  destruct (quad a) as [q|]; [|split; [done|discriminate]].
  destruct (cube a) as [c|]; [|split; [done|discriminate]].
  destruct (packInstances _ _ _) as [st|]; [|split; [done|discriminate]].
  destruct (upload_defined _ _); [|split; [done|discriminate]].
  set (off := offscreen_calls a q c st).
  set (p1 := renderScene_present_calls (set_tonemapping true a)).
  set (p2 := renderScene_present_calls (set_tonemapping false a)).
  split; [split; intros _; eexists; reflexivity|].
  intros a1 a2 H1 H2.
  assert (a1 = run_calls (off ++ p1) (set_instanceData st (set_tonemapping true a)))
    as -> by congruence.
  assert (a2 = run_calls (off ++ p2) (set_instanceData st (set_tonemapping false a)))
    as -> by congruence.
  clear H1 H2. exists off. cbv zeta.
  rewrite !trace_run_calls, !gl_run_calls, !gl_run_app.
  change (gl (set_instanceData st (set_tonemapping true a))) with (gl a).
  change (gl (set_instanceData st (set_tonemapping false a))) with (gl a).
  change (trace (set_instanceData st (set_tonemapping true a))) with (trace a).
  change (trace (set_instanceData st (set_tonemapping false a))) with (trace a).
  pose proof (present_contents true a (gl_run off (gl a))) as [E1 E2].
  pose proof (present_contents false a (gl_run off (gl a))) as [E3 E4].
  fold p1 in E1, E2. fold p2 in E3, E4.
  repeat split; assumption.
Qed.

(** ** The cube positions *)

Lemma packInstance_ext ps ps' st i :
  ps' !! Z.to_nat i = ps !! Z.to_nat i → packInstance ps' st i = packInstance ps st i.
Proof. intros H. unfold packInstance. rewrite H. reflexivity. Qed.

Lemma packInstances_ext ps ps' l st :
  (∀ i, i ∈ l → ps' !! Z.to_nat i = ps !! Z.to_nat i) →
  packInstances ps' l st = packInstances ps l st.
Proof.
  revert st. induction l as [|i l IH]; intros st H; [reflexivity|]. cbn.
  rewrite (packInstance_ext ps ps') by (apply H; left).
  destruct (packInstance ps st i); [|reflexivity]. apply IH. intros k Hk. apply H. by right.
Qed.

(** A frame reads the positions below [numCubes] and no other. *)
Lemma renderScene_positions ps' a a' :
  (∀ i, 0 ≤ i < numCubes → ps' !! Z.to_nat i = cubePositions a !! Z.to_nat i) →
  renderScene a = Some (tt, a') →
  renderScene (set_cubePositions ps' a) = Some (tt, set_cubePositions ps' a').
Proof.
  intros Hps. rewrite !renderScene_run.
  change (quad (set_cubePositions ps' a)) with (quad a).
  change (cube (set_cubePositions ps' a)) with (cube a).
  change (cubePositions (set_cubePositions ps' a)) with ps'.
  change (instanceData (set_cubePositions ps' a)) with (instanceData a).
  change (gl (set_cubePositions ps' a)) with (gl a).
  rewrite (packInstances_ext (cubePositions a) ps')
    by (intros i Hi%elem_of_seqZ; apply Hps; lia).
  destruct (quad a) as [q|]; [|discriminate].
  destruct (cube a) as [c|]; [|discriminate].
  destruct (packInstances _ _ _) as [st|]; [|discriminate].
  change (offscreen_calls_map (set_cubePositions ps' a) q) with (offscreen_calls_map a q).
  destruct (upload_defined _ _); [|discriminate].
  intros [= <-]. f_equal. f_equal.
  change (frame_calls (set_cubePositions ps' a) q c st) with (frame_calls a q c st).
  rewrite !run_calls_eq. reflexivity.
Qed.

Lemma initOpenGL_cubePositions : preserves cubePositions initOpenGL.
Proof.
  unfold initOpenGL, setSwapInterval, resizeCallback, setProjection,
    initialCameraTransformation.
  preserve; apply createFramebuffer_cubePositions.
Qed.

Lemma compileShaders_cubePositions : preserves cubePositions compileShaders.
Proof. unfold compileShaders, glCreateProgram1. preserve. Qed.

(** The one instanced draw of a frame. *)
Lemma frame_calls_instanced_draw a q c st :
  List.filter is_instanced_draw (frame_calls a q c st)
  = [glDrawElementsInstanced GL_TRIANGLES (GetIBOSize c) numCubes].
Proof.
  unfold frame_calls, offscreen_calls, offscreen_calls_map, offscreen_calls_draw,
    renderScene_begin_calls, renderScene_floor_calls, renderScene_cubes_calls_map,
    renderScene_cubes_calls_draw, renderScene_light_calls, renderScene_present_calls,
    updateTransformBlock_calls, updateProgramData_calls, bindTextures_calls.
  destruct (depthTest a), (1 <? msaaLevel a), (wireframe a), (tonemapping a);
    reflexivity.
Qed.

(** When start-up succeeds, there are [numCubes + 1] positions. *)
Lemma startup_positions a a' :
  startup a = Some (true, a') →
  Z.of_nat (length (cubePositions a')) = Z.of_nat (length (cubePositions a)) + numCubes + 1.
Proof.
  unfold startup. intros (ok & a1 & H1 & H)%bind_inv.
  apply initOpenGL_cubePositions in H1. rewrite <- H1.
  destruct ok; cbn in H; [|apply bind_inv in H as (? & ? & _ & [=])].
  apply bind_inv in H as (ok & a2 & H2 & H).
  apply compileShaders_cubePositions in H2. rewrite <- H2.
  destruct ok; cbn in H; [|apply bind_inv in H as (? & ? & _ & [=])].
  apply bind_inv in H as ([] & a3 & H3 & ([] & a4 & H4 & [= <-])%bind_inv).
  apply loadTextures_cubePositions in H4. rewrite H4.
  by apply createGeometry_positions in H3 as [_ ->].
Qed.

(** C10. [createGeometry] appends [numCubes + 1] positions, so that start-up
    leaves exactly [numCubes + 1] of them; no event handler, frame or loop
    iteration changes the list afterwards; a frame packs and draws the first
    [numCubes] positions only: replacing any later position, in particular the
    last one generated, changes nothing a frame does, and the one instanced
    draw has [numCubes] instances. *)
Theorem cube_positions_fixed :
  (∀ a a', createGeometry a = Some (tt, a') →
     Z.of_nat (length (cubePositions a'))
     = Z.of_nat (length (cubePositions a)) + numCubes + 1) ∧
  (∀ a', startup initial_app = Some (true, a') →
     Z.of_nat (length (cubePositions a')) = numCubes + 1) ∧
  (∀ fr, preserves cubePositions (frame fr)) ∧
  (∀ frames, preserves cubePositions (mainLoop frames)) ∧
  (∀ ps' a a',
     (∀ i, 0 ≤ i < numCubes → ps' !! Z.to_nat i = cubePositions a !! Z.to_nat i) →
     renderScene a = Some (tt, a') →
     renderScene (set_cubePositions ps' a) = Some (tt, set_cubePositions ps' a')) ∧
  (∀ a a', renderScene a = Some (tt, a') →
     ∃ c cs, cube a = Some c ∧ trace a' = trace a ++ cs ∧
       List.filter is_instanced_draw cs
       = [glDrawElementsInstanced GL_TRIANGLES (GetIBOSize c) numCubes]).
Proof.
  split; [|split; [|split; [|split; [|split]]]].
  - intros a a' H. by apply createGeometry_positions in H as [_ ->].
  - intros a' H. by apply startup_positions in H.
  - apply frame_cubePositions.
  - apply mainLoop_cubePositions.
  - apply renderScene_positions.
  - intros a a' (q & c & Hq & Hc & _ & _ & Htr)%renderScene_inv.
    eexists c, _. split; [done|]. split; [exact Htr|]. apply frame_calls_instanced_draw.
Qed.

End Tonemapping.
(** ** Names of textures and renderbuffers *)
Section Names.
Context {FO : FloatOps} {IM : ImageType} {RA : Rasteriser}.

Lemma held_zero : held 0%N = ∅.
Proof. reflexivity. Qed.

Lemma held_nonzero n : n ≠ 0%N → held n = {[n]}.
Proof. intros H. unfold held. by destruct (decide (n = 0%N)). Qed.

Lemma delete_texture_names n g :
  dom (textures (delete_texture n g)) = dom (textures g) ∖ held n.
Proof.
  unfold delete_texture, held. destruct (N.eqb_spec n 0) as [->|Hn].
  - destruct (decide _); [|done]. by rewrite difference_empty_L.
  - destruct (decide (n = 0%N)); [done|].
    destruct (textures g !! n) eqn:Hl; cbn.
    + apply dom_delete_L.
    + apply not_elem_of_dom in Hl. symmetry. apply difference_disjoint_L.
      by apply disjoint_singleton_r.
Qed.

Lemma delete_renderbuffer_names n g :
  dom (renderbuffers (delete_renderbuffer n g)) = dom (renderbuffers g) ∖ held n.
Proof.
  unfold delete_renderbuffer, held. destruct (N.eqb_spec n 0) as [->|Hn].
  - destruct (decide _); [|done]. by rewrite difference_empty_L.
  - destruct (decide (n = 0%N)); [done|].
    destruct (renderbuffers g !! n) eqn:Hl; cbn.
    + apply dom_delete_L.
    + apply not_elem_of_dom in Hl. symmetry. apply difference_disjoint_L.
      by apply disjoint_singleton_r.
Qed.

(** Apart from [glGenTextures] and [glDeleteTextures], a command that does
    not render creates and releases no texture name, *)
Lemma exec_texture_names c g :
  names_textures c = false → is_render c = false →
  dom (textures (gl_exec c g)) = dom (textures g).
Proof.
  intros Hn Hr. destruct (touches_textures c) eqn:Ht;
    [|by rewrite exec_textures].
  destruct c; try discriminate; unfold gl_exec.
  - unfold bind_texture. destruct (_ =? _)%N; [by destruct target|].
    destruct (textures g !! texture) as [t|] eqn:Hl; [|done].
    destruct (tex_target t); [destruct (decide _); [by destruct target|done]|].
    destruct target; cbn; apply dom_insert_lookup_L; by rewrite Hl.
  - unfold specify_texture. destruct (_ || _); [done|].
    destruct (textures g !! _) as [t|] eqn:Hl; [|done].
    cbn. apply dom_insert_lookup_L. by rewrite Hl.
  - destruct (_ <=? _); [done|].
    unfold specify_texture. destruct (_ || _); [done|].
    destruct (textures g !! _) as [t|] eqn:Hl; [|done].
    cbn. apply dom_insert_lookup_L. by rewrite Hl.
Qed.

(** and a texture stays a texture. *)
Lemma exec_is_texture c g n :
  names_textures c = false → is_render c = false →
  is_texture g n = true → is_texture (gl_exec c g) n = true.
Proof.
  intros Hn Hr. destruct (touches_textures c) eqn:Ht;
    [|unfold is_texture; by rewrite exec_textures].
  assert (∀ g' k t t', textures g !! k = Some t → tex_target t' ≠ None →
            (tex_target t ≠ None → tex_target t' = tex_target t) →
            textures g' = <[k := t']> (textures g) →
            is_texture g n = true → is_texture g' n = true) as Hins.
  { intros g' k t t' Hk Ht' Hsame Hg'. unfold is_texture. rewrite Hg'.
    destruct (negb _); [|done]. cbn.
    destruct (decide (k = n)) as [->|Hne].
    - rewrite lookup_insert_eq. by destruct (tex_target t'). 
    - by rewrite lookup_insert_ne. }
  destruct c; try discriminate; unfold gl_exec.
  - unfold bind_texture. destruct (_ =? _)%N; [by destruct target|].
    destruct (textures g !! texture) as [t|] eqn:Hl; [|done].
    destruct (tex_target t) eqn:Htt; [destruct (decide _); [by destruct target|done]|].
    destruct target;
      (eapply (Hins _ texture t (MkTexture (Some _) (tex_storage t) (tex_image t)) Hl);
       [done|intros []; exact Htt|reflexivity]).
  - unfold specify_texture. destruct (_ || _); [done|].
    destruct (textures g !! _) as [t|] eqn:Hl; [|done].
    intros H. unfold is_texture in *. cbn.
    destruct (negb _); [|done]. cbn in *.
    destruct (decide (bound_texture g target = n)) as [<-|Hne].
    + rewrite lookup_insert_eq. by rewrite Hl in H.
    + by rewrite lookup_insert_ne.
  - destruct (_ <=? _); [done|].
    unfold specify_texture. destruct (_ || _); [done|].
    destruct (textures g !! _) as [t|] eqn:Hl; [|done].
    intros H. unfold is_texture in *. cbn.
    destruct (negb _); [|done]. cbn in *.
    destruct (decide (bound_texture g target = n)) as [<-|Hne].
    + rewrite lookup_insert_eq. by rewrite Hl in H.
    + by rewrite lookup_insert_ne.
Qed.

(** The same for renderbuffers. *)
Lemma exec_renderbuffer_names c g :
  names_renderbuffers c = false → is_render c = false →
  dom (renderbuffers (gl_exec c g)) = dom (renderbuffers g).
Proof.
  intros Hn Hr. destruct (touches_renderbuffers c) eqn:Ht;
    [|by rewrite exec_renderbuffers].
  destruct c; try discriminate; unfold gl_exec.
  - unfold bind_renderbuffer. destruct (_ =? _)%N; [done|].
    destruct (renderbuffers g !! renderbuffer) as [r|] eqn:Hl; [|done].
    cbn. apply dom_insert_lookup_L. by rewrite Hl.
  - unfold renderbuffer_storage. destruct (_ || _); [done|].
    destruct (renderbuffers g !! _) as [r|] eqn:Hl; [|done].
    cbn. apply dom_insert_lookup_L. by rewrite Hl.
  - unfold renderbuffer_storage. destruct (_ || _); [done|].
    destruct (renderbuffers g !! _) as [r|] eqn:Hl; [|done].
    cbn. apply dom_insert_lookup_L. by rewrite Hl.
Qed.

Lemma exec_is_renderbuffer c g n :
  names_renderbuffers c = false → is_render c = false →
  is_renderbuffer g n = true → is_renderbuffer (gl_exec c g) n = true.
Proof.
  intros Hn Hr. destruct (touches_renderbuffers c) eqn:Ht;
    [|unfold is_renderbuffer; by rewrite exec_renderbuffers].
  destruct c; try discriminate; unfold gl_exec.
  - unfold bind_renderbuffer. destruct (_ =? _)%N; [done|].
    destruct (renderbuffers g !! renderbuffer) as [r|] eqn:Hl; [|done].
    unfold is_renderbuffer. cbn. destruct (negb _); [|done]. cbn.
    destruct (decide (renderbuffer = n)) as [->|Hne].
    + by rewrite lookup_insert_eq.
    + by rewrite lookup_insert_ne.
  - unfold renderbuffer_storage. destruct (_ || _); [done|].
    destruct (renderbuffers g !! _) as [r|] eqn:Hl; [|done].
    unfold is_renderbuffer. cbn. destruct (negb _); [|done]. cbn.
    destruct (decide (renderbuffer_binding g = n)) as [<-|Hne].
    + rewrite lookup_insert_eq. by rewrite Hl.
    + by rewrite lookup_insert_ne.
  - unfold renderbuffer_storage. destruct (_ || _); [done|].
    destruct (renderbuffers g !! _) as [r|] eqn:Hl; [|done].
    unfold is_renderbuffer. cbn. destruct (negb _); [|done]. cbn.
    destruct (decide (renderbuffer_binding g = n)) as [<-|Hne].
    + rewrite lookup_insert_eq. by rewrite Hl.
    + by rewrite lookup_insert_ne.
Qed.

(** A name that was generated becomes an object when it is first bound. *)
Lemma gen_bind_is_texture target n g :
  n ≠ 0%N →
  is_texture (gl_exec (glBindTexture target n) (gl_exec (glGenTextures n) g)) n = true.
Proof.
  intros Hn. unfold gl_exec, bind_texture. cbn.
  apply N.eqb_neq in Hn as Hn'. rewrite Hn'. rewrite lookup_insert_eq. cbn.
  unfold is_texture. rewrite Hn'. destruct target; cbn; by rewrite lookup_insert_eq.
Qed.

Lemma gen_bind_is_renderbuffer n g :
  n ≠ 0%N →
  is_renderbuffer (gl_exec (glBindRenderbuffer n) (gl_exec (glGenRenderbuffers n) g)) n
  = true.
Proof.
  intros Hn. unfold gl_exec, bind_renderbuffer. cbn.
  apply N.eqb_neq in Hn as Hn'. rewrite Hn'. rewrite lookup_insert_eq. cbn.
  unfold is_renderbuffer. rewrite Hn'. cbn. by rewrite lookup_insert_eq.
Qed.

End Names.

(** ** Recreating the framebuffer *)
Section Recreate.
Context {FO : FloatOps} {IM : ImageType} {RA : Rasteriser}.
Context {CA : CameraOps} {PF : Platform} {SC : Scene}.

Lemma trace_do_call c a : trace (do_call c a) = trace a ++ [c].
Proof. reflexivity. Qed.

Lemma release_texture_names g n :
  n = 0%N ∨ is_texture g n = true →
  dom (textures (foldl (λ g c, gl_exec c g) g (release_texture g n)))
  = dom (textures g) ∖ held n ∧ held n ⊆ dom (textures g).
Proof.
  unfold release_texture. intros [->|H].
  - rewrite held_zero. cbn. split; [by rewrite difference_empty_L|set_solver].
  - rewrite H. cbn. unfold gl_exec. cbn. rewrite delete_texture_names. split; [done|].
    unfold is_texture in H. apply andb_prop in H as [Hn H].
    rewrite held_nonzero by (intros ->; discriminate).
    destruct (textures g !! n) eqn:Hl; [|discriminate].
    apply singleton_subseteq_l, elem_of_dom. by rewrite Hl.
Qed.

Lemma release_renderbuffer_names g n :
  n = 0%N ∨ is_renderbuffer g n = true →
  dom (renderbuffers (foldl (λ g c, gl_exec c g) g (release_renderbuffer g n)))
  = dom (renderbuffers g) ∖ held n ∧ held n ⊆ dom (renderbuffers g).
Proof.
  unfold release_renderbuffer. intros [->|H].
  - rewrite held_zero. cbn. split; [by rewrite difference_empty_L|set_solver].
  - rewrite H. cbn. unfold gl_exec. cbn. rewrite delete_renderbuffer_names. split; [done|].
    unfold is_renderbuffer in H. apply andb_prop in H as [Hn H].
    rewrite held_nonzero by (intros ->; discriminate).
    destruct (renderbuffers g !! n) eqn:Hl; [|discriminate].
    apply singleton_subseteq_l, elem_of_dom. by rewrite Hl.
Qed.

Lemma gen_texture_names n g :
  dom (textures (gl_exec (glGenTextures n) g)) = {[n]} ∪ dom (textures g).
Proof. unfold gl_exec. cbn. apply dom_insert_L. Qed.

Lemma gen_renderbuffer_names n g :
  dom (renderbuffers (gl_exec (glGenRenderbuffers n) g)) = {[n]} ∪ dom (renderbuffers g).
Proof. unfold gl_exec. cbn. apply dom_insert_L. Qed.

Lemma renderTarget_set n a : renderTarget (set_renderTarget n a) = n.
Proof. reflexivity. Qed.
Lemma gl_set_renderTarget n a : gl (set_renderTarget n a) = gl a.
Proof. reflexivity. Qed.
Lemma trace_set_renderTarget n a : trace (set_renderTarget n a) = trace a.
Proof. reflexivity. Qed.
Lemma depthStencil_set n a : depthStencil (set_depthStencil n a) = n.
Proof. reflexivity. Qed.
Lemma gl_set_depthStencil n a : gl (set_depthStencil n a) = gl a.
Proof. reflexivity. Qed.
Lemma trace_set_depthStencil n a : trace (set_depthStencil n a) = trace a.
Proof. reflexivity. Qed.

(** The colour block: the texture behind [renderTarget] is released, a name
    that is not in use is generated and becomes a texture. *)
Lemma createFramebuffer_color_spec w h m a :
  renderTarget a = 0%N ∨ is_texture (gl a) (renderTarget a) = true →
  ∃ a', createFramebuffer_color w h m a = Some (tt, a') ∧
    renderTarget a' ≠ 0%N ∧
    (renderTarget a' ∉ dom (textures (gl a)) ∖ held (renderTarget a)) ∧
    held (renderTarget a) ⊆ dom (textures (gl a)) ∧
    dom (textures (gl a'))
    = {[renderTarget a']} ∪ (dom (textures (gl a)) ∖ held (renderTarget a)) ∧
    is_texture (gl a') (renderTarget a') = true ∧
    List.filter is_image_allocation (trace a')
    = List.filter is_image_allocation (trace a)
      ++ (release_texture (gl a) (renderTarget a)
      ++ [glGenTextures (renderTarget a'); color_image w h m]).
Proof.
  intros H. pose proof (release_texture_names _ _ H) as [Hdom Hsub].
  unfold createFramebuffer_color, glGenTextures1, color_image.
  unfold release_texture in *.
  assert (is_texture (gl a) (renderTarget a)
          = negb (renderTarget a =? 0)%N) as Ht.
  { destruct H as [->|H]; [reflexivity|]. rewrite H. unfold is_texture in H.
    by apply andb_prop in H as [-> _]. }
  prog. rewrite Ht in *.
  destruct (N.eqb_spec (renderTarget a) 0) as [H0|H0]; cbn in Hdom |- *.
  all: [> rewrite H0 in Hdom, Hsub |- *; cbn; prog | ].
  all: destruct (1 <? m); (eexists; split; [reflexivity|]).
  all: repeat (progress rewrite ?renderTarget_do_call, ?renderTarget_set, ?gl_do_call,
                 ?gl_set_renderTarget).
  all: repeat first
         [ rewrite (exec_texture_names (glFramebufferTexture2D _ _ _)) by reflexivity
         | rewrite (exec_texture_names (glTexImage2DMultisample _ _ _ _ _)) by reflexivity
         | rewrite (exec_texture_names (glTexImage2D _ _ _ _)) by reflexivity
         | rewrite (exec_texture_names (glTexParameteri_LINEAR _ _)) by reflexivity
         | rewrite (exec_texture_names (glBindTexture _ _)) by reflexivity ].
  all: rewrite ?gen_texture_names; rewrite <- ?Hdom.
  all: (split; [apply gen_name_nonzero|]).
  all: (split; [apply gen_name_fresh|]).
  all: (split; [exact Hsub|]).
  all: (split; [reflexivity|]).
  all: split; [repeat (lazymatch goal with
                       | |- is_texture (gl_exec (glBindTexture _ _) _) _ = _ => fail
                       | _ => apply exec_is_texture; [reflexivity|reflexivity|]
                       end);
               apply gen_bind_is_texture, gen_name_nonzero|].
  all: rewrite ?trace_do_call, ?trace_set_renderTarget, ?trace_do_call,
         ?trace_set_renderTarget, ?trace_do_call, ?filter_app;
    cbn; rewrite <- ?app_assoc; reflexivity.
Qed.

(** The depth block, in the same way. *)
Lemma createFramebuffer_depth_spec w h m a :
  depthStencil a = 0%N ∨ is_renderbuffer (gl a) (depthStencil a) = true →
  ∃ a', createFramebuffer_depth w h m a = Some (tt, a') ∧
    depthStencil a' ≠ 0%N ∧
    (depthStencil a' ∉ dom (renderbuffers (gl a)) ∖ held (depthStencil a)) ∧
    held (depthStencil a) ⊆ dom (renderbuffers (gl a)) ∧
    dom (renderbuffers (gl a'))
    = {[depthStencil a']} ∪ (dom (renderbuffers (gl a)) ∖ held (depthStencil a)) ∧
    is_renderbuffer (gl a') (depthStencil a') = true ∧
    List.filter is_image_allocation (trace a')
    = List.filter is_image_allocation (trace a)
      ++ (release_renderbuffer (gl a) (depthStencil a)
      ++ [glGenRenderbuffers (depthStencil a'); depth_image w h m]).
Proof.
  intros H. pose proof (release_renderbuffer_names _ _ H) as [Hdom Hsub].
  unfold createFramebuffer_depth, glGenRenderbuffers1, depth_image.
  unfold release_renderbuffer in *.
  assert (is_renderbuffer (gl a) (depthStencil a)
          = negb (depthStencil a =? 0)%N) as Ht.
  { destruct H as [->|H]; [reflexivity|]. rewrite H. unfold is_renderbuffer in H.
    by apply andb_prop in H as [-> _]. }
  prog. rewrite Ht in *.
  destruct (N.eqb_spec (depthStencil a) 0) as [H0|H0]; cbn in Hdom |- *.
  all: [> rewrite H0 in Hdom, Hsub |- *; cbn; prog | ].
  all: destruct (1 <? m); (eexists; split; [reflexivity|]).
  all: repeat (progress rewrite ?depthStencil_do_call, ?depthStencil_set, ?gl_do_call,
                 ?gl_set_depthStencil).
  all: repeat first
         [ rewrite (exec_renderbuffer_names (glFramebufferRenderbuffer _ _)) by reflexivity
         | rewrite (exec_renderbuffer_names (glRenderbufferStorageMultisample _ _ _ _))
             by reflexivity
         | rewrite (exec_renderbuffer_names (glRenderbufferStorage _ _ _)) by reflexivity
         | rewrite (exec_renderbuffer_names (glBindRenderbuffer _)) by reflexivity ].
  all: rewrite ?gen_renderbuffer_names; rewrite <- ?Hdom.
  all: (split; [apply gen_name_nonzero|]).
  all: (split; [apply gen_name_fresh|]).
  all: (split; [exact Hsub|]).
  all: (split; [reflexivity|]).
  all: split; [repeat (lazymatch goal with
                       | |- is_renderbuffer (gl_exec (glBindRenderbuffer _) _) _ = _ => fail
                       | _ => apply exec_is_renderbuffer; [reflexivity|reflexivity|]
                       end);
               apply gen_bind_is_renderbuffer, gen_name_nonzero|].
  all: rewrite ?trace_do_call, ?trace_set_depthStencil, ?trace_do_call,
         ?trace_set_depthStencil, ?trace_do_call, ?filter_app;
    cbn; rewrite <- ?app_assoc; reflexivity.
Qed.

Lemma is_texture_ext g g' n : textures g' = textures g → is_texture g' n = is_texture g n.
Proof. unfold is_texture. by intros ->. Qed.

Lemma is_renderbuffer_ext g g' n :
  renderbuffers g' = renderbuffers g → is_renderbuffer g' n = is_renderbuffer g n.
Proof. unfold is_renderbuffer. by intros ->. Qed.

End Recreate.

(** Programs whose commands all leave a part of the context alone, and
    programs that issue no command of a class. *)
Ltac preserve_store lem :=
  repeat lazymatch goal with
  | |- preserves _ (call _) =>
      apply preserves_call; intros; cbv beta; rewrite gl_do_call; apply lem; reflexivity
  | _ => preserve_step
  end.
Ltac preserve_trace :=
  repeat lazymatch goal with
  | |- preserves _ (call _) =>
      apply preserves_call; intros; cbv beta; rewrite trace_do_call, filter_app;
      apply app_nil_r
  | _ => preserve_step
  end.

Section RecreateWhole.
Context {FO : FloatOps} {IM : ImageType} {RA : Rasteriser}.
Context {CA : CameraOps} {PF : Platform} {SC : Scene}.

(** What the four blocks of [createFramebuffer] leave alone. *)
Lemma createFramebuffer_object_keeps :
  preserves renderTarget createFramebuffer_object ∧
  preserves depthStencil createFramebuffer_object ∧
  preserves (λ a, textures (gl a)) createFramebuffer_object ∧
  preserves (λ a, renderbuffers (gl a)) createFramebuffer_object ∧
  preserves (λ a, List.filter is_image_allocation (trace a)) createFramebuffer_object.
Proof.
  unfold createFramebuffer_object, glGenFramebuffers1. repeat split.
  - preserve.
  - preserve.
  - preserve_store exec_textures.
  - preserve_store exec_renderbuffers.
  - preserve_trace.
Qed.

Lemma createFramebuffer_check_keeps :
  preserves renderTarget createFramebuffer_check ∧
  preserves depthStencil createFramebuffer_check ∧
  preserves (λ a, textures (gl a)) createFramebuffer_check ∧
  preserves (λ a, renderbuffers (gl a)) createFramebuffer_check ∧
  preserves (λ a, List.filter is_image_allocation (trace a)) createFramebuffer_check.
Proof.
  unfold createFramebuffer_check. repeat split.
  - preserve.
  - preserve.
  - preserve_store exec_textures.
  - preserve_store exec_renderbuffers.
  - preserve_trace.
Qed.

Lemma createFramebuffer_color_keeps w h m :
  preserves depthStencil (createFramebuffer_color w h m) ∧
  preserves (λ a, renderbuffers (gl a)) (createFramebuffer_color w h m).
Proof.
  unfold createFramebuffer_color, glGenTextures1. split.
  - preserve.
  - preserve_store exec_renderbuffers.
Qed.

Lemma createFramebuffer_depth_keeps w h m :
  preserves renderTarget (createFramebuffer_depth w h m) ∧
  preserves (λ a, textures (gl a)) (createFramebuffer_depth w h m).
Proof.
  unfold createFramebuffer_depth, glGenRenderbuffers1. split.
  - preserve.
  - preserve_store exec_textures.
Qed.

Lemma createFramebuffer_object_returns : always_returns createFramebuffer_object.
Proof. unfold createFramebuffer_object, glGenFramebuffers1. returns. Qed.

Lemma createFramebuffer_check_returns : always_returns createFramebuffer_check.
Proof. unfold createFramebuffer_check. returns. Qed.

(** [createFramebuffer] as a whole, from a state whose two handles are zero
    or name objects of their type. *)
Lemma createFramebuffer_spec w h m a :
  handles_valid a →
  ∃ a', createFramebuffer w h m a = Some (tt, a') ∧
    handles_valid a' ∧
    renderTarget a' ≠ 0%N ∧
    (renderTarget a' ∉ dom (textures (gl a)) ∖ held (renderTarget a)) ∧
    held (renderTarget a) ⊆ dom (textures (gl a)) ∧
    dom (textures (gl a'))
    = {[renderTarget a']} ∪ (dom (textures (gl a)) ∖ held (renderTarget a)) ∧
    depthStencil a' ≠ 0%N ∧
    (depthStencil a' ∉ dom (renderbuffers (gl a)) ∖ held (depthStencil a)) ∧
    held (depthStencil a) ⊆ dom (renderbuffers (gl a)) ∧
    dom (renderbuffers (gl a'))
    = {[depthStencil a']} ∪ (dom (renderbuffers (gl a)) ∖ held (depthStencil a)) ∧
    List.filter is_image_allocation (trace a')
    = List.filter is_image_allocation (trace a)
      ++ (release_texture (gl a) (renderTarget a)
          ++ [glGenTextures (renderTarget a'); color_image w h m])
      ++ (release_renderbuffer (gl a) (depthStencil a)
          ++ [glGenRenderbuffers (depthStencil a'); depth_image w h m]).
Proof.
  intros [Hc Hd]. unfold createFramebuffer.
  destruct (createFramebuffer_object_returns a) as [[[] a1] H1].
  destruct createFramebuffer_object_keeps as (O1 & O2 & O3 & O4 & O5).
  specialize (O1 _ _ _ H1). specialize (O2 _ _ _ H1). specialize (O3 _ _ _ H1).
  specialize (O4 _ _ _ H1). specialize (O5 _ _ _ H1). cbv beta in *.
  rewrite (bind_run _ _ _ _ _ H1).
  destruct (createFramebuffer_color_spec w h m a1) as (a2 & H2 & C1 & C2 & C3 & C4 & C5 & C6).
  { rewrite O1, (is_texture_ext (gl a) (gl a1)) by done. exact Hc. }
  destruct (createFramebuffer_color_keeps w h m) as (K1 & K2).
  specialize (K1 _ _ _ H2). specialize (K2 _ _ _ H2). cbv beta in *.
  rewrite (bind_run _ _ _ _ _ H2).
  destruct (createFramebuffer_depth_spec w h m a2) as (a3 & H3 & D1 & D2 & D3 & D4 & D5 & D6).
  { rewrite K1, O2, (is_renderbuffer_ext (gl a) (gl a2)) by congruence. exact Hd. }
  destruct (createFramebuffer_depth_keeps w h m) as (J1 & J2).
  specialize (J1 _ _ _ H3). specialize (J2 _ _ _ H3). cbv beta in *.
  rewrite (bind_run _ _ _ _ _ H3).
  destruct (createFramebuffer_check_returns a3) as [[[] a4] H4].
  destruct createFramebuffer_check_keeps as (E1 & E2 & E3 & E4 & E5).
  specialize (E1 _ _ _ H4). specialize (E2 _ _ _ H4). specialize (E3 _ _ _ H4).
  specialize (E4 _ _ _ H4). specialize (E5 _ _ _ H4). cbv beta in *.
  exists a4. split; [exact H4|].
  unfold release_texture, release_renderbuffer, handles_valid in *.
  rewrite E1, E2, E3, E4, E5, J1, J2, D6, C6, O5.
  rewrite K1, K2, O1, O2, O3, O4 in *.
  rewrite (is_texture_ext (gl a) (gl a1)) by done.
  rewrite (is_renderbuffer_ext (gl a) (gl a2)) by congruence.
  rewrite C4, D4.
  split.
  { split; right.
    - rewrite (is_texture_ext (gl a2) (gl a4)) by congruence. exact C5.
    - rewrite (is_renderbuffer_ext (gl a3) (gl a4)) by congruence. exact D5. }
  rewrite <- !app_assoc. repeat split; done.
Qed.

End RecreateWhole.
(** ** Shutdown *)
Section Shutdown.
Context {FO : FloatOps} {IM : ImageType} {RA : Rasteriser}.
Context {CA : CameraOps} {PF : Platform} {SC : Scene}.

Lemma shutDown_view_call c a :
  is_image_allocation c = false → shutDown_view (do_call c a) = shutDown_view a.
Proof.
  intros H. unfold shutDown_view. rewrite trace_do_call, filter_app. cbn.
  rewrite H, app_nil_r. reflexivity.
Qed.

Lemma shutDown_view_release l a :
  List.filter is_image_allocation (trace (do_call (glDeleteTextures l) a))
  = List.filter is_image_allocation (trace a) ++ [glDeleteTextures l].
Proof. rewrite trace_do_call, filter_app. reflexivity. Qed.
End Shutdown.

Ltac preserve_view :=
  repeat lazymatch goal with
  | |- preserves _ (call _) =>
      apply preserves_call; intros; apply shutDown_view_call; reflexivity
  | _ => preserve_step
  end.

Section ShutdownRun.
Context {FO : FloatOps} {IM : ImageType} {RA : Rasteriser}.
Context {CA : CameraOps} {PF : Platform} {SC : Scene}.

(** One statement at a time. *)
Lemma step_get {A B} (f : App → A) (k : A → Prog B) a y a' :
  (get f ≫= k) a = Some (y, a') → k (f a) a = Some (y, a').
Proof. exact id. Qed.

Lemma step_keep {A B} (m : Prog A) (k : A → Prog B) a y a' v :
  shutDown_view a = v → preserves shutDown_view m →
  (m ≫= k) a = Some (y, a') →
  ∃ x a1, shutDown_view a1 = v ∧ k x a1 = Some (y, a').
Proof.
  intros V Hm (x & a1 & H1 & H)%bind_inv. exists x, a1. split; [|done].
  rewrite <- V. eapply Hm, H1.
Qed.

Lemma step_release {B} l (k : unit → Prog B) a y a' rt ds lt cs :
  shutDown_view a = (rt, ds, lt, cs) →
  (call (glDeleteTextures l) ≫= k) a = Some (y, a') →
  ∃ a1, shutDown_view a1 = (rt, ds, lt, cs ++ [glDeleteTextures l]) ∧
        k tt a1 = Some (y, a').
Proof.
  intros V H. exists (do_call (glDeleteTextures l) a). split; [|exact H].
  unfold shutDown_view in *. rewrite shutDown_view_release.
  injection V as <- <- <- <-. reflexivity.
Qed.

Lemma delete_mesh_view q : preserves shutDown_view (delete_mesh q).
Proof. unfold delete_mesh. preserve_view. Qed.

(** [shutDown] releases three lists of names, all of them with
    [glDeleteTextures], and keeps the handle of the depth buffer. *)
Lemma shutDown_run a a' :
  shutDown a = Some (tt, a') →
  depthStencil a' = depthStencil a ∧
  List.filter is_image_allocation (trace a')
  = List.filter is_image_allocation (trace a)
    ++ [glDeleteTextures [renderTarget a]; glDeleteTextures [depthStencil a];
        glDeleteTextures (loadedTextures a <$> all_textures)].
Proof.
  unfold shutDown. intros H.
  assert (shutDown_view a
          = (renderTarget a, depthStencil a, loadedTextures a,
             List.filter is_image_allocation (trace a))) as V by reflexivity.
  eapply step_keep in H as (_ & a1 & V1 & H); [|exact V|preserve_view].
  apply step_get in H; cbv beta in H.
  eapply step_keep in H as (_ & a2 & V2 & H); [|exact V1|apply delete_mesh_view].
  eapply step_keep in H as (_ & a3 & V3 & H); [|exact V2|preserve_view].
  apply step_get in H; cbv beta in H.
  eapply step_keep in H as (_ & a4 & V4 & H); [|exact V3|apply delete_mesh_view].
  eapply step_keep in H as (_ & a5 & V5 & H); [|exact V4|preserve_view].
  apply step_get in H; cbv beta in H.
  eapply step_keep in H as (_ & a6 & V6 & H); [|exact V5|preserve_view].
  apply step_get in H; cbv beta in H.
  assert (renderTarget a6 = renderTarget a) as E by (by injection V6). rewrite E in H. clear E.
  eapply step_release in H as (a7 & V7 & H); [|exact V6].
  apply step_get in H; cbv beta in H.
  assert (depthStencil a7 = depthStencil a) as E by (by injection V7). rewrite E in H. clear E.
  eapply step_release in H as (a8 & V8 & H); [|exact V7].
  apply step_get in H; cbv beta in H.
  eapply step_keep in H as (_ & a9 & V9 & H); [|exact V8|preserve_view].
  apply step_get in H; cbv beta in H.
  eapply step_keep in H as (_ & a10 & V10 & H); [|exact V9|preserve_view].
  apply step_get in H; cbv beta in H.
  assert (loadedTextures a10 = loadedTextures a) as E by (by injection V10). rewrite E in H. clear E.
  eapply step_release in H as (a11 & V11 & H); [|exact V10].
  assert (shutDown_view a' = shutDown_view a11) as W.
  { revert H. generalize a11 tt a'.
    change (preserves shutDown_view (modify (set_mainWindow_handle false))).
    preserve_view. }
  rewrite V11 in W. injection W as _ -> _ ->. split; [reflexivity|].
  rewrite <- !app_assoc. reflexivity.
Qed.

End ShutdownRun.
(** ** The framebuffer resources, from creation to shutdown *)
Section Resources.
Context {FO : FloatOps} {IM : ImageType} {RA : Rasteriser}.
Context {CA : CameraOps} {PF : Platform} {SC : Scene}.

(** Releasing the names in [H] and taking one new name. *)
Lemma size_recreated (X H : gset N) (n : N) :
  n ∉ X ∖ H → H ⊆ X → (size ({[n]} ∪ X ∖ H) + size H = S (size X))%nat.
Proof.
  intros Hn Hsub. rewrite size_union by (by apply disjoint_singleton_l).
  rewrite size_singleton, size_difference by done.
  apply subseteq_size in Hsub. lia.
Qed.

(** C2. From a state in which the two handles are zero or name objects of
    their type (as in the initial state and after every call of this
    function), [createFramebuffer] returns for every width, height and sample
    count, and again leaves two such handles.  The texture behind
    [renderTarget] and the renderbuffer behind [depthStencil], when there is
    one, is deleted before the new name is generated and given its image:
    these are the only allocation commands issued, in this order.  The
    textures alive afterwards are the ones alive before, without the old
    render target, and one name that was not in use; the same holds for the
    renderbuffers and the depth buffer.  Hence the number of live objects of
    each kind grows by one on first creation and stays the same on
    recreation. *)
Theorem createFramebuffer_no_leak (width height MSAA : Z) (a : App) :
  handles_valid a →
  ∃ a', createFramebuffer width height MSAA a = Some (tt, a') ∧
    handles_valid a' ∧
    renderTarget a' ≠ 0%N ∧
    (renderTarget a' ∉ dom (textures (gl a)) ∖ held (renderTarget a)) ∧
    dom (textures (gl a'))
    = {[renderTarget a']} ∪ (dom (textures (gl a)) ∖ held (renderTarget a)) ∧
    (size (dom (textures (gl a'))) + size (held (renderTarget a))
     = S (size (dom (textures (gl a)))))%nat ∧
    depthStencil a' ≠ 0%N ∧
    (depthStencil a' ∉ dom (renderbuffers (gl a)) ∖ held (depthStencil a)) ∧
    dom (renderbuffers (gl a'))
    = {[depthStencil a']} ∪ (dom (renderbuffers (gl a)) ∖ held (depthStencil a)) ∧
    (size (dom (renderbuffers (gl a'))) + size (held (depthStencil a))
     = S (size (dom (renderbuffers (gl a)))))%nat ∧
    List.filter is_image_allocation (trace a')
    = List.filter is_image_allocation (trace a)
      ++ (release_texture (gl a) (renderTarget a)
          ++ [glGenTextures (renderTarget a'); color_image width height MSAA])
      ++ (release_renderbuffer (gl a) (depthStencil a)
          ++ [glGenRenderbuffers (depthStencil a'); depth_image width height MSAA]).
Proof.
  intros Hv.
  destruct (createFramebuffer_spec width height MSAA a Hv)
    as (a' & Hrun & Hv' & C1 & C2 & C3 & C4 & D1 & D2 & D3 & D4 & Htr).
  exists a'. rewrite C4, D4.
  repeat lazymatch goal with |- _ ∧ _ => split end; try done; by apply size_recreated.
Qed.

(** [msaaLevel] is left alone by [createFramebuffer]. *)
Lemma createFramebuffer_msaaLevel w h m : preserves msaaLevel (createFramebuffer w h m).
Proof.
  unfold createFramebuffer, createFramebuffer_object, createFramebuffer_color,
    createFramebuffer_depth, createFramebuffer_check, glGenFramebuffers1,
    glGenTextures1, glGenRenderbuffers1.
  preserve.
Qed.

(** What a key does to [msaaLevel]: only F1 changes it, to 1 when it is
    above 1 and to [MSAA_SAMPLES] otherwise. *)
Lemma keyCallback_msaaLevel key action a a' :
  keyCallback key action a = Some (tt, a') →
  msaaLevel a' =
    if pressed key action GLFW_KEY_F1
    then (if 1 <? msaaLevel a then 1 else MSAA_SAMPLES)
    else msaaLevel a.
Proof.
  unfold keyCallback. intros ([] & a1 & H1 & ([] & a2 & H2 & H3)%bind_inv)%bind_inv.
  assert (msaaLevel a1 = msaaLevel a) as E1.
  { revert H1. generalize a tt a1.
    change (preserves msaaLevel
              (when (pressed key action GLFW_KEY_ESCAPE) (modify (set_windowShouldClose true)))).
    preserve. }
  assert (msaaLevel a' = msaaLevel a2) as E3.
  { revert H3. generalize a2 tt a'.
    match goal with |- ∀ a x a', ?m a = Some (x, a') → _ =>
      change (preserves msaaLevel m) end.
    unfold setProjection. preserve. }
  rewrite E3, <- E1. clear H1 H3 E1 E3.
  destruct (pressed key action GLFW_KEY_F1); [|by injection H2 as <-].
  cbn [when] in H2. apply step_get in H2; cbv beta in H2.
  apply bind_inv in H2 as ([] & a3 & H4 & H2).
  do 3 (apply step_get in H2; cbv beta in H2).
  apply createFramebuffer_msaaLevel in H2. rewrite H2.
  destruct (1 <? msaaLevel a1); by injection H4 as <-.
Qed.

Lemma dispatch_msaa_valid e a a' :
  dispatch e a = Some (tt, a') → msaa_valid a → msaa_valid a'.
Proof.
  destruct e; unfold dispatch.
  - intros H. assert (msaaLevel a' = msaaLevel a) as E; [|unfold msaa_valid; by rewrite E].
    revert H. generalize a tt a'.
    change (preserves msaaLevel (resizeCallback width height)).
    unfold resizeCallback, setProjection. preserve. apply createFramebuffer_msaaLevel.
  - intros H%keyCallback_msaaLevel Hv. unfold msaa_valid in *. rewrite H.
    destruct (pressed _ _ _); [|done]. destruct (1 <? msaaLevel a); auto.
  - intros H. assert (msaaLevel a' = msaaLevel a) as E; [|unfold msaa_valid; by rewrite E].
    revert H. generalize a tt a'.
    change (preserves msaaLevel (mouseMoveCallback x y)).
    unfold mouseMoveCallback. preserve.
Qed.

(** The sample count that the two callers pass on is the current
    [msaaLevel]. *)
Lemma resizeCallback_run width height a :
  resizeCallback width height a
  = createFramebuffer width height (msaaLevel a)
      (set_camera
         (SetProjection (fov a) (float_of_int width / float_of_int height)%F
            nearClipPlane farClipPlane (camera a))
         (do_call (glViewport 0 0 width height)
            (set_mainWindow_height height (set_mainWindow_width width a)))).
Proof. reflexivity. Qed.

(** C8, as the code has it.  [createFramebuffer] checks none of its
    arguments: from a state with valid handles it returns for every width,
    height and sample count, releases the render target and the depth buffer,
    generates new names and hands the three arguments unchanged to the
    commands that allocate the two images (the multisample commands when the
    sample count is above 1).  What keeps the sample count to 1 or
    [MSAA_SAMPLES] is the callers: they pass [msaaLevel], which starts at
    [MSAA_SAMPLES] and is 1 or [MSAA_SAMPLES] after every event. *)
Theorem createFramebuffer_checks_nothing (width height MSAA : Z) (a : App) :
  handles_valid a →
  (∃ a', createFramebuffer width height MSAA a = Some (tt, a') ∧
     List.filter is_image_allocation (trace a')
     = List.filter is_image_allocation (trace a)
       ++ (release_texture (gl a) (renderTarget a)
           ++ [glGenTextures (renderTarget a'); color_image width height MSAA])
       ++ (release_renderbuffer (gl a) (depthStencil a)
           ++ [glGenRenderbuffers (depthStencil a'); depth_image width height MSAA])) ∧
  msaa_valid initial_app ∧
  (∀ e a1 a2, dispatch e a1 = Some (tt, a2) → msaa_valid a1 → msaa_valid a2) ∧
  (∀ a1, resizeCallback width height a1
         = createFramebuffer width height (msaaLevel a1)
             (set_camera
                (SetProjection (fov a1) (float_of_int width / float_of_int height)%F
                   nearClipPlane farClipPlane (camera a1))
                (do_call (glViewport 0 0 width height)
                   (set_mainWindow_height height (set_mainWindow_width width a1))))).
Proof.
  intros Hv.
  destruct (createFramebuffer_spec width height MSAA a Hv)
    as (a' & Hrun & _ & _ & _ & _ & _ & _ & _ & _ & _ & Htr).
  split; [by exists a'|]. split; [by right|].
  split; [apply dispatch_msaa_valid|apply resizeCallback_run].
Qed.

Lemma shutDown_renderbuffers : preserves (λ a, renderbuffers (gl a)) shutDown.
Proof. unfold shutDown, delete_mesh. preserve_store exec_renderbuffers. Qed.

(** C9, as the code has it.  [shutDown] returns in every state; the
    allocation commands it issues are three [glDeleteTextures]: for the
    render target, for the name in [depthStencil], and for the loaded
    textures.  The name in [depthStencil] belongs to a renderbuffer, which
    [glDeleteTextures] does not reach: no renderbuffer is released, the store
    of renderbuffers is the same after [shutDown] as before, and the depth
    buffer is a renderbuffer afterwards exactly when it was one before. *)
Theorem shutDown_keeps_depth_renderbuffer (a : App) :
  ∃ a', shutDown a = Some (tt, a') ∧
    List.filter is_image_allocation (trace a')
    = List.filter is_image_allocation (trace a)
      ++ [glDeleteTextures [renderTarget a]; glDeleteTextures [depthStencil a];
          glDeleteTextures (loadedTextures a <$> all_textures)] ∧
    depthStencil a' = depthStencil a ∧
    renderbuffers (gl a') = renderbuffers (gl a) ∧
    is_renderbuffer (gl a') (depthStencil a') = is_renderbuffer (gl a) (depthStencil a).
Proof.
  destruct (shutDown_returns a) as [[[] a'] H]. exists a'.
  destruct (shutDown_run _ _ H) as [Hd Htr].
  pose proof (shutDown_renderbuffers _ _ _ H) as Hr. cbv beta in Hr.
  repeat split; try done. rewrite Hd. by apply is_renderbuffer_ext.
Qed.

End Resources.
(** ** The transform block *)
Section TransformBlock.
Context {FO : FloatOps} {IM : ImageType} {RA : Rasteriser}.
Context {CA : CameraOps} {PF : Platform} {SC : Scene}.
Import glm.

(** [store_floats] writes at [off], [off + 4], ... and nowhere else. *)
Lemma store_floats_other (data : list float) off m o :
  (∀ k, (k < length data)%nat → o ≠ off + 4 * Z.of_nat k) →
  store_floats off data m !! o = m !! o.
Proof.
  revert off m. induction data as [|x data IH]; intros off m H; [reflexivity|].
  cbn [store_floats]. rewrite IH.
  - apply lookup_insert_ne. specialize (H 0%nat). cbn in H. lia.
  - intros k Hk. specialize (H (S k)). cbn [length] in H. lia.
Qed.

Lemma store_floats_lookup (data : list float) off m k :
  (k < length data)%nat →
  store_floats off data m !! (off + 4 * Z.of_nat k) = data !! k.
Proof.
  revert off m k. induction data as [|x data IH]; intros off m k Hk; [cbn in Hk; lia|].
  cbn [store_floats]. destruct k as [|k].
  - rewrite store_floats_other by (intros; lia).
    replace (off + 4 * Z.of_nat 0) with off by lia. apply lookup_insert_eq.
  - replace (off + 4 * Z.of_nat (S k)) with (off + 4 + 4 * Z.of_nat k) by lia.
    cbn [length] in Hk. rewrite IH by lia. reflexivity.
Qed.

(** A write into the bound buffer that fits. *)
Lemma buffer_sub_data_bound off size data g b :
  uniform_buffer_binding g ≠ 0%N →
  buffers g !! uniform_buffer_binding g = Some b →
  buf_mapped b = false → 0 ≤ off → 0 ≤ size → off + size ≤ buf_size b →
  uniform_buffer_binding (buffer_sub_data off size data g) = uniform_buffer_binding g ∧
  buffers (buffer_sub_data off size data g) !! uniform_buffer_binding g
  = Some (MkBuffer (buf_created b) (buf_size b)
            (store_floats off (take (Z.to_nat (size / 4)) data) (buf_data b)) false).
Proof.
  intros Hn Hb Hm H1 H2 H3. unfold buffer_sub_data, bound_buffer.
  apply N.eqb_neq in Hn. rewrite Hn, Hb, Hm. unfold buffer_write.
  assert ((0 <=? off) && (0 <=? size) && (off + size <=? buf_size b) = true) as ->.
  { rewrite !andb_true_iff, !Z.leb_le. lia. }
  unfold put_bound_buffer. cbn. rewrite lookup_insert_eq, Hm. done.
Qed.

Lemma updateTransformBlock_run a :
  updateTransformBlock a = Some (tt, run_calls (updateTransformBlock_calls a) a).
Proof. unfold updateTransformBlock, updateTransformBlock_calls. prog. reflexivity. Qed.

(** The transform block after [updateTransformBlock]. *)
Lemma updateTransformBlock_layout a b :
  transformBlockUBO a ≠ 0%N →
  buffers (gl a) !! transformBlockUBO a = Some b →
  buf_mapped b = false →
  sizeof_mat3x4 + sizeof_mat4x4 ≤ buf_size b →
  ∃ b', buffers (gl_run (updateTransformBlock_calls a) (gl a)) !! transformBlockUBO a
        = Some b' ∧
    buf_size b' = buf_size b ∧
    buf_data b'
    = store_floats sizeof_mat3x4 (value_ptr_mat4x4 (GetProjection (camera a)))
        (store_floats 0
           (value_ptr_mat3x4 (mat3x4_of_mat4 (transpose (GetWorldToView (camera a)))))
           (buf_data b)).
Proof.
  intros Hn Hb Hm Hsize. unfold updateTransformBlock_calls, gl_run. cbn [foldl].
  set (g1 := gl_exec (glBindBuffer (transformBlockUBO a)) (gl a)).
  assert (uniform_buffer_binding g1 = transformBlockUBO a ∧
          buffers g1 !! transformBlockUBO a
          = Some (MkBuffer true (buf_size b) (buf_data b) false)) as [B1 L1].
  { subst g1. unfold gl_exec, bind_buffer. apply N.eqb_neq in Hn. rewrite Hn, Hb.
    cbn. rewrite lookup_insert_eq, Hm. done. }
  unfold sizeof_mat3x4, sizeof_mat4x4, sizeof_float in *.
  change (3 * 4 * 4) with 48 in *. change (4 * 4 * 4) with 64 in *.
  set (d1 := value_ptr_mat3x4 _). set (d2 := value_ptr_mat4x4 _).
  destruct (buffer_sub_data_bound 0 48 d1 g1 _ ltac:(by rewrite B1)
              ltac:(by rewrite B1) eq_refl ltac:(lia) ltac:(lia) ltac:(cbn; lia))
    as [B2 L2].
  set (g2 := gl_exec (glBufferSubData 0 48 d1) g1).
  change (buffer_sub_data 0 48 d1 g1) with g2 in B2, L2. cbn in L2.
  rewrite B1 in B2, L2.
  destruct (buffer_sub_data_bound 48 64 d2 g2 _ ltac:(by rewrite B2)
              ltac:(by rewrite B2) eq_refl ltac:(lia) ltac:(lia) ltac:(cbn; lia))
    as [B3 L3].
  set (g3 := gl_exec (glBufferSubData 48 64 d2) g2).
  change (buffer_sub_data 48 64 d2 g2) with g3 in B3, L3. cbn in L3.
  rewrite B2 in L3.
  change (Z.to_nat (48 / 4)) with 12%nat in L3.
  change (Z.to_nat (64 / 4)) with 16%nat in L3.
  rewrite (take_ge d1), (take_ge d2) in L3
    by (subst d1 d2; unfold value_ptr_mat3x4, value_ptr_mat4x4, vec4_floats; cbn; lia).
  exists (MkBuffer true (buf_size b)
            (store_floats 48 d2 (store_floats 0 d1 (buf_data b))) false).
  split; [|split; reflexivity].
  rewrite <- L3. unfold gl_exec, bind_buffer. reflexivity.
Qed.

(** A frame starts with the commands of [updateTransformBlock]. *)
Lemma frame_calls_begin a q c st :
  ∃ rest, frame_calls a q c st = updateTransformBlock_calls a ++ rest.
Proof.
  unfold frame_calls, offscreen_calls, offscreen_calls_map, renderScene_begin_calls.
  rewrite <- !app_assoc. eauto.
Qed.

End TransformBlock.

(** ** The scenario of the specification: 800 by 600, four samples, ten cubes *)
Section Scenario.
#[local] Existing Instances Demo.floats Demo.images Demo.rasteriser Demo.fixed_camera
  Demo.platform Demo.ten_cubes.

(** Start-up and one frame on the demo platform, observed. *)
Lemma scenario_first_frame :
  numCubes = 10 ∧
  Demo.first_frame_report
  = Some (800, 600, 4,
          Some (Some (MkStorage 4 GL_RGB16F 800 600)),
          Some (Some (MkStorage 4 GL_DEPTH_COMPONENT32F 800 600)),
          [glDrawElementsInstanced GL_TRIANGLES 36 10],
          [(10 * sizeof_InstanceData, 120%nat)],
          Some (48 + 64,
                Some <$> [1; 0; 0; 3;  0; 1; 0; -3;  0; 0; 1; 5;
                          2; 0; 0; 0;  0; 2; 0; 0;  0; 0; 2; 0;  0; 0; 0; 1])).
Proof. split; [reflexivity|]. vm_compute. reflexivity. Qed.

End Scenario.

Section TransformBlockLayout.
Context {FO : FloatOps} {IM : ImageType} {RA : Rasteriser}.
Context {CA : CameraOps} {PF : Platform} {SC : Scene}.
Import glm.

(** C7.  When the transform block is an unmapped buffer of at least
    48 + 64 bytes, [updateTransformBlock] and every frame that is rendered
    (of which its four commands are the first, so that no clear or draw
    comes before them) leave in it: the twelve floats of the transposed
    world-to-view matrix, cut to three columns of four, at the bytes 0 to
    47, and right after them the sixteen floats of the projection matrix at the
    bytes 48 to 111; nothing else of the buffer changes.  In the scenario of
    800 by 600 pixels, four samples and ten cubes, run on the demo platform
    ([Demo.first_frame_report]: start-up and one frame), the window, the
    render target and the depth buffer have 800 by 600 pixels and four samples
    after the frame, the one instanced draw has ten instances, ten instance
    records of twelve floats were uploaded, and the transform block holds 112
    bytes: the world-to-view matrix of the demo camera, transposed, and then
    its projection matrix. *)
Theorem transform_block_layout (a : App) (b : Buffer) :
  transformBlockUBO a ≠ 0%N →
  buffers (gl a) !! transformBlockUBO a = Some b →
  buf_mapped b = false →
  sizeof_mat3x4 + sizeof_mat4x4 ≤ buf_size b →
  (sizeof_mat3x4 = 48 ∧ sizeof_mat4x4 = 64) ∧
  (∃ a' b',
     updateTransformBlock a = Some (tt, a') ∧
     trace a' = trace a ++ updateTransformBlock_calls a ∧
     buffers (gl a') !! transformBlockUBO a = Some b' ∧
     buf_size b' = buf_size b ∧
     (∀ k, (k < 12)%nat →
        buf_data b' !! (0 + 4 * Z.of_nat k)
        = value_ptr_mat3x4 (mat3x4_of_mat4 (transpose (GetWorldToView (camera a)))) !! k) ∧
     (∀ k, (k < 16)%nat →
        buf_data b' !! (48 + 4 * Z.of_nat k)
        = value_ptr_mat4x4 (GetProjection (camera a)) !! k) ∧
     (∀ o, o < 0 ∨ 112 ≤ o ∨ o `mod` 4 ≠ 0 → buf_data b' !! o = buf_data b !! o)) ∧
  (∀ a', renderScene a = Some (tt, a') →
     ∃ rest, trace a' = trace a ++ updateTransformBlock_calls a ++ rest ∧
       forallb (λ c, negb (is_render c)) (updateTransformBlock_calls a) = true) ∧
  (@numCubes Demo.ten_cubes = 10 ∧
   Demo.first_frame_report
   = Some (800, 600, 4,
           Some (Some (MkStorage 4 GL_RGB16F 800 600)),
           Some (Some (MkStorage 4 GL_DEPTH_COMPONENT32F 800 600)),
           [glDrawElementsInstanced GL_TRIANGLES 36 10],
           [(10 * sizeof_InstanceData, 120%nat)],
           Some (48 + 64,
                 Some <$> [1; 0; 0; 3;  0; 1; 0; -3;  0; 0; 1; 5;
                           2; 0; 0; 0;  0; 2; 0; 0;  0; 0; 2; 0;  0; 0; 0; 1]))).
Proof.
  intros Hn Hb Hm Hsize. split; [done|].
  split; [|split; [|exact scenario_first_frame]].
  - destruct (updateTransformBlock_layout a b Hn Hb Hm Hsize) as (b' & Hb' & Hs & Hd).
    exists (run_calls (updateTransformBlock_calls a) a), b'.
    split; [apply updateTransformBlock_run|].
    split; [apply trace_run_calls|].
    split; [by rewrite gl_run_calls|]. split; [done|].
    rewrite Hd. change sizeof_mat3x4 with 48.
    split; [|split].
    + intros k Hk. rewrite store_floats_other by (intros; lia).
      by apply store_floats_lookup.
    + intros k Hk. by apply store_floats_lookup.
    + intros o Ho. rewrite !store_floats_other; [done| |].
      * intros k Hk. change (length _) with 12%nat in Hk.
        destruct Ho as [?|[?|Ho]]; [lia|lia|]. intros ->. apply Ho.
        rewrite Z.add_0_l, Z.mul_comm. apply Z.mod_mul. lia.
      * intros k Hk. change (length _) with 16%nat in Hk.
        destruct Ho as [?|[?|Ho]]; [lia|lia|]. intros ->. apply Ho.
        replace (48 + 4 * Z.of_nat k) with ((12 + Z.of_nat k) * 4) by lia.
        apply Z.mod_mul. lia.
  - intros a' (q & c & _ & _ & _ & _ & Htr)%renderScene_inv.
    destruct (frame_calls_begin a q c (instanceData a')) as [rest Hrest].
    exists rest. rewrite Htr, Hrest. done.
Qed.

End TransformBlockLayout.
(** ** The keyboard *)
Section Capabilities.
Context {FO : FloatOps} {IM : ImageType} {RA : Rasteriser}.

(** Face culling changes only through [glEnable] and [glDisable]. *)
Lemma exec_cull_face c g :
  sets_capability c = false → cull_face (gl_exec c g) = cull_face g.
Proof.
  destruct c; unfold gl_exec; intros H; try discriminate H; try reflexivity.
  all: try (apply foldl_preserves; intros;
            unfold delete_texture, delete_renderbuffer, delete_framebuffer,
              delete_buffer, delete_vertex_array; gl_cases; reflexivity).
  all: unfold set_uniform, bind_texture, specify_texture, bind_framebuffer,
         framebuffer_texture, framebuffer_renderbuffer, bind_renderbuffer,
         renderbuffer_storage, bind_buffer_base, bind_buffer, buffer_data,
         buffer_sub_data, map_buffer, write_mapped, unmap_buffer, put_bound_buffer,
         render, blit, paint_color, paint_depth.
  all: cbn; gl_cases; reflexivity.
Qed.

End Capabilities.

(** Evaluate the tests on a key that is known. *)
Ltac key_tests :=
  repeat match goal with
  | |- context [pressed ?k ?a ?k'] =>
      let v := eval vm_compute in (pressed k a k') in
      change (pressed k a k') with v
  | |- context [@bool_decide ?P ?d] =>
      let v := eval vm_compute in (@bool_decide P d) in
      change (@bool_decide P d) with v
  end;
  cbn [orb when].

Ltac preserve_switches :=
  repeat lazymatch goal with
  | |- preserves _ (call _) =>
      apply preserves_call; intros; unfold switches, is_enabled;
      rewrite gl_do_call, exec_cull_face by reflexivity; reflexivity
  | _ => preserve_step
  end.

Section Keyboard.
Context {FO : FloatOps} {IM : ImageType} {RA : Rasteriser}.
Context {CA : CameraOps} {PF : Platform} {SC : Scene}.

Lemma createFramebuffer_switches w h m : preserves switches (createFramebuffer w h m).
Proof.
  unfold createFramebuffer, createFramebuffer_object, createFramebuffer_color,
    createFramebuffer_depth, createFramebuffer_check, glGenFramebuffers1,
    glGenTextures1, glGenRenderbuffers1.
  preserve_switches.
Qed.

Lemma createFramebuffer_view w h m :
  preserves (λ a, (fov a, camera a, mainWindow_width a, mainWindow_height a, msaaLevel a))
    (createFramebuffer w h m).
Proof.
  unfold createFramebuffer, createFramebuffer_object, createFramebuffer_color,
    createFramebuffer_depth, createFramebuffer_check, glGenFramebuffers1,
    glGenTextures1, glGenRenderbuffers1.
  preserve.
Qed.

(** What a key event does to the switches. *)
Lemma keyCallback_switches_run key action a :
  ∃ a', keyCallback key action a = Some (tt, a') ∧
    switches a'
    = (windowShouldClose a || pressed key action GLFW_KEY_ESCAPE,
       xorb (wireframe a) (pressed key action GLFW_KEY_F2),
       xorb (depthTest a) (pressed key action GLFW_KEY_F4),
       xorb (tonemapping a) (pressed key action GLFW_KEY_F6),
       xorb (vsync a) (pressed key action GLFW_KEY_F5),
       (if pressed key action GLFW_KEY_F5
        then (if vsync a then 0 else 1) else swapInterval a),
       xorb (is_enabled (gl a) GL_CULL_FACE) (pressed key action GLFW_KEY_F3)).
Proof.
  destruct (decide (key = GLFW_KEY_F1 ∧ action = GLFW_PRESS)) as [[-> ->]|Hne].
  - destruct (dispatch_returns (KeyEvent GLFW_KEY_F1 GLFW_PRESS) a) as [[[] a'] H].
    exists a'. split; [exact H|]. key_tests.
    rewrite !xorb_false_r, orb_false_r.
    revert H. generalize a tt a'.
    change (preserves switches (keyCallback GLFW_KEY_F1 GLFW_PRESS)).
    unfold keyCallback. key_tests. unfold setProjection.
    preserve_switches. apply createFramebuffer_switches.
  - unfold keyCallback. destruct key, action; try (exfalso; by apply Hne).
    all: key_tests; unfold setProjection; prog.
    all: repeat (match goal with
                 | |- context [if ?b then _ else _] => destruct b eqn:?
                 end; prog).
    all: try (exfalso; cbn in *; congruence).
    all: eexists; (split; [reflexivity|]).
    all: unfold switches, is_enabled; cbn.
    all: rewrite ?xorb_false_r, ?orb_false_r, ?orb_true_r, ?xorb_true_r; try reflexivity.
    all: unfold gl_exec; cbn;
      repeat match goal with H : _ = _ |- _ => rewrite H end; reflexivity.
Qed.

(** The zoom keys.  In the two tests of the source [&&] binds tighter than
    [||]: the keypad keys zoom on every action, a release and a repeat
    included, the other two on a press only.  Zooming in subtracts one and
    takes 5 when the result compares less than 5, with the [<] of the
    source; zooming out adds one and takes 179 when the result compares
    greater than or equal to 180, with the [>=] of the source, which is not
    the negation of [<]; Backspace returns to 45.  Whatever the key, the
    projection of the camera is set again from the resulting field of view
    and the size of the window. *)
Theorem keyCallback_zoom :
  (∀ action a, ∃ a',
     keyCallback GLFW_KEY_KP_ADD action a = Some (tt, a') ∧
     fov a' = if flt (fov a - fconst 1)%F (fconst 5) then fconst 5
              else (fov a - fconst 1)%F) ∧
  (∀ action a, ∃ a',
     keyCallback GLFW_KEY_EQUAL action a = Some (tt, a') ∧
     fov a' = if bool_decide (action = GLFW_PRESS)
              then (if flt (fov a - fconst 1)%F (fconst 5) then fconst 5
                    else (fov a - fconst 1)%F)
              else fov a) ∧
  (∀ action a, ∃ a',
     keyCallback GLFW_KEY_KP_SUBTRACT action a = Some (tt, a') ∧
     fov a' = if fge (fov a + fconst 1)%F (fconst 180) then fconst 179
              else (fov a + fconst 1)%F) ∧
  (∀ action a, ∃ a',
     keyCallback GLFW_KEY_MINUS action a = Some (tt, a') ∧
     fov a' = if bool_decide (action = GLFW_PRESS)
              then (if fge (fov a + fconst 1)%F (fconst 180) then fconst 179
                    else (fov a + fconst 1)%F)
              else fov a) ∧
  (∀ action a, ∃ a',
     keyCallback GLFW_KEY_BACKSPACE action a = Some (tt, a') ∧
     fov a' = if bool_decide (action = GLFW_PRESS) then fconst 45 else fov a) ∧
  (∀ key action a, ∃ a',
     keyCallback key action a = Some (tt, a') ∧
     mainWindow_width a' = mainWindow_width a ∧
     mainWindow_height a' = mainWindow_height a ∧
     camera a'
     = SetProjection (fov a')
         (float_of_int (mainWindow_width a) / float_of_int (mainWindow_height a))%F
         nearClipPlane farClipPlane (camera a)).
Proof.
  repeat lazymatch goal with |- _ ∧ _ => split end.
  1-5: intros action a; unfold keyCallback; destruct action; key_tests;
    unfold setProjection; prog;
    repeat (match goal with
            | |- context [if ?b then _ else _] => destruct b eqn:?
            end; prog);
    try (exfalso; cbn in *; congruence);
    eexists; (split; reflexivity).
  intros key action a.
  destruct (decide (key = GLFW_KEY_F1 ∧ action = GLFW_PRESS)) as [[-> ->]|Hne].
  - destruct (dispatch_returns (KeyEvent GLFW_KEY_F1 GLFW_PRESS) a) as [[[] a'] H].
    exists a'. split; [exact H|]. cbn [dispatch] in H. unfold keyCallback in H.
    revert H. key_tests. unfold setProjection. intros H.
    apply bind_inv in H as ([] & a0 & [= <-] & H).
    apply bind_inv in H as ([] & a1 & H1 & H).
    assert ((fov a1, camera a1, mainWindow_width a1, mainWindow_height a1)
            = (fov a, camera a, mainWindow_width a, mainWindow_height a)) as E.
    { revert H1. generalize a tt a1.
      match goal with |- ∀ a x a', ?m a = Some (x, a') → _ =>
        change (preserves (λ a, (fov a, camera a, mainWindow_width a, mainWindow_height a)) m)
      end.
      unfold createFramebuffer, createFramebuffer_object, createFramebuffer_color,
        createFramebuffer_depth, createFramebuffer_check, glGenFramebuffers1,
        glGenTextures1, glGenRenderbuffers1.
      preserve. }
    injection E as E1 E2 E3 E4. revert H. prog. intros [= <-]. cbn.
    rewrite E1, E2, E3, E4. done.
  - unfold keyCallback. destruct key, action; try (exfalso; by apply Hne).
    all: key_tests; unfold setProjection; prog.
    all: repeat (match goal with
                 | |- context [if ?b then _ else _] => destruct b eqn:?
                 end; prog).
    all: eexists; (split; [reflexivity|]); repeat split.
Qed.

(** Every key event is handled, and toggles exactly the switch of its key:
    Escape closes, F2 the wireframe, F4 the depth test, F6 the tonemapping, F5
    vsync together with the swap interval, F3 face culling, each on a press
    only; no other key and no release or repeat touches a switch. *)
Theorem keyCallback_switches key action a :
  ∃ a', keyCallback key action a = Some (tt, a') ∧
    windowShouldClose a' = windowShouldClose a || pressed key action GLFW_KEY_ESCAPE ∧
    wireframe a' = xorb (wireframe a) (pressed key action GLFW_KEY_F2) ∧
    depthTest a' = xorb (depthTest a) (pressed key action GLFW_KEY_F4) ∧
    tonemapping a' = xorb (tonemapping a) (pressed key action GLFW_KEY_F6) ∧
    vsync a' = xorb (vsync a) (pressed key action GLFW_KEY_F5) ∧
    swapInterval a'
    = (if pressed key action GLFW_KEY_F5
       then (if vsync a then 0 else 1) else swapInterval a) ∧
    is_enabled (gl a') GL_CULL_FACE
    = xorb (is_enabled (gl a) GL_CULL_FACE) (pressed key action GLFW_KEY_F3).
Proof.
  destruct (keyCallback_switches_run key action a) as (a' & Hrun & Hs).
  exists a'. split; [exact Hrun|].
  unfold switches in Hs. injection Hs as H1 H2 H3 H4 H5 H6 H7.
  split; [exact H1|]. split; [exact H2|]. split; [exact H3|]. split; [exact H4|].
  split; [exact H5|]. split; [exact H6|exact H7].
Qed.

End Keyboard.
(** ** The sample count *)
Section Samples.
Context {FO : FloatOps} {IM : ImageType} {RA : Rasteriser}.
Context {CA : CameraOps} {PF : Platform} {SC : Scene}.
#[local] Arguments createFramebuffer : simpl never.

(** F1 switches between one sample and [MSAA_SAMPLES] and recreates the
    framebuffer at the size of the window with the new sample count,
    releasing the images it replaces. *)
Theorem keyCallback_F1 a :
  handles_valid a →
  ∃ a', keyCallback GLFW_KEY_F1 GLFW_PRESS a = Some (tt, a') ∧
    msaaLevel a' = (if 1 <? msaaLevel a then 1 else MSAA_SAMPLES) ∧
    handles_valid a' ∧
    List.filter is_image_allocation (trace a')
    = List.filter is_image_allocation (trace a)
      ++ (release_texture (gl a) (renderTarget a)
          ++ [glGenTextures (renderTarget a');
              color_image (mainWindow_width a) (mainWindow_height a) (msaaLevel a')])
      ++ (release_renderbuffer (gl a) (depthStencil a)
          ++ [glGenRenderbuffers (depthStencil a');
              depth_image (mainWindow_width a) (mainWindow_height a) (msaaLevel a')]).
Proof.
  intros Hv.
  set (level := if 1 <? msaaLevel a then 1 else MSAA_SAMPLES).
  destruct (createFramebuffer_spec (mainWindow_width a) (mainWindow_height a) level
              (set_msaaLevel level a) Hv)
    as (a2 & Hrun & Hv2 & _ & _ & _ & _ & _ & _ & _ & _ & Htr).
  pose proof (createFramebuffer_view _ _ _ _ _ _ Hrun) as Hview. cbv beta in Hview.
  injection Hview as E1 E2 E3 E4 E5.
  exists (set_camera
            (SetProjection (fov a2)
               (float_of_int (mainWindow_width a2) / float_of_int (mainWindow_height a2))%F
               nearClipPlane farClipPlane (camera a2)) a2).
  split.
  { unfold keyCallback. key_tests. unfold setProjection. prog.
    subst level. destruct (1 <? msaaLevel a); prog; rewrite Hrun; reflexivity. }
  split; [exact E5|]. split; [exact Hv2|].
  change (trace (set_camera _ a2)) with (trace a2).
  change (renderTarget (set_camera _ a2)) with (renderTarget a2).
  change (depthStencil (set_camera _ a2)) with (depthStencil a2).
  change (msaaLevel (set_camera _ a2)) with (msaaLevel a2).
  rewrite E5. exact Htr.
Qed.


(** [resizeCallback] records the new size, sets the viewport and the
    projection, and recreates the framebuffer at that size with the current
    sample count. *)
Theorem resizeCallback_recreates width height a :
  handles_valid a →
  ∃ a', resizeCallback width height a = Some (tt, a') ∧
    mainWindow_width a' = width ∧ mainWindow_height a' = height ∧
    msaaLevel a' = msaaLevel a ∧
    camera a'
    = SetProjection (fov a) (float_of_int width / float_of_int height)%F
        nearClipPlane farClipPlane (camera a) ∧
    handles_valid a' ∧
    List.filter is_image_allocation (trace a')
    = List.filter is_image_allocation (trace a)
      ++ (release_texture (gl a) (renderTarget a)
          ++ [glGenTextures (renderTarget a'); color_image width height (msaaLevel a)])
      ++ (release_renderbuffer (gl a) (depthStencil a)
          ++ [glGenRenderbuffers (depthStencil a'); depth_image width height (msaaLevel a)]).
Proof.
  intros [Hc Hd]. rewrite resizeCallback_run.
  set (a0 := set_camera _ _).
  assert (textures (gl a0) = textures (gl a) ∧ renderbuffers (gl a0) = renderbuffers (gl a))
    as [Ht Hr].
  { subst a0. cbn. rewrite gl_do_call.
    split; [by apply exec_textures|by apply exec_renderbuffers]. }
  destruct (createFramebuffer_spec width height (msaaLevel a) a0)
    as (a2 & Hrun & Hv2 & _ & _ & _ & _ & _ & _ & _ & _ & Htr).
  { split.
    - change (renderTarget a0) with (renderTarget a).
      by rewrite (is_texture_ext (gl a) (gl a0)).
    - change (depthStencil a0) with (depthStencil a).
      by rewrite (is_renderbuffer_ext (gl a) (gl a0)). }
  pose proof (createFramebuffer_view _ _ _ _ _ _ Hrun) as Hview. cbv beta in Hview.
  injection Hview as E1 E2 E3 E4 E5.
  exists a2. split; [exact Hrun|].
  split; [exact E3|]. split; [exact E4|]. split; [exact E5|]. split; [exact E2|].
  split; [exact Hv2|]. rewrite Htr. unfold release_texture, release_renderbuffer.
  rewrite (is_texture_ext (gl a) (gl a0)), (is_renderbuffer_ext (gl a) (gl a0)) by done.
  change (renderTarget a0) with (renderTarget a).
  change (depthStencil a0) with (depthStencil a).
  replace (List.filter is_image_allocation (trace a0))
    with (List.filter is_image_allocation (trace a)); [reflexivity|].
  change (trace a0)
    with (trace (do_call (glViewport 0 0 width height)
                   (set_mainWindow_height height (set_mainWindow_width width a)))).
  rewrite trace_do_call, filter_app. cbn. by rewrite app_nil_r.
Qed.

End Samples.
(** ** The main loop *)
Section Loop.
Context {FO : FloatOps} {IM : ImageType} {RA : Rasteriser}.
Context {CA : CameraOps} {PF : Platform} {SC : Scene}.

Lemma dispatch_closes e a a' :
  dispatch e a = Some (tt, a') →
  windowShouldClose a' = windowShouldClose a || closes_window e.
Proof.
  destruct e as [w h|key action|x y]; cbn [dispatch closes_window].
  - intros H. rewrite orb_false_r. revert H. generalize a tt a'.
    change (preserves windowShouldClose (resizeCallback w h)).
    unfold resizeCallback, setProjection, createFramebuffer, createFramebuffer_object,
      createFramebuffer_color, createFramebuffer_depth, createFramebuffer_check,
      glGenFramebuffers1, glGenTextures1, glGenRenderbuffers1.
    preserve.
  - intros H. destruct (keyCallback_switches_run key action a) as (a'' & H' & Hs).
    rewrite H in H'. injection H' as <-. by injection Hs.
  - intros [= <-]. by rewrite orb_false_r.
Qed.

Lemma events_close events a a' :
  for_each events dispatch a = Some (tt, a') →
  windowShouldClose a' = windowShouldClose a || existsb closes_window events.
Proof.
  revert a. induction events as [|e events IH]; intros a H.
  - injection H as <-. by rewrite orb_false_r.
  - cbn [for_each] in H. apply bind_inv in H as ([] & a1 & H1 & H).
    apply IH in H. apply dispatch_closes in H1. rewrite H, H1. cbn.
    by rewrite orb_assoc.
Qed.

Lemma processInput_windowShouldClose input dt :
  preserves windowShouldClose (processInput input dt).
Proof.
  unfold processInput, setProjection, initialCameraTransformation. preserve.
Qed.

Lemma renderScene_windowShouldClose : preserves windowShouldClose renderScene.
Proof.
  unfold renderScene, renderScene_offscreen, renderScene_begin, renderScene_floor,
    renderScene_cubes, renderScene_light, renderScene_present, updateTransformBlock,
    updateProgramData, bindTextures, updateInstanceData, updateInstance.
  preserve.
Qed.

Lemma frame_closes f a a' :
  frame f a = Some (tt, a') →
  windowShouldClose a' = windowShouldClose a || existsb closes_window (frame_events f).
Proof.
  unfold frame. intros ([] & a1 & H1 & ([] & a2 & H2 & H3)%bind_inv)%bind_inv.
  apply events_close in H1. apply processInput_windowShouldClose in H2.
  apply renderScene_windowShouldClose in H3. by rewrite H3, H2, H1.
Qed.

(** [mainLoop] does nothing once the window is to be closed; a frame in
    which Escape is pressed is still processed and rendered and is the last
    one; after any other frame the loop goes on. *)
Theorem mainLoop_stops :
  (∀ frames a, windowShouldClose a = true → mainLoop frames a = Some (tt, a)) ∧
  (∀ f rest a a1,
     windowShouldClose a = false → frame f a = Some (tt, a1) →
     mainLoop (f :: rest) a
     = if existsb closes_window (frame_events f) then Some (tt, a1) else mainLoop rest a1).
Proof.
  split.
  - intros frames a H. destruct frames; [reflexivity|].
    cbn [mainLoop]. unfold mbind, Prog_bind, get. by rewrite H.
  - intros f rest a a1 Hopen Hf. cbn [mainLoop].
    unfold mbind at 1. unfold Prog_bind, get. rewrite Hopen.
    rewrite (bind_run _ _ _ _ _ Hf).
    apply frame_closes in Hf. rewrite Hopen in Hf. cbn in Hf.
    destruct (existsb _ _); [|reflexivity].
    destruct rest; [reflexivity|]. cbn [mainLoop]. unfold mbind, Prog_bind, get.
    by rewrite Hf.
Qed.

(** A negative [numCubes] never reaches the [reserve] of [createGeometry],
    which would throw: converted to [unsigned int] for the comparison with
    [MAX_INSTANCES] it is a large number and [initOpenGL] fails.  [main] then
    returns -1 where the OpenGL entry points were loaded, so that [shutDown]
    can be called, and returns nothing else on any platform. *)
Theorem negative_numCubes_rejected :
  numCubes < 0 →
  (∀ a, createGeometry a = None) ∧
  (∀ a, ∃ a', initOpenGL a = Some (false, a')) ∧
  (∀ frames a, entry_points_loaded = true → ∃ a', main frames a = Some (-1, a')) ∧
  (∀ frames a, entry_points_loaded = false → main frames a = None) ∧
  (∀ frames a r a', main frames a = Some (r, a') → r = -1).
Proof.
  intros Hneg.
  assert (MAX_INSTANCES < to_unsigned numCubes) as Hbig.
  { pose proof numCubes_int. rewrite to_unsigned_negative by done.
    unfold MAX_INSTANCES. lia. }
  split; [|split; [|split; [|split]]].
  - intros a. unfold createGeometry.
    assert (always_returns createGeometry_meshes) as R1.
    { unfold createGeometry_meshes, CreateQuadNormalTangentTex,
        CreateCubeNormalTangentTex, glGenVertexArrays1. returns. }
    assert (always_returns createGeometry_instancing) as R2.
    { unfold createGeometry_instancing, glGenBuffers1. returns. }
    assert (always_returns createGeometry_transform) as R3.
    { unfold createGeometry_transform, glGenBuffers1. returns. }
    destruct (R1 a) as [[[] a1] H1]. rewrite (bind_run _ _ _ _ _ H1).
    destruct (R2 a1) as [[[] a2] H2]. rewrite (bind_run _ _ _ _ _ H2).
    destruct (R3 a2) as [[[] a3] H3]. rewrite (bind_run _ _ _ _ _ H3).
    unfold createGeometry_cubes. apply Z.ltb_lt in Hneg. rewrite Hneg. reflexivity.
  - intros a. by apply initOpenGL_rejects.
  - intros frames a Hloaded. by apply main_rejects.
  - intros frames a Hloaded. by apply main_unloaded.
  - intros frames a r a'. by apply main_never_succeeds.
Qed.

(** A frame changes nothing of the program but the staging vector of the
    instances; everything else it does is done to the context. *)
Theorem renderScene_footprint a a' :
  renderScene a = Some (tt, a') →
  a' = set_gl_log (gl_log a') (set_gl (gl a') (set_instanceData (instanceData a') a)).
Proof.
  intros (q & c & _ & _ & _ & Heq & _)%renderScene_inv.
  rewrite run_calls_eq in Heq.
  remember (instanceData a') as st eqn:Hst. clear Hst. subst a'. reflexivity.
Qed.

End Loop.
(** ** Frames that are rendered *)
Section BufferShape.
Context {FO : FloatOps} {IM : ImageType} {RA : Rasteriser}.

Lemma delete_texture_buffers n g : buffers (delete_texture n g) = buffers g.
Proof. unfold delete_texture. gl_cases; reflexivity. Qed.
Lemma delete_renderbuffer_buffers n g : buffers (delete_renderbuffer n g) = buffers g.
Proof. unfold delete_renderbuffer. gl_cases; reflexivity. Qed.
Lemma delete_framebuffer_buffers n g : buffers (delete_framebuffer n g) = buffers g.
Proof. unfold delete_framebuffer. gl_cases; reflexivity. Qed.
Lemma delete_vertex_array_buffers n g : buffers (delete_vertex_array n g) = buffers g.
Proof. reflexivity. Qed.

(** A command outside [touches_buffers] leaves the buffer store alone. *)
Lemma exec_buffers c g :
  touches_buffers c = false → buffers (gl_exec c g) = buffers g.
Proof.
  destruct c; unfold gl_exec; cbn; intros H; try discriminate H; try reflexivity.
  all: try (apply foldl_preserves; intros;
            first [apply delete_texture_buffers | apply delete_renderbuffer_buffers
                  | apply delete_framebuffer_buffers | apply delete_vertex_array_buffers]).
  all: unfold set_capability, set_uniform, bind_texture, specify_texture, bind_framebuffer,
         framebuffer_texture, framebuffer_renderbuffer, bind_renderbuffer,
         renderbuffer_storage, render, blit, paint_color, paint_depth.
  all: cbn; gl_cases; reflexivity.
Qed.

Lemma buffer_shape_insert g g' n k b b' :
  buffers g !! k = Some b → buf_size b' = buf_size b → buf_mapped b' = buf_mapped b →
  buffers g' = <[k := b']> (buffers g) →
  buffer_shape g' n = buffer_shape g n.
Proof.
  intros Hk Hs Hm Hg'. unfold buffer_shape. rewrite Hg'.
  destruct (decide (k = n)) as [->|Hne].
  - rewrite lookup_insert_eq, Hk. cbn. by rewrite Hs, Hm.
  - by rewrite lookup_insert_ne.
Qed.

Lemma bind_buffer_shape k g n : buffer_shape (bind_buffer k g) n = buffer_shape g n.
Proof.
  unfold bind_buffer. destruct (k =? 0)%N; [reflexivity|].
  destruct (buffers g !! k) as [b|] eqn:Hk; [|reflexivity].
  eapply (buffer_shape_insert g _ n k b
            (MkBuffer true (buf_size b) (buf_data b) (buf_mapped b)) Hk); reflexivity.
Qed.

Lemma buffer_write_shape off size data b b' :
  buffer_write off size data b = Some b' →
  buf_size b' = buf_size b ∧ buf_mapped b' = buf_mapped b.
Proof. unfold buffer_write. destruct (_ && _); [|discriminate]. by intros [= <-]. Qed.

(** Apart from the commands of [reshapes_buffers], no command changes the
    size of a buffer or maps or unmaps it. *)
Lemma exec_buffer_shape c g n :
  reshapes_buffers c = false → buffer_shape (gl_exec c g) n = buffer_shape g n.
Proof.
  intros Hr. destruct (touches_buffers c) eqn:Ht;
    [|unfold buffer_shape; by rewrite exec_buffers].
  destruct c; try discriminate; unfold gl_exec.
  - apply bind_buffer_shape.
  - unfold bind_buffer_base. destruct (_ || _); [|reflexivity].
    etransitivity; [|apply (bind_buffer_shape buffer)]. reflexivity.
  - unfold buffer_sub_data, bound_buffer.
    destruct (_ =? _)%N; [reflexivity|].
    destruct (buffers g !! _) as [b|] eqn:Hb; [|reflexivity].
    destruct (buf_mapped b); [reflexivity|].
    destruct (buffer_write _ _ _ _) as [b'|] eqn:Hw; [|reflexivity].
    apply buffer_write_shape in Hw as [Hs Hm].
    eapply (buffer_shape_insert g _ n _ b b' Hb Hs Hm). reflexivity.
  - unfold write_mapped, bound_buffer.
    destruct (_ =? _)%N; [reflexivity|].
    destruct (buffers g !! _) as [b|] eqn:Hb; [|reflexivity].
    destruct (buf_mapped b); [|reflexivity].
    destruct (buffer_write _ _ _ _) as [b'|] eqn:Hw; [|reflexivity].
    apply buffer_write_shape in Hw as [Hs Hm].
    eapply (buffer_shape_insert g _ n _ b b' Hb Hs Hm). reflexivity.
Qed.

Lemma gl_run_buffer_shape cs g n :
  forallb (λ c, negb (reshapes_buffers c)) cs = true →
  buffer_shape (gl_run cs g) n = buffer_shape g n.
Proof.
  revert g. induction cs as [|c cs IH]; intros g H; [reflexivity|].
  cbn in H. apply andb_prop in H as [Hc Hcs]. apply negb_true_iff in Hc.
  change (gl_run (c :: cs) g) with (gl_run cs (gl_exec c g)).
  rewrite IH by done. by apply exec_buffer_shape.
Qed.

(** Binding an existing buffer to an indexed binding point binds it to the
    generic one too. *)
Lemma bind_buffer_base_binding i n g s m :
  n ≠ 0%N → buffer_shape g n = Some (s, m) →
  uniform_buffer_binding (gl_exec (glBindBufferBase i n) g) = n.
Proof.
  intros Hn Hs. unfold buffer_shape in Hs.
  destruct (buffers g !! n) as [b|] eqn:Hb; [|discriminate].
  unfold gl_exec, bind_buffer_base. apply N.eqb_neq in Hn. rewrite Hn.
  rewrite bool_decide_eq_true_2 by (rewrite Hb; eauto). cbn [orb].
  unfold bind_buffer. rewrite Hn, Hb. reflexivity.
Qed.

(** Mapping the bound buffer, copying into it and unmapping it. *)
Lemma upload_shape g n s size data :
  uniform_buffer_binding g = n → n ≠ 0%N → buffer_shape g n = Some (s, false) →
  0 < s → 0 ≤ size ≤ s →
  can_map g = true ∧
  mapped_fits size (gl_exec glMapBuffer g) = true ∧
  buffer_shape (gl_run [glMapBuffer; memcpy_mapped size data; glUnmapBuffer] g) n
  = Some (s, false).
Proof.
  intros Hbind Hn Hs Hpos Hsize. unfold buffer_shape in Hs.
  destruct (buffers g !! n) as [b|] eqn:Hb; [|discriminate].
  injection Hs as Hs Hm. apply N.eqb_neq in Hn.
  assert (can_map g = true) as Hcan.
  { unfold can_map, bound_buffer. rewrite Hbind, Hn, Hb, Hm. cbn.
    apply Z.ltb_lt. lia. }
  split; [exact Hcan|].
  set (b1 := MkBuffer (buf_created b) (buf_size b) (buf_data b) true).
  assert (uniform_buffer_binding (gl_exec glMapBuffer g) = n ∧
          buffers (gl_exec glMapBuffer g) !! n = Some b1) as [B1 L1].
  { unfold gl_exec, map_buffer. rewrite Hcan. unfold bound_buffer.
    rewrite Hbind, Hn, Hb. unfold put_bound_buffer. cbn. rewrite Hbind.
    by rewrite lookup_insert_eq. }
  split.
  { unfold mapped_fits, bound_buffer. rewrite B1, Hn, L1. cbn.
    rewrite !andb_true_iff, !Z.leb_le. lia. }
  unfold gl_run. cbn [foldl].
  set (g1 := gl_exec glMapBuffer g) in *.
  assert (∃ b2, uniform_buffer_binding (gl_exec (memcpy_mapped size data) g1) = n ∧
            buffers (gl_exec (memcpy_mapped size data) g1) !! n = Some b2 ∧
            buf_size b2 = s) as (b2 & B2 & L2 & S2).
  { unfold gl_exec at 1 2. unfold write_mapped, bound_buffer. rewrite B1, Hn, L1. cbn.
    unfold buffer_write. cbn.
    destruct (_ && _).
    - eexists. unfold put_bound_buffer. cbn. rewrite B1, lookup_insert_eq. done.
    - exists b1. done. }
  set (g2 := gl_exec (memcpy_mapped size data) g1) in *.
  unfold gl_exec, unmap_buffer, bound_buffer. rewrite B2, Hn, L2.
  unfold buffer_shape, put_bound_buffer. cbn. rewrite B2, lookup_insert_eq. cbn.
  by rewrite S2.
Qed.

End BufferShape.

Section FramesDefined.
Context {FO : FloatOps} {IM : ImageType} {RA : Rasteriser}.
Context {CA : CameraOps} {PF : Platform} {SC : Scene}.

(** [frame_ready] in terms of the shape of the instancing buffer. *)
Lemma frame_ready_shape a :
  frame_ready a ↔
  is_Some (quad a) ∧ is_Some (cube a) ∧ 0 ≤ numCubes ≤ MAX_INSTANCES ∧
  numCubes < Z.of_nat (length (cubePositions a)) ∧
  Z.of_nat (length (instanceData a)) = MAX_INSTANCES ∧
  instancingBuffer a ≠ 0%N ∧
  ∃ s, buffer_shape (gl a) (instancingBuffer a) = Some (s, false) ∧
       0 < s ∧ numCubes * sizeof_InstanceData ≤ s.
Proof.
  unfold frame_ready, buffer_shape. split.
  - intros (Hq & Hc & Hn & Hp & Hl & Hi & b & Hb & Hm & Hpos & Hs).
    repeat (split; [assumption|]). exists (buf_size b). rewrite Hb. cbn. by rewrite Hm.
  - intros (Hq & Hc & Hn & Hp & Hl & Hi & s & Hb & Hpos & Hs).
    repeat (split; [assumption|]).
    destruct (buffers (gl a) !! instancingBuffer a) as [b|]; [|discriminate].
    injection Hb as <- Hm. by exists b.
Qed.

Lemma frame_ready_ext a a' : frame_view a' = frame_view a → frame_ready a → frame_ready a'.
Proof.
  unfold frame_view. intros [= Hq Hc Hp Hd Hi Hs]. rewrite !frame_ready_shape.
  by rewrite Hs, Hq, Hc, Hp, Hd, Hi.
Qed.

(** The commands of a frame before the instancing buffer is bound, and after
    it is unmapped. *)
Lemma frame_calls_split a q c st :
  ∃ pre post,
    offscreen_calls_map a q = pre ++ [glBindBufferBase 1 (instancingBuffer a)] ∧
    frame_calls a q c st
    = offscreen_calls_map a q
      ++ [glMapBuffer; memcpy_mapped upload_size (instance_bytes upload_size st);
          glUnmapBuffer] ++ post ∧
    forallb (λ c, negb (reshapes_buffers c)) pre = true ∧
    forallb (λ c, negb (reshapes_buffers c)) post = true.
Proof.
  unfold frame_calls, offscreen_calls, offscreen_calls_draw, offscreen_calls_map,
    renderScene_cubes_calls_map, renderScene_cubes_calls_draw.
  eexists (renderScene_begin_calls a ++ renderScene_floor_calls a q
           ++ [glUseProgram (shaderProgram a Instancing)]
           ++ updateProgramData_calls a (shaderProgram a Instancing) lightPosition),
          ((bindTextures_calls a (loadedTextures a Diffuse) (loadedTextures a Normal)
              (loadedTextures a Specular) (loadedTextures a Occlusion)
            ++ [glBindVertexArray (GetVAO c);
                glDrawElementsInstanced GL_TRIANGLES (GetIBOSize c) numCubes;
                glBindBufferBase 1 0])
           ++ renderScene_light_calls a ++ renderScene_present_calls a).
  split; [by rewrite <- !app_assoc|]. split; [by rewrite <- !app_assoc|].
  unfold renderScene_begin_calls, renderScene_floor_calls, renderScene_light_calls,
    renderScene_present_calls, updateTransformBlock_calls, updateProgramData_calls,
    bindTextures_calls.
  destruct (depthTest a), (1 <? msaaLevel a), (wireframe a), (tonemapping a);
    split; reflexivity.
Qed.

Lemma upload_size_small : 0 ≤ numCubes ≤ MAX_INSTANCES →
  upload_size = numCubes * sizeof_InstanceData.
Proof.
  unfold upload_size, to_size_t, MAX_INSTANCES, sizeof_InstanceData, sizeof_mat3x4,
    sizeof_float. intros H.
  rewrite (Z.mod_small numCubes) by lia. apply Z.mod_small. lia.
Qed.

(** From a ready state a frame is rendered, and leaves a ready state. *)
Lemma renderScene_ready a :
  frame_ready a → ∃ a', renderScene a = Some (tt, a') ∧ frame_ready a'.
Proof.
  intros Hready. pose proof Hready as Hr.
  apply frame_ready_shape in Hr
    as ([q Hq] & [c Hc] & Hn & Hp & Hl & Hi & s & Hshape & Hpos & Hs).
  rewrite renderScene_run, Hq, Hc.
  destruct (packInstances_total (cubePositions a) (seqZ 0 numCubes) (instanceData a))
    as [st Hst].
  { intros i Hi'%elem_of_seqZ. unfold MAX_INSTANCES in *. lia. }
  rewrite Hst. apply packInstances_frame in Hst as (Hlen & _ & _).
  destruct (frame_calls_split a q c st) as (pre & post & Hmap & Hframe & Hpre & Hpost).
  set (g := gl_run (offscreen_calls_map a q) (gl a)).
  assert (uniform_buffer_binding g = instancingBuffer a ∧
          buffer_shape g (instancingBuffer a) = Some (s, false)) as [Hbind Hshape'].
  { subst g. rewrite Hmap, gl_run_app.
    change (gl_run [?c] ?g) with (gl_exec c g). split.
    - eapply bind_buffer_base_binding; [done|]. by rewrite gl_run_buffer_shape.
    - rewrite exec_buffer_shape by done. by rewrite gl_run_buffer_shape. }
  pose proof Hs as Hs'. rewrite <- upload_size_small in Hs' by done.
  assert (0 ≤ upload_size) as Hup.
  { rewrite upload_size_small by done. unfold sizeof_InstanceData, sizeof_mat3x4, sizeof_float.
    lia. }
  assert (0 ≤ upload_size ≤ s) as Hfit by lia.
  destruct (upload_shape g _ s upload_size (instance_bytes upload_size st)
              Hbind Hi Hshape' Hpos Hfit) as (Hcan & Hfits & Hafter).
  assert (upload_defined g st = true) as ->.
  { unfold upload_defined. rewrite Hcan, Hfits. cbn. apply Z.leb_le.
    rewrite upload_size_small by done. unfold MAX_INSTANCES in *.
    unfold sizeof_InstanceData, sizeof_mat3x4, sizeof_float. lia. }
  eexists. split; [reflexivity|].
  apply frame_ready_shape. autorewrite with globals.
  change (instanceData (run_calls _ (set_instanceData st a))) with st.
  rewrite Hq, Hc, gl_run_calls.
  change (gl (set_instanceData st a)) with (gl a).
  repeat (split; [first [by eauto | lia | assumption]|]).
  exists s. split; [|done].
  rewrite Hframe, !gl_run_app. fold g. by rewrite gl_run_buffer_shape.
Qed.

(** The update alone, which binds the instancing buffer itself. *)
Lemma updateInstanceData_ready a :
  frame_ready a → ∃ a', updateInstanceData a = Some (tt, a') ∧ frame_ready a'.
Proof.
  intros Hready. pose proof Hready as Hr.
  apply frame_ready_shape in Hr
    as (Hq & Hc & Hn & Hp & Hl & Hi & s & Hshape & Hpos & Hs).
  rewrite updateInstanceData_run.
  destruct (packInstances_total (cubePositions a) (seqZ 0 numCubes) (instanceData a))
    as [st Hst].
  { intros i Hi'%elem_of_seqZ. unfold MAX_INSTANCES in *. lia. }
  rewrite Hst. apply packInstances_frame in Hst as (Hlen & _ & _). cbv zeta.
  rewrite gl_do_call. change (gl (set_instanceData st a)) with (gl a).
  set (g := gl_exec (glBindBufferBase 1 (instancingBuffer a)) (gl a)).
  assert (uniform_buffer_binding g = instancingBuffer a ∧
          buffer_shape g (instancingBuffer a) = Some (s, false)) as [Hbind Hshape'].
  { subst g. split.
    - by eapply bind_buffer_base_binding.
    - by rewrite exec_buffer_shape. }
  pose proof Hs as Hs'. rewrite <- upload_size_small in Hs' by done.
  assert (0 ≤ upload_size) as Hup.
  { rewrite upload_size_small by done. unfold sizeof_InstanceData, sizeof_mat3x4, sizeof_float.
    lia. }
  assert (0 ≤ upload_size ≤ s) as Hfit by lia.
  destruct (upload_shape g _ s upload_size (instance_bytes upload_size st)
              Hbind Hi Hshape' Hpos Hfit) as (Hcan & Hfits & Hafter).
  assert (upload_defined g st = true) as ->.
  { unfold upload_defined. rewrite Hcan, Hfits. cbn. apply Z.leb_le.
    rewrite upload_size_small by done. unfold MAX_INSTANCES in *.
    unfold sizeof_InstanceData, sizeof_mat3x4, sizeof_float. lia. }
  eexists. split; [reflexivity|].
  apply frame_ready_shape. autorewrite with globals.
  change (instanceData (run_calls _ (do_call _ (set_instanceData st a)))) with st.
  rewrite gl_run_calls, gl_do_call.
  change (gl (set_instanceData st a)) with (gl a). fold g.
  repeat (split; [first [assumption | lia]|]).
  exists s. by rewrite Hafter.
Qed.

End FramesDefined.

(** Programs whose commands leave the buffers in shape. *)
Ltac preserve_frame_view :=
  repeat lazymatch goal with
  | |- preserves _ (call _) =>
      apply preserves_call; intros; unfold frame_view;
      rewrite gl_do_call, exec_buffer_shape by reflexivity; reflexivity
  | _ => preserve_step
  end.

Section LoopDefined.
Context {FO : FloatOps} {IM : ImageType} {RA : Rasteriser}.
Context {CA : CameraOps} {PF : Platform} {SC : Scene}.

Lemma dispatch_frame_view e : preserves frame_view (dispatch e).
Proof.
  destruct e; unfold dispatch, resizeCallback, keyCallback, mouseMoveCallback,
    setProjection, createFramebuffer, createFramebuffer_object, createFramebuffer_color,
    createFramebuffer_depth, createFramebuffer_check, glGenFramebuffers1,
    glGenTextures1, glGenRenderbuffers1.
  all: preserve_frame_view.
Qed.

Lemma processInput_frame_view input dt : preserves frame_view (processInput input dt).
Proof.
  unfold processInput, setProjection, initialCameraTransformation. preserve_frame_view.
Qed.

Lemma processInput_returns input dt : always_returns (processInput input dt).
Proof. unfold processInput, setProjection, initialCameraTransformation. returns. Qed.

(** Every iteration of the main loop is defined from a ready state, and
    leaves a ready state. *)
Lemma frame_ready_frame f a :
  frame_ready a → ∃ a', frame f a = Some (tt, a') ∧ frame_ready a'.
Proof.
  intros Hready. unfold frame.
  destruct (returns_for_each (frame_events f) dispatch dispatch_returns a) as [[[] a1] H1].
  rewrite (bind_run _ _ _ _ _ H1).
  apply (preserves_for_each frame_view _ _ dispatch_frame_view) in H1.
  destruct (processInput_returns (frame_input f) (frame_dt f) a1) as [[[] a2] H2].
  rewrite (bind_run _ _ _ _ _ H2). apply processInput_frame_view in H2.
  apply renderScene_ready, (frame_ready_ext a1); [done|]. by apply (frame_ready_ext a).
Qed.

Lemma mainLoop_ready frames a :
  frame_ready a → ∃ a', mainLoop frames a = Some (tt, a') ∧ frame_ready a'.
Proof.
  revert a. induction frames as [|f frames IH]; intros a Hready; [by exists a|].
  cbn [mainLoop]. unfold mbind at 1. unfold Prog_bind, get.
  destruct (windowShouldClose a); [by exists a|].
  destruct (frame_ready_frame f a Hready) as (a1 & H1 & Hready1).
  rewrite (bind_run _ _ _ _ _ H1). by apply IH.
Qed.

End LoopDefined.
(** ** The state that start-up leaves *)
Section CreateBuffers.
Context {FO : FloatOps} {IM : ImageType} {RA : Rasteriser}.

(** A buffer that is generated, bound and given a data store. *)
Lemma gen_bind_data_shape n size g :
  n ≠ 0%N → 0 ≤ size →
  buffer_shape
    (gl_run [glGenBuffers n; glBindBuffer n; glBufferData size; glBindBuffer 0] g) n
  = Some (size, false).
Proof.
  intros Hn Hsize. unfold gl_run. cbn [foldl].
  rewrite exec_buffer_shape by reflexivity.
  apply N.eqb_neq in Hn.
  assert (uniform_buffer_binding (gl_exec (glBindBuffer n) (gl_exec (glGenBuffers n) g)) = n ∧
          is_Some (buffers (gl_exec (glBindBuffer n) (gl_exec (glGenBuffers n) g)) !! n))
    as [Hbind [b Hb]].
  { unfold gl_exec, bind_buffer. cbn. rewrite Hn, lookup_insert_eq. cbn.
    rewrite lookup_insert_eq. eauto. }
  set (g1 := gl_exec (glBindBuffer n) (gl_exec (glGenBuffers n) g)) in *.
  unfold gl_exec at 1. unfold buffer_data, bound_buffer. rewrite Hbind, Hn, Hb.
  apply Z.ltb_ge in Hsize. rewrite Hsize.
  unfold buffer_shape, put_bound_buffer. cbn. rewrite Hbind, lookup_insert_eq. reflexivity.
Qed.

(** Creating another buffer leaves the shape of a buffer that exists. *)
Lemma gen_other_shape n m size index g s :
  buffer_shape g n = Some s → m ∉ dom (buffers g) → m ≠ 0%N →
  buffer_shape
    (gl_run [glGenBuffers m; glBindBuffer m; glBufferData size;
             glBindBufferBase index m; glBindBuffer 0] g) n
  = Some s.
Proof.
  intros Hs Hm Hm0. unfold gl_run. cbn [foldl].
  assert (n ≠ m) as Hne.
  { intros ->. apply Hm, elem_of_dom. unfold buffer_shape in Hs.
    destruct (buffers g !! m); [eauto|discriminate]. }
  rewrite !(exec_buffer_shape (glBindBuffer 0)), (exec_buffer_shape (glBindBufferBase _ _))
    by reflexivity.
  apply N.eqb_neq in Hm0.
  assert (uniform_buffer_binding (gl_exec (glBindBuffer m) (gl_exec (glGenBuffers m) g)) = m ∧
          buffer_shape (gl_exec (glBindBuffer m) (gl_exec (glGenBuffers m) g)) n = Some s)
    as [Hbind Hshape].
  { split.
    - unfold gl_exec, bind_buffer. cbn. rewrite Hm0, lookup_insert_eq. reflexivity.
    - rewrite exec_buffer_shape by reflexivity. unfold gl_exec, buffer_shape. cbn.
      by rewrite lookup_insert_ne. }
  set (g1 := gl_exec (glBindBuffer m) (gl_exec (glGenBuffers m) g)) in *.
  rewrite <- Hshape. unfold gl_exec at 1. unfold buffer_data, bound_buffer.
  rewrite Hbind, Hm0. destruct (buffers g1 !! m) as [b|]; [|reflexivity].
  destruct (size <? 0); [reflexivity|].
  unfold buffer_shape, put_bound_buffer. cbn. rewrite Hbind. by rewrite lookup_insert_ne.
Qed.

End CreateBuffers.

Section StartupReady.
Context {FO : FloatOps} {IM : ImageType} {RA : Rasteriser}.
Context {CA : CameraOps} {PF : Platform} {SC : Scene}.

(** The staging vector is created with its capacity, line 666, and start-up
    does not touch it. *)
Lemma initial_capacity : Z.of_nat (length (instanceData initial_app)) = MAX_INSTANCES.
Proof. reflexivity. Qed.

Lemma startup_instanceData : preserves instanceData startup.
Proof.
  unfold startup, initOpenGL, setSwapInterval, resizeCallback, setProjection,
    initialCameraTransformation, createFramebuffer, createFramebuffer_object,
    createFramebuffer_color, createFramebuffer_depth, createFramebuffer_check,
    glGenFramebuffers1, glGenRenderbuffers1, compileShaders, glCreateProgram1,
    createGeometry, createGeometry_meshes, createGeometry_instancing,
    createGeometry_transform, createGeometry_cubes, push_random, push_back, random,
    CreateQuadNormalTangentTex, CreateCubeNormalTangentTex, glGenVertexArrays1,
    glGenBuffers1, loadTextures, CreateSamplers, CreateSingleColorTexture,
    CreateCheckerBoardTexture, LoadTexture, CreateTexture, setTexture,
    glGenSamplers1, glGenTextures1.
  preserve.
Qed.

(** The meshes exist once [createGeometry] has made them. *)
Lemma createGeometry_meshes_spec a a' :
  createGeometry_meshes a = Some (tt, a') →
  is_Some (quad a') ∧ is_Some (cube a') ∧
  shaderProgram a' Instancing = shaderProgram a Instancing.
Proof.
  unfold createGeometry_meshes, CreateQuadNormalTangentTex, CreateCubeNormalTangentTex,
    glGenVertexArrays1. prog. intros [= <-]. autorewrite with globals. eauto.
Qed.

(** The instancing buffer is a new object of the size the instancing program
    reports for its block. *)
Lemma createGeometry_instancing_spec a a' :
  createGeometry_instancing a = Some (tt, a') →
  0 ≤ uniform_block_data_size (shaderProgram a Instancing) "InstanceBuffer" →
  instancingBuffer a' ≠ 0%N ∧
  buffer_shape (gl a') (instancingBuffer a')
  = Some (uniform_block_data_size (shaderProgram a Instancing) "InstanceBuffer", false) ∧
  quad a' = quad a ∧ cube a' = cube a ∧
  shaderProgram a' Instancing = shaderProgram a Instancing.
Proof.
  unfold createGeometry_instancing, glGenBuffers1. prog. intros [= <-] Hsize.
  autorewrite with globals. rewrite ?gl_do_call. autorewrite with globals.
  split; [apply gen_name_nonzero|]. split; [|done].
  apply (gen_bind_data_shape _ _ (gl a)); [apply gen_name_nonzero|done].
Qed.

(** The transform block is another object. *)
Lemma createGeometry_transform_spec a a' s :
  createGeometry_transform a = Some (tt, a') →
  buffer_shape (gl a) (instancingBuffer a) = Some s →
  instancingBuffer a' = instancingBuffer a ∧
  buffer_shape (gl a') (instancingBuffer a') = Some s ∧
  quad a' = quad a ∧ cube a' = cube a ∧
  shaderProgram a' Instancing = shaderProgram a Instancing.
Proof.
  unfold createGeometry_transform, glGenBuffers1. prog. intros [= <-] Hs.
  autorewrite with globals. rewrite ?gl_do_call. autorewrite with globals.
  split; [done|]. split; [|done].
  apply (gen_other_shape _ _ _ _ (gl a)); [done|apply gen_name_fresh|apply gen_name_nonzero].
Qed.

Lemma createGeometry_cubes_geometry :
  preserves (λ a, (quad a, cube a, instancingBuffer a, gl a, shaderProgram a Instancing))
    createGeometry_cubes.
Proof. unfold createGeometry_cubes, push_random, push_back, random. preserve. Qed.

Lemma loadTextures_geometry :
  preserves (λ a, (frame_view a, shaderProgram a Instancing)) loadTextures.
Proof.
  unfold loadTextures, CreateSamplers, CreateSingleColorTexture,
    CreateCheckerBoardTexture, LoadTexture, CreateTexture, setTexture,
    glGenSamplers1, glGenTextures1.
  repeat lazymatch goal with
  | |- preserves _ (call _) =>
      apply preserves_call; intros; unfold frame_view;
      rewrite gl_do_call, exec_buffer_shape by reflexivity; reflexivity
  | _ => preserve_step
  end.
Qed.

Lemma createGeometry_shaderProgram :
  preserves (λ a, shaderProgram a Instancing) createGeometry.
Proof.
  unfold createGeometry, createGeometry_meshes, createGeometry_instancing,
    createGeometry_transform, createGeometry_cubes, push_random, push_back, random,
    CreateQuadNormalTangentTex, CreateCubeNormalTangentTex, glGenVertexArrays1,
    glGenBuffers1.
  preserve.
Qed.

(** What [createGeometry] leaves for the frames. *)
Lemma createGeometry_geometry a a' :
  createGeometry a = Some (tt, a') →
  0 ≤ uniform_block_data_size (shaderProgram a Instancing) "InstanceBuffer" →
  is_Some (quad a') ∧ is_Some (cube a') ∧ instancingBuffer a' ≠ 0%N ∧
  buffer_shape (gl a') (instancingBuffer a')
  = Some (uniform_block_data_size (shaderProgram a Instancing) "InstanceBuffer", false) ∧
  shaderProgram a' Instancing = shaderProgram a Instancing.
Proof.
  unfold createGeometry.
  intros ([] & a1 & H1 & ([] & a2 & H2 & ([] & a3 & H3 & H4)%bind_inv)%bind_inv)%bind_inv.
  apply createGeometry_meshes_spec in H1 as (Hq & Hc & Hp1). rewrite <- Hp1. intros Hsize.
  apply createGeometry_instancing_spec in H2 as (Hi & Hs & Hq2 & Hc2 & Hp2); [|done].
  apply (createGeometry_transform_spec _ _ _ H3) in Hs as (Hi3 & Hs3 & Hq3 & Hc3 & Hp3).
  apply createGeometry_cubes_geometry in H4. injection H4 as Hq4 Hc4 Hi4 Hg4 Hp4.
  rewrite Hq4, Hc4, Hi4, Hg4, Hp4, Hq3, Hc3, Hp3, Hq2, Hc2, Hp2.
  repeat split; try assumption. by rewrite Hi3.
Qed.

(** When start-up succeeds on a staging vector of full capacity, and the
    instancing program reports a block that holds [numCubes] records, the
    frames have what they need. *)
Lemma startup_ready a a' :
  startup a = Some (true, a') →
  Z.of_nat (length (instanceData a)) = MAX_INSTANCES →
  0 < uniform_block_data_size (shaderProgram a' Instancing) "InstanceBuffer" →
  numCubes * sizeof_InstanceData
  ≤ uniform_block_data_size (shaderProgram a' Instancing) "InstanceBuffer" →
  frame_ready a'.
Proof.
  intros H Hcap Hpos Hfit. rewrite frame_ready_shape.
  pose proof (startup_positions _ _ H) as Hlen.
  pose proof (startup_instanceData _ _ _ H) as Hdata.
  unfold startup in H. apply bind_inv in H as (ok & a1 & H1 & H).
  destruct ok; cbn in H; [|apply bind_inv in H as (? & ? & _ & [=])].
  apply initOpenGL_accepts in H1.
  apply bind_inv in H as (ok & a2 & H2 & H).
  destruct ok; cbn in H; [|apply bind_inv in H as (? & ? & _ & [=])].
  apply bind_inv in H as ([] & a3 & H3 & ([] & a4 & H4 & [= <-])%bind_inv).
  apply loadTextures_geometry in H4. unfold frame_view in H4.
  injection H4 as Hq Hc _ _ Hi Hs Hp. rewrite Hp in Hpos, Hfit.
  rewrite (createGeometry_shaderProgram _ _ _ H3) in Hpos, Hfit.
  apply createGeometry_geometry in H3 as (Hq3 & Hc3 & Hi3 & Hs3 & _); [|lia].
  rewrite Hs, Hq, Hc, Hi, Hdata, Hcap. repeat split; try assumption; try lia.
  eexists. split; [exact Hs3|]. split; assumption.
Qed.

(** The loop of the instance update stays within the two vectors after a
    successful start-up, whatever the platform reports. *)
Lemma startup_staging a a' :
  startup a = Some (true, a') →
  Z.of_nat (length (instanceData a)) = MAX_INSTANCES →
  is_Some (packInstances (cubePositions a') (seqZ 0 numCubes) (instanceData a')).
Proof.
  intros H Hcap.
  pose proof (startup_positions _ _ H) as Hlen.
  pose proof (startup_instanceData _ _ _ H) as Hdata.
  assert (0 ≤ numCubes ≤ MAX_INSTANCES) as Hn.
  { unfold startup in H. apply bind_inv in H as (ok & a1 & H1 & H).
    destruct ok; cbn in H; [|apply bind_inv in H as (? & ? & _ & [=])].
    by apply initOpenGL_accepts in H1. }
  apply packInstances_total. intros i Hi%elem_of_seqZ. rewrite Hdata. lia.
Qed.

End StartupReady.

(** ** The instance count and the capacity *)
Section InstanceCount.
Context {FO : FloatOps} {IM : ImageType} {RA : Rasteriser}.
Context {CA : CameraOps} {PF : Platform} {SC : Scene}.

(** C1. A scene with more than [MAX_INSTANCES] cubes is rejected at start-up:
    [initOpenGL] returns [false]; [main] then returns -1 where the OpenGL
    entry points were loaded, and returns nothing else anywhere: the main
    loop is not entered.  [initOpenGL] returns [true] only for a count within
    the capacity.  The staging vector is created with [MAX_INSTANCES]
    entries.  After a successful start-up it still has them and the loop of
    the instance update is defined on it; when moreover the instancing
    program reports a uniform block that holds [numCubes] records, the state
    is ready for the frames.  On a state that is ready the instance update is
    defined, and so is the whole main loop, each leaving a state that is
    ready, with the capacity of the vector among the rest.  Whenever the
    update returns, it has written only the first [numCubes] entries of the
    vector, kept its length, and copied no more bytes than the vector
    holds. *)
Theorem instance_count_bounded :
  (∀ a, MAX_INSTANCES < numCubes → ∃ a', initOpenGL a = Some (false, a')) ∧
  (∀ frames a, MAX_INSTANCES < numCubes →
     (entry_points_loaded = true → ∃ a', main frames a = Some (-1, a')) ∧
     (∀ r a', main frames a = Some (r, a') → r = -1)) ∧
  (∀ a a', initOpenGL a = Some (true, a') → 0 ≤ numCubes ≤ MAX_INSTANCES) ∧
  Z.of_nat (length (instanceData initial_app)) = MAX_INSTANCES ∧
  (∀ a', startup initial_app = Some (true, a') →
     Z.of_nat (length (instanceData a')) = MAX_INSTANCES ∧
     (∃ a'', for_each (seqZ 0 numCubes) updateInstance a' = Some (tt, a'')) ∧
     (0 < uniform_block_data_size (shaderProgram a' Instancing) "InstanceBuffer" →
      numCubes * sizeof_InstanceData
      ≤ uniform_block_data_size (shaderProgram a' Instancing) "InstanceBuffer" →
      frame_ready a')) ∧
  (∀ a, frame_ready a → ∃ a', updateInstanceData a = Some (tt, a') ∧ frame_ready a') ∧
  (∀ frames a, frame_ready a → ∃ a', mainLoop frames a = Some (tt, a') ∧ frame_ready a') ∧
  (∀ a a', updateInstanceData a = Some (tt, a') →
     length (instanceData a') = length (instanceData a) ∧
     (∀ j : nat, numCubes ≤ Z.of_nat j → instanceData a' !! j = instanceData a !! j) ∧
     numCubes ≤ Z.of_nat (length (instanceData a)) ∧
     upload_size ≤ Z.of_nat (length (instanceData a)) * sizeof_InstanceData).
Proof.
  assert (MAX_INSTANCES < numCubes → MAX_INSTANCES < to_unsigned numCubes) as Hu.
  { intros Hn. unfold MAX_INSTANCES in *. rewrite to_unsigned_nonneg; lia. }
  repeat lazymatch goal with |- _ ∧ _ => split end.
  - intros a H. apply initOpenGL_rejects, Hu, H.
  - intros frames a H. split.
    + apply main_rejects, Hu, H.
    + intros r a' Hmain. exact (main_never_succeeds _ _ _ _ (Hu H) Hmain).
  - apply initOpenGL_accepts.
  - apply initial_capacity.
  - intros a' H. pose proof initial_capacity as Hcap. split; [|split].
    + by rewrite (startup_instanceData _ _ _ H).
    + destruct (startup_staging _ _ H Hcap) as [st Hst].
      rewrite for_each_updateInstance, Hst. eauto.
    + by apply (startup_ready initial_app).
  - apply updateInstanceData_ready.
  - apply mainLoop_ready.
  - apply updateInstanceData_bounds.
Qed.

End InstanceCount.
(** ** The theorems at work on the demo platform *)
Section Examples.
#[local] Existing Instances Demo.floats Demo.images Demo.rasteriser Demo.fixed_camera
  Demo.platform Demo.ten_cubes.
Import glm.

(** A program that evaluates to a result has one. *)
Lemma evaluated {A} (x : option A) :
  match x with Some _ => true | None => false end = true → ∃ y, x = Some y.
Proof. destruct x as [y|]; [by exists y|discriminate]. Qed.

(** A start-up that evaluates to success has a state to go on with. *)
Lemma succeeded (x : option (bool * App)) :
  match x with Some (true, _) => true | _ => false end = true → ∃ a, x = Some (true, a).
Proof. destruct x as [[[] a]|]; [by exists a|discriminate..]. Qed.

(** A scene of 2000 cubes is turned away; the scene of ten cubes starts up,
    is ready for its frames, and runs two of them. *)
Lemma instance_count_bounded_example :
  (MAX_INSTANCES < numCubes (Scene := Demo.too_many_cubes) ∧
   ∃ a1, initOpenGL (SC := Demo.too_many_cubes) initial_app = Some (false, a1)) ∧
  Z.of_nat (length (instanceData initial_app)) = MAX_INSTANCES ∧
  ∃ a' a'',
    startup initial_app = Some (true, a') ∧ frame_ready a' ∧
    mainLoop [Demo.quiet; Demo.quiet] a' = Some (tt, a'') ∧ frame_ready a''.
Proof.
  split; [|split].
  - assert (MAX_INSTANCES < numCubes (Scene := Demo.too_many_cubes)) as Hbig
      by (vm_compute; reflexivity).
    split; [exact Hbig|].
    destruct (instance_count_bounded (SC := Demo.too_many_cubes)) as (Hreject & _).
    exact (Hreject initial_app Hbig).
  - destruct instance_count_bounded as (_ & _ & _ & Hcap & _). exact Hcap.
  - destruct instance_count_bounded as (_ & _ & _ & _ & Hstart & _ & Hloop & _).
    destruct (succeeded (startup initial_app)) as [a' E]; [vm_compute; reflexivity|].
    destruct (Hstart a' E) as (_ & _ & Hready).
    assert (frame_ready a') as Hr.
    { apply Hready; vm_compute; [reflexivity|discriminate]. }
    destruct (Hloop [Demo.quiet; Demo.quiet] a' Hr) as (a'' & Hrun & Hr'').
    exists a', a''. split; [exact E|]. split; [exact Hr|]. split; [exact Hrun|exact Hr''].
Defined.
(** After start-up the instance update runs, and the fourth cube is stored
    as the theorem says. *)
Lemma updateInstanceData_stores_transposed_transform_example :
  ∃ a' p,
    updateInstanceData Demo.ready = Some (tt, a') ∧ 0 ≤ 3 < numCubes ∧
    cubePositions Demo.ready !! Z.to_nat 3 = Some p ∧
    instanceData a' !! Z.to_nat 3
    = Some (MkInstanceData (mat3x4_of_mat4 (transpose (cubeTransformation 3 p)))).
Proof.
  destruct (evaluated (updateInstanceData Demo.ready)) as [[[] a'] E];
    [vm_compute; reflexivity|].
  assert (0 ≤ 3 < numCubes) as Hi by (vm_compute; split; [discriminate|reflexivity]).
  destruct (updateInstanceData_stores_transposed_transform Demo.ready a' 3 E Hi)
    as (p & Hp & Hst & _).
  exists a', p. split; [exact E|]. split; [exact Hi|]. split; [exact Hp|exact Hst].
Defined.

(** The packing of that cube is undone by unpacking. *)
Lemma instance_packing_invertible_example :
  ∃ a' d,
    updateInstanceData Demo.ready = Some (tt, a') ∧ 0 ≤ 3 < numCubes ∧
    cubePositions Demo.ready !! Z.to_nat 3 = Some (Vec3 (-3) 4 (-5)) ∧
    row_w (cubeTransformation 3 (Vec3 (-3) 4 (-5))) = Vec4 (fconst 0) (fconst 0) (fconst 0) (fconst 1) ∧
    instanceData a' !! Z.to_nat 3 = Some d ∧
    unpack_instance (transformation d) = cubeTransformation 3 (Vec3 (-3) 4 (-5)).
Proof.
  destruct (evaluated (updateInstanceData Demo.ready)) as [[[] a'] E];
    [vm_compute; reflexivity|].
  assert (0 ≤ 3 < numCubes) as Hi by (vm_compute; split; [discriminate|reflexivity]).
  assert (cubePositions Demo.ready !! Z.to_nat 3 = Some (Vec3 (-3) 4 (-5))) as Hp
    by (vm_compute; reflexivity).
  assert (row_w (cubeTransformation 3 (Vec3 (-3) 4 (-5)))
          = Vec4 (fconst 0) (fconst 0) (fconst 0) (fconst 1)) as Hrow
    by (vm_compute; reflexivity).
  destruct (instance_packing_invertible Demo.ready a' 3 _ E Hi Hp Hrow) as (d & Hd & Hu).
  exists a', d. repeat split; try assumption; apply Hi.
Defined.


(** Recreating the framebuffer at another size after start-up. *)
Lemma createFramebuffer_no_leak_example :
  handles_valid Demo.ready ∧
  ∃ a', createFramebuffer 1024 768 4 Demo.ready = Some (tt, a') ∧
    handles_valid a' ∧
    size (dom (textures (gl a'))) = size (dom (textures (gl Demo.ready))) ∧
    size (dom (renderbuffers (gl a'))) = size (dom (renderbuffers (gl Demo.ready))).
Proof.
  assert (handles_valid Demo.ready) as Hv by (split; right; vm_compute; reflexivity).
  split; [exact Hv|].
  destruct (createFramebuffer_no_leak 1024 768 4 Demo.ready Hv)
    as (a' & Hrun & Hv' & _ & _ & _ & Ht & _ & _ & _ & Hr & _).
  exists a'. split; [exact Hrun|]. split; [exact Hv'|].
  change (held (renderTarget Demo.ready)) with (held 1) in Ht.
  change (held (depthStencil Demo.ready)) with (held 1) in Hr.
  rewrite held_nonzero, size_singleton in Ht, Hr by done. split; lia.
Defined.

(** The transform block of the demo platform after start-up has the 112
    bytes that the layout needs. *)
Lemma transform_block_layout_example :
  transformBlockUBO Demo.ready ≠ 0%N ∧
  buffers (gl Demo.ready) !! transformBlockUBO Demo.ready
    = Some (MkBuffer true 112 ∅ false) ∧
  ∃ a' b',
    updateTransformBlock Demo.ready = Some (tt, a') ∧
    buffers (gl a') !! transformBlockUBO Demo.ready = Some b' ∧
    buf_data b' !! 12 = Some 3 ∧ buf_data b' !! 48 = Some 2 ∧ buf_data b' !! 112 = None.
Proof.
  assert (transformBlockUBO Demo.ready ≠ 0%N) as Hn by (vm_compute; discriminate).
  assert (buffers (gl Demo.ready) !! transformBlockUBO Demo.ready
          = Some (MkBuffer true 112 ∅ false)) as Hb by (vm_compute; reflexivity).
  split; [exact Hn|]. split; [exact Hb|].
  destruct (transform_block_layout Demo.ready _ Hn Hb eq_refl ltac:(vm_compute; discriminate))
    as (_ & (a' & b' & Hrun & _ & Hb' & _ & H1 & H2 & H3) & _).
  exists a', b'. split; [exact Hrun|]. split; [exact Hb'|].
  split; [exact (H1 3%nat ltac:(lia))|]. split; [exact (H2 0%nat ltac:(lia))|].
  rewrite H3 by lia. reflexivity.
Defined.

(** [createFramebuffer] with a negative width, no height and three samples. *)
Lemma createFramebuffer_checks_nothing_example :
  handles_valid Demo.ready ∧
  ∃ a', createFramebuffer (-800) 0 3 Demo.ready = Some (tt, a') ∧
    List.filter is_image_allocation (trace a')
    = List.filter is_image_allocation (trace Demo.ready)
      ++ [glDeleteTextures [1%N]; glGenTextures (renderTarget a');
          glTexImage2DMultisample GL_TEXTURE_2D_MULTISAMPLE 3 GL_RGB16F (-800) 0]
      ++ [glDeleteRenderbuffers [1%N]; glGenRenderbuffers (depthStencil a');
          glRenderbufferStorageMultisample 3 GL_DEPTH_COMPONENT32F (-800) 0].
Proof.
  assert (handles_valid Demo.ready) as Hv by (split; right; vm_compute; reflexivity).
  split; [exact Hv|].
  destruct (createFramebuffer_checks_nothing (-800) 0 3 Demo.ready Hv)
    as ((a' & Hrun & Htr) & _).
  exists a'. split; [exact Hrun|]. rewrite Htr.
  assert (release_texture (gl Demo.ready) (renderTarget Demo.ready)
          = [glDeleteTextures [1%N]]) as -> by (vm_compute; reflexivity).
  assert (release_renderbuffer (gl Demo.ready) (depthStencil Demo.ready)
          = [glDeleteRenderbuffers [1%N]]) as -> by (vm_compute; reflexivity).
  reflexivity.
Defined.

(** The same call, evaluated: nothing is checked before the render target
    and the depth buffer of the running program are deleted and new names
    generated; the three arguments reach the context as they are, which then
    reports an incomplete framebuffer. *)
Lemma createFramebuffer_accepts_bad_input :
  renderTarget Demo.ready = 1%N ∧ is_texture (gl Demo.ready) 1 = true ∧
  depthStencil Demo.ready = 1%N ∧ is_renderbuffer (gl Demo.ready) 1 = true ∧
  (λ a, (List.filter is_image_allocation (drop (length (trace Demo.ready)) (trace a)),
         stdout a))
    <$> exec (createFramebuffer (-800) 0 3) Demo.ready
  = Some ([glDeleteTextures [1%N]; glGenTextures 10;
           glTexImage2DMultisample GL_TEXTURE_2D_MULTISAMPLE 3 GL_RGB16F (-800) 0;
           glDeleteRenderbuffers [1%N]; glGenRenderbuffers 1;
           glRenderbufferStorageMultisample 3 GL_DEPTH_COMPONENT32F (-800) 0],
          ["Failed to create framebuffer"]).
Proof. repeat split; vm_compute; reflexivity. Qed.

End Examples.
(** ** More of the demo platform *)
Section MoreExamples.
#[local] Existing Instances Demo.floats Demo.images Demo.rasteriser Demo.fixed_camera
  Demo.platform Demo.ten_cubes.

(** F1 after start-up: from four samples to one. *)
Lemma keyCallback_F1_example :
  handles_valid Demo.ready ∧
  ∃ a', keyCallback GLFW_KEY_F1 GLFW_PRESS Demo.ready = Some (tt, a') ∧
    msaaLevel a' = 1 ∧ handles_valid a'.
Proof.
  assert (handles_valid Demo.ready) as Hv by (split; right; vm_compute; reflexivity).
  split; [exact Hv|].
  destruct (keyCallback_F1 Demo.ready Hv) as (a' & Hrun & Hm & Hv' & _).
  exists a'. split; [exact Hrun|]. split; [exact Hm|exact Hv'].
Defined.

(** A resize after start-up. *)
Lemma resizeCallback_recreates_example :
  handles_valid Demo.ready ∧
  ∃ a', resizeCallback 1024 768 Demo.ready = Some (tt, a') ∧
    mainWindow_width a' = 1024 ∧ mainWindow_height a' = 768 ∧ msaaLevel a' = 4 ∧
    handles_valid a'.
Proof.
  assert (handles_valid Demo.ready) as Hv by (split; right; vm_compute; reflexivity).
  split; [exact Hv|].
  destruct (resizeCallback_recreates 1024 768 Demo.ready Hv)
    as (a' & Hrun & Hw & Hh & Hm & _ & Hv' & _).
  exists a'. split; [exact Hrun|]. split; [exact Hw|]. split; [exact Hh|].
  split; [exact Hm|exact Hv'].
Defined.

(** The first frame touches nothing but the staging vector and the
    context. *)
Lemma renderScene_footprint_example :
  ∃ a', renderScene Demo.ready = Some (tt, a') ∧
    a' = set_gl_log (gl_log a') (set_gl (gl a') (set_instanceData (instanceData a') Demo.ready)).
Proof.
  destruct (evaluated (renderScene Demo.ready)) as [[[] a'] E];
    [vm_compute; reflexivity|].
  exists a'. split; [exact E|]. exact (renderScene_footprint Demo.ready a' E).
Defined.

(** With minus one cube, on a platform that loads its entry points. *)
Lemma negative_numCubes_rejected_example :
  @numCubes Demo.negative_cubes < 0 ∧ entry_points_loaded = true ∧
  ∃ a', @main _ _ _ _ _ Demo.negative_cubes [Demo.quiet] initial_app = Some (-1, a').
Proof.
  assert (@numCubes Demo.negative_cubes < 0) as Hneg by reflexivity.
  split; [exact Hneg|]. split; [reflexivity|].
  destruct (@negative_numCubes_rejected _ _ _ _ _ Demo.negative_cubes Hneg)
    as (_ & _ & H & _).
  exact (H [Demo.quiet] initial_app eq_refl).
Defined.

End MoreExamples.
